(** * REA project dashboard: filter and view-state synchronisation

    A shallow embedding of [src/components/ProjectMap.js] and
    [src/utils/convertExcelToGeoJSON.js].

    - [JS]       the JavaScript values and string operations the code uses;
    - [Mapbox]   the renderer's expression language, as far as the code
                 builds expressions of it, with its evaluation;
    - [ProjectMap] the component: its hooks, the map object behind
                 [map.current], the pending timers, and one function per
                 callback of the source;
    - [Excel]    the spreadsheet-to-feature conversion;
    - [Design]   the wording of the design document, to compare the code with;
    - [Scenario] concrete runs for the examples.

    How the component is modelled.  A state setter writes its cell at once,
    and an updater function passed to a setter is handed the value of the
    cell at that point: this is the pending state React hands to updaters.
    The callbacks created by a render ([toggleYear], [clearAll], ...) read
    the cells as that render saw them; React renders again after each event,
    so they read the cells as the previous event left them.  The callbacks
    registered on the map by the [load] callback are created once.  What the
    renderer returns (the clicked feature, the features a query finds) comes
    with the event.  [setTimeout] callbacks are kept in a queue; one may run
    when its delay has elapsed and no callback set earlier with the same or a
    shorter delay is still waiting.  The hover handlers and the popup of a
    point, which write no state, are left out. *)

From Stdlib Require Import ZArith String Ascii List Bool Lia SpecFloat.
From stdpp Require Import base option list strings gmap.

Set Warnings "-register-all".
Open Scope string_scope.

(* ================================================================== *)
(** ** JavaScript values and strings *)
(* ================================================================== *)

Module JS.

(** A JavaScript number is an IEEE 754 binary64. *)
Definition number := spec_float.
Definition prec : Z := 53.
Definition emax : Z := 1024.

Definition of_Z (z : Z) : number := binary_normalize prec emax z 0 false.
Definition div : number -> number -> number := SFdiv prec emax.
Definition mul : number -> number -> number := SFmul prec emax.

(** The primitive values a spreadsheet cell or a GeoJSON property holds. *)
Inductive value :=
| Undefined
| Null
| Bool (b : bool)
| Num (n : number)
| Str (s : string).

(** ToBoolean on numbers: [0], [-0] and [NaN] are falsy. *)
Definition truthy_number (n : number) : bool :=
  match n with
  | S754_zero _ | S754_nan => false
  | _ => true
  end.

Definition is_zero (n : number) : bool :=
  match n with
  | S754_zero _ => true
  | _ => false
  end.

(** ToBoolean. *)
Definition truthy (v : value) : bool :=
  match v with
  | Undefined | Null => false
  | Bool b => b
  | Num n => truthy_number n
  | Str s => negb (String.eqb s "")
  end.

(** [hay.includes(needle)], that is [hay.indexOf(needle) >= 0]. *)
Fixpoint includes (needle hay : string) : bool :=
  String.prefix needle hay ||
  match hay with
  | EmptyString => false
  | String _ rest => includes needle rest
  end.

(** [s.toUpperCase()] on ASCII text: the letters a..z are mapped to A..Z and
    every other character is kept. *)
Definition upper_ascii (c : ascii) : ascii :=
  let n := nat_of_ascii c in
  if (97 <=? n)%nat && (n <=? 122)%nat then ascii_of_nat (n - 32) else c.

Fixpoint toUpperCase (s : string) : string :=
  match s with
  | EmptyString => EmptyString
  | String c rest => String (upper_ascii c) (toUpperCase rest)
  end.

(** [s.replace(pat, rep)] with a one-character string pattern: only the first
    occurrence is replaced. *)
Fixpoint replace_first (pat rep : ascii) (s : string) : string :=
  match s with
  | EmptyString => EmptyString
  | String c rest =>
      if Ascii.eqb c pat then String rep rest
      else String c (replace_first pat rep rest)
  end.

(** [Math.round]: the integer nearest to [x], a tie going towards +infinity;
    [NaN], the infinities, the zeros and the integers are returned as they
    are, and a result of zero keeps the sign of [x]. *)
Definition Math_round (x : number) : number :=
  match x with
  | S754_finite s m e =>
      if (0 <=? e)%Z then x
      else
        let v := if s then Z.neg m else Z.pos m in
        let r := ((2 * v + 2 ^ (- e)) / 2 ^ (1 - e))%Z in
        if (r =? 0)%Z then S754_zero s else of_Z r
  | _ => x
  end.

End JS.

(* ================================================================== *)
(** ** The renderer's expressions *)
(* ================================================================== *)

Module Mapbox.

(** What an expression evaluates to. *)
Inductive Value :=
| VNull
| VBool (b : bool)
| VNum (n : JS.number)
| VStr (s : string)
| VArr (l : list string).

(** The properties of a feature: a JSON object. *)
Abbreviation Props := (gmap string Value).

(** The expressions the component builds:
    [s], [['literal', l]], [['get', k]], [['==', a, b]], [['in', a, b]],
    [['!', a]], [['all', ...cs]], [['case', c1, r1, ..., fallback]] and
    [['match', input, l1, r1, ..., fallback]]. *)
Inductive Expr :=
| EStr (s : string)
| ELiteral (l : list string)
| EGet (k : string)
| EEq (a b : Expr)
| EIn (needle hay : Expr)
| ENot (a : Expr)
| EAll (cs : list Expr)
| ECase (branches : list (Expr * Expr)) (fallback : Expr)
| EMatch (input : Expr) (arms : list (string * string)) (fallback : string).

(** [==] on evaluated operands: values of different types are different. *)
Definition value_eqb (a b : Value) : bool :=
  match a, b with
  | VNull, VNull => true
  | VBool x, VBool y => Bool.eqb x y
  | VNum x, VNum y => SFeqb x y
  | VStr x, VStr y => String.eqb x y
  | _, _ => false
  end.

Fixpoint mem (s : string) (l : list string) : bool :=
  match l with
  | [] => false
  | x :: l' => String.eqb x s || mem s l'
  end.

(** [['in', needle, hay]]: membership when [hay] is an array, substring test
    when it is a string, and [false] when [hay] is [null] (a property the
    feature does not have), whatever the needle.  A needle that is an array,
    and every other kind of haystack, is a runtime error ([None]); so is a
    needle that is not a string against a string haystack, which this model
    leaves out. *)
Definition eval_in (needle hay : Value) : option Value :=
  match hay, needle with
  | VNull, _ => Some (VBool false)
  | VArr _, VArr _ => None
  | VArr l, VStr s => Some (VBool (mem s l))
  | VArr l, _ => Some (VBool false)
  | VStr h, VStr n => Some (VBool (JS.includes n h))
  | _, _ => None
  end.

Fixpoint lookup_arm (s : string) (arms : list (string * string)) : option string :=
  match arms with
  | [] => None
  | (l, r) :: arms' => if String.eqb l s then Some r else lookup_arm s arms'
  end.

(** Evaluation on a feature's properties; [None] is a runtime error.  [all]
    and [case] stop at the first operand that decides the result. *)
Fixpoint eval (p : Props) (e : Expr) {struct e} : option Value :=
  match e with
  | EStr s => Some (VStr s)
  | ELiteral l => Some (VArr l)
  | EGet k => Some (default VNull (p !! k))
  | EEq a b =>
      match eval p a, eval p b with
      | Some va, Some vb => Some (VBool (value_eqb va vb))
      | _, _ => None
      end
  | EIn n h =>
      match eval p n, eval p h with
      | Some vn, Some vh => eval_in vn vh
      | _, _ => None
      end
  | ENot a =>
      match eval p a with
      | Some (VBool b) => Some (VBool (negb b))
      | _ => None
      end
  | EAll cs =>
      (fix all (cs : list Expr) : option Value :=
         match cs with
         | [] => Some (VBool true)
         | c :: cs' =>
             match eval p c with
             | Some (VBool true) => all cs'
             | Some (VBool false) => Some (VBool false)
             | _ => None
             end
         end) cs
  | ECase bs fb =>
      (fix cases (bs : list (Expr * Expr)) : option Value :=
         match bs with
         | [] => eval p fb
         | (c, r) :: bs' =>
             match eval p c with
             | Some (VBool true) => eval p r
             | Some (VBool false) => cases bs'
             | _ => None
             end
         end) bs
  | EMatch i arms fb =>
      match eval p i with
      | Some (VStr s) => Some (VStr (default fb (lookup_arm s arms)))
      | Some _ => Some (VStr fb)
      | None => None
      end
  end.

(** A layer's filter: [null] lets every feature pass, an expression lets the
    features pass on which it evaluates to [true]. *)
Definition passes (filter : option Expr) (p : Props) : bool :=
  match filter with
  | None => true
  | Some e =>
      match eval p e with
      | Some (VBool true) => true
      | _ => false
      end
  end.

End Mapbox.

(* ================================================================== *)
(** ** The component *)
(* ================================================================== *)

Module ProjectMap.
Import JS Mapbox.

(** *** Constants *)

Inductive View := coverage | performance | technology.

Definition YEARS : list string :=
  ["2019"; "2020"; "2021"; "2022"; "2023"; "2024"; "2025"].
Definition STATUSES : list string := ["COMPLETED"; "ONGOING"; "YET TO MOBILIZE"].
Definition TYPES : list string :=
  ["GRID"; "SOLAR STREET LIGHT"; "SOLAR MINI GRID"; "SOLAR HOME SYSTEM";
   "SOLAR BOREHOLE"; "SOLAR WATER PUMP"; "SOLAR PUMPING MACHINE";
   "SOLAR IRRIGATION PUMP"; "INJECTION SUBSTATION"; "TRAINING";
   "ELECTRIC VEHICLE"; "COUNTERPART FUNDING"; "VEHICLE PURCHASE"; "HQRTS";
   "GRID/SOLAR STREET LIGHT"; "GRID/SOLAR HOME SYSTEM"; "GRID/SOLAR MINI GRID";
   "SOLAR MINI GRID/SOLAR STREET LIGHT"; "SOLAR STREET LIGHT/SOLAR HOME SYSTEM"].

(** [TECH_COLORS], in the order of the object's keys. *)
Definition TECH_COLORS : list (string * string) :=
  [("SOLAR STREET LIGHT", "#f39c12"); ("GRID", "#E63946");
   ("SOLAR MINI GRID", "#3498db"); ("SOLAR HOME SYSTEM", "#9b59b6");
   ("OTHER", "#95a5a6")].

(** [pct(num, total)], together with the divisions its evaluation performs,
    each as the pair of dividend and divisor. *)
Definition pct_traced (num total : number) : number * list (number * number) :=
  if truthy_number total
  then (Math_round (mul (div num total) (of_Z 100)), [(num, total)])
  else (of_Z 0, []).

Definition pct (num total : number) : number := fst (pct_traced num total).

(** *** Region records and the technology breakdown *)

(** The properties of a feature of the [states] source. *)
Record RegionProps := mkRegionProps {
  shapeName : string;
  total : number;
  completed : number;
  ongoing : number;
  yet_to_mobilize : number;
  pct_completed : number;
  solar_street_light : number;
  grid : number;
  solar_mini_grid : number;
  solar_home_system : number;
  other_type : number
}.

Record TechSlice := mkTechSlice {
  label : string;
  value : number;
  color : string
}.

Definition tech_color (k : string) : string := default "" (lookup_arm k TECH_COLORS).

(** [techData] of [renderSidePanel]; [Number(x)] of a number is [x]. *)
Definition techData (d : RegionProps) : list TechSlice :=
  [ mkTechSlice "Solar Street Light" (solar_street_light d) (tech_color "SOLAR STREET LIGHT");
    mkTechSlice "Grid Extension" (grid d) (tech_color "GRID");
    mkTechSlice "Solar Mini Grid" (solar_mini_grid d) (tech_color "SOLAR MINI GRID");
    mkTechSlice "Solar Home System" (solar_home_system d) (tech_color "SOLAR HOME SYSTEM");
    mkTechSlice "Other" (other_type d) (tech_color "OTHER") ].

(** The percentages the technology panel prints, one per slice. *)
Definition techShares (d : RegionProps) : list number :=
  map (fun td => pct (value td) (total d)) (techData d).

(** *** The filter built by [applyFilter] *)

(** [if (stateName)]: [null] and the empty string are falsy. *)
Definition present (stateName : option string) : bool :=
  match stateName with
  | Some s => negb (String.eqb s "")
  | None => false
  end.

Definition nonempty (l : list string) : bool :=
  match l with [] => false | _ => true end.

(** The array [conditions] after the four conditional pushes. *)
Definition conditions (years statuses types : list string)
    (stateName : option string) : list Expr :=
  (if present stateName
   then [EEq (EGet "state") (EStr (default "" stateName))] else []) ++
  (if nonempty years then [EIn (EGet "year") (ELiteral years)] else []) ++
  (if nonempty statuses then [EIn (EGet "status") (ELiteral statuses)] else []) ++
  (if nonempty types then [EIn (EGet "type") (ELiteral types)] else []).

(** [conditions.length === 0 ? null : conditions.length === 1 ? conditions[0]
    : ['all', ...conditions]]. *)
Definition filterOf (conds : list Expr) : option Expr :=
  match conds with
  | [] => None
  | [c] => Some c
  | _ => Some (EAll conds)
  end.

Definition compile (years statuses types : list string)
    (stateName : option string) : option Expr :=
  filterOf (conditions years statuses types stateName).

(** *** The circle colours set by [switchView] *)

Definition performanceColor : Expr :=
  EMatch (EGet "status")
    [("COMPLETED", "#2ecc71"); ("ONGOING", "#f39c12"); ("YET TO MOBILIZE", "#E63946")]
    "#333333".

Definition technologyColor : Expr :=
  ECase
    [ (EAll [EIn (EStr "SOLAR STREET LIGHT") (EGet "type");
             ENot (EIn (EStr "MINI GRID") (EGet "type"))], EStr "#f39c12");
      (EIn (EStr "MINI GRID") (EGet "type"), EStr "#3498db");
      (EIn (EStr "SOLAR HOME") (EGet "type"), EStr "#9b59b6");
      (EIn (EStr "GRID") (EGet "type"), EStr "#E63946") ]
    (EStr "#95a5a6").

(** *** State *)

(** The [useState] cells of the component ([panelOpen], which only shows or
    hides the filter panel, is left out). *)
Record Hooks := mkHooks {
  view : View;
  selectedYears : list string;
  selectedStatus : list string;
  selectedTypes : list string;
  activeState : option string;
  stateData : option RegionProps;
  pointCount : option nat;
  mapReady : bool
}.

Definition setView v h :=
  mkHooks v (selectedYears h) (selectedStatus h) (selectedTypes h)
    (activeState h) (stateData h) (pointCount h) (mapReady h).
Definition setSelectedYears ys h :=
  mkHooks (view h) ys (selectedStatus h) (selectedTypes h)
    (activeState h) (stateData h) (pointCount h) (mapReady h).
Definition setSelectedStatus ss h :=
  mkHooks (view h) (selectedYears h) ss (selectedTypes h)
    (activeState h) (stateData h) (pointCount h) (mapReady h).
Definition setSelectedTypes ts h :=
  mkHooks (view h) (selectedYears h) (selectedStatus h) ts
    (activeState h) (stateData h) (pointCount h) (mapReady h).
Definition setActiveState a h :=
  mkHooks (view h) (selectedYears h) (selectedStatus h) (selectedTypes h)
    a (stateData h) (pointCount h) (mapReady h).
Definition setStateData d h :=
  mkHooks (view h) (selectedYears h) (selectedStatus h) (selectedTypes h)
    (activeState h) d (pointCount h) (mapReady h).
Definition setPointCount n h :=
  mkHooks (view h) (selectedYears h) (selectedStatus h) (selectedTypes h)
    (activeState h) (stateData h) n (mapReady h).
Definition setMapReady b h :=
  mkHooks (view h) (selectedYears h) (selectedStatus h) (selectedTypes h)
    (activeState h) (stateData h) (pointCount h) b.

(** A number written in decimal, [mantissa * 10 ^ exponent]. *)
Record Decimal := mkDecimal { mantissa : Z; exponent : Z }.

Inductive PaintValue :=
| PNum (d : Decimal)
| PExpr (e : Expr).

(** The calls on [map.current] that instruct the renderer. *)
Inductive Call :=
| CsetFilter (layer : string) (filter : option Expr)
| CsetLayoutProperty (layer prop val : string)
| CsetPaintProperty (layer prop : string) (val : PaintValue)
| CfitBounds (region : string) (padding : nat)
| CflyTo (center : Decimal * Decimal) (zoom : Decimal).

(** The style held by the map object: the layers added so far and, per layer,
    its filter (no entry: [null]), its visibility and its paint properties. *)
Record MapObj := mkMapObj {
  layers : list string;
  filters : gmap string Expr;
  visibility : gmap string string;
  paint : gmap (string * string) PaintValue
}.

(** The two callbacks handed to [setTimeout]. *)
Inductive TimerKind := InitialCount | Resample.

(** The second argument of [setTimeout], in milliseconds. *)
Definition delay (k : TimerKind) : nat :=
  match k with
  | InitialCount => 500
  | Resample => 300
  end.

Record Timer := mkTimer { kind : TimerKind; setAt : nat }.

Definition due (t : Timer) : nat := setAt t + delay (kind t).

(** The whole state: the hooks, [map.current], whether the handlers of the
    [load] callback are registered, the pending timers in the order they were
    set, the clock in milliseconds, and the renderer calls made so far. *)
Record World := mkWorld {
  hooks : Hooks;
  map : option MapObj;
  registered : bool;
  timers : list Timer;
  now : nat;
  issued : list Call
}.

Definition withHooks (f : Hooks -> Hooks) (w : World) : World :=
  mkWorld (f (hooks w)) (map w) (registered w) (timers w) (now w) (issued w).

Definition withMap (m : MapObj) (w : World) : World :=
  mkWorld (hooks w) (Some m) (registered w) (timers w) (now w) (issued w).

Definition issue (c : Call) (w : World) : World :=
  mkWorld (hooks w) (map w) (registered w) (timers w) (now w) (issued w ++ [c]).

(** [setTimeout(callback, delay k)]. *)
Definition setTimeout (k : TimerKind) (w : World) : World :=
  mkWorld (hooks w) (map w) (registered w) (timers w ++ [mkTimer k (now w)])
    (now w) (issued w).

(** The state of the first render, before the effect has run. *)
Definition initialHooks : Hooks :=
  mkHooks performance [] [] [] None None None false.

Definition initial : World := mkWorld initialHooks None false [] 0 [].

(** *** The renderer's methods *)

Definition getLayer (id : string) (m : MapObj) : bool := mem id (layers m).

Definition map_setFilter (layer : string) (f : option Expr) (m : MapObj) : MapObj :=
  mkMapObj (layers m)
    (match f with Some e => <[layer := e]> (filters m) | None => delete layer (filters m) end)
    (visibility m) (paint m).

Definition map_setLayoutProperty (layer val : string) (m : MapObj) : MapObj :=
  mkMapObj (layers m) (filters m) (<[layer := val]> (visibility m)) (paint m).

Definition map_setPaintProperty (layer prop : string) (v : PaintValue) (m : MapObj) : MapObj :=
  mkMapObj (layers m) (filters m) (visibility m) (<[(layer, prop) := v]> (paint m)).

(** A call that changes the style is recorded and applied to the map object;
    nothing happens without a map object. *)
Definition setFilter (layer : string) (f : option Expr) (w : World) : World :=
  match map w with
  | Some m => issue (CsetFilter layer f) (withMap (map_setFilter layer f m) w)
  | None => w
  end.

Definition setLayoutProperty (layer val : string) (w : World) : World :=
  match map w with
  | Some m =>
      issue (CsetLayoutProperty layer "visibility" val)
        (withMap (map_setLayoutProperty layer val m) w)
  | None => w
  end.

Definition setPaintProperty (layer prop : string) (v : PaintValue) (w : World) : World :=
  match map w with
  | Some m =>
      issue (CsetPaintProperty layer prop v)
        (withMap (map_setPaintProperty layer prop v m) w)
  | None => w
  end.

Definition home : Call :=
  CflyTo (mkDecimal 86753 (-4), mkDecimal 90820 (-4)) (mkDecimal 55 (-1)).

(** *** The callbacks *)

(** [applyFilter(years, statuses, types, stateName)]. *)
Definition applyFilter (years statuses types : list string)
    (stateName : option string) (w : World) : World :=
  match map w with
  | None => w
  | Some m =>
      if negb (getLayer "project-points" m) then w
      else
        let filter := filterOf (conditions years statuses types stateName) in
        setTimeout Resample (setFilter "project-points" filter w)
  end.

(** [switchView(newView)]. *)
Definition switchView (newView : View) (w : World) : World :=
  match map w with
  | None => w
  | Some _ =>
      if negb (mapReady (hooks w)) then w
      else
        let w := withHooks (setView newView) w in
        let w := withHooks (setActiveState None) w in
        let w := withHooks (setStateData None) w in
        let isCov := match newView with coverage => true | _ => false end in
        let isPerf := match newView with performance => true | _ => false end in
        let isTech := match newView with technology => true | _ => false end in
        let w := setLayoutProperty "project-points" (if isCov then "none" else "visible") w in
        let w := setLayoutProperty "state-choropleth" (if isCov then "visible" else "none") w in
        let w := setPaintProperty "state-fill" "fill-opacity"
                   (PNum (if isCov then mkDecimal 0 0 else mkDecimal 8 (-2))) w in
        let w := if isPerf
                 then setPaintProperty "project-points" "circle-color" (PExpr performanceColor) w
                 else w in
        if isTech
        then setPaintProperty "project-points" "circle-color" (PExpr technologyColor) w
        else w
  end.

(** [selected.includes(x) ? selected.filter(v => v !== x) : [...selected, x]]. *)
Definition toggle (x : string) (selected : list string) : list string :=
  if mem x selected
  then List.filter (fun v => negb (String.eqb v x)) selected
  else selected ++ [x].

(** The toggles read the selections of the render they were created in; the
    component is rendered again after every event, so these are the hooks. *)
Definition toggleYear (y : string) (w : World) : World :=
  let h := hooks w in
  let next := toggle y (selectedYears h) in
  let w := withHooks (setSelectedYears next) w in
  applyFilter next (selectedStatus h) (selectedTypes h) (activeState h) w.

Definition toggleStatus (s : string) (w : World) : World :=
  let h := hooks w in
  let next := toggle s (selectedStatus h) in
  let w := withHooks (setSelectedStatus next) w in
  applyFilter (selectedYears h) next (selectedTypes h) (activeState h) w.

Definition toggleType (t : string) (w : World) : World :=
  let h := hooks w in
  let next := toggle t (selectedTypes h) in
  let w := withHooks (setSelectedTypes next) w in
  applyFilter (selectedYears h) (selectedStatus h) next (activeState h) w.

(** [clearAll()]; [map.current?.flyTo] is skipped without a map object. *)
Definition clearAll (w : World) : World :=
  let w := withHooks (setSelectedYears []) w in
  let w := withHooks (setSelectedStatus []) w in
  let w := withHooks (setSelectedTypes []) w in
  let w := withHooks (setActiveState None) w in
  let w := withHooks (setStateData None) w in
  let w := applyFilter [] [] [] None w in
  match map w with
  | Some _ => issue home w
  | None => w
  end.

(** The three nested updaters
    [setSelectedYears(y => { setSelectedStatus(s => { setSelectedTypes(t =>
    { applyFilter(y, s, t, stateName); return t; }); return s; }); return y; })]:
    each updater is handed the pending value of its cell and returns it
    unchanged, so the call reads the three cells and leaves them as they are. *)
Definition withCurrentSelection (stateName : option string) (w : World) : World :=
  let y := selectedYears (hooks w) in
  let w := withHooks (setSelectedYears y) w in
  let s := selectedStatus (hooks w) in
  let w := withHooks (setSelectedStatus s) w in
  let t := selectedTypes (hooks w) in
  let w := applyFilter y s t stateName w in
  withHooks (setSelectedTypes t) w.

(** [handleStateClick(e)], with [props = e.features[0].properties]. *)
Definition handleStateClick (props : RegionProps) (w : World) : World :=
  let stateName := toUpperCase (shapeName props) in
  let w := withHooks (setActiveState (Some stateName)) w in
  let w := withHooks (setStateData (Some props)) w in
  let w := match map w with
           | Some _ => issue (CfitBounds (shapeName props) 40) w
           | None => w
           end in
  withCurrentSelection (Some stateName) w.

(** The [click] handler registered without a layer; [hits] is the length of
    what [queryRenderedFeatures(e.point, ...)] returned. *)
Definition handleMapClick (hits : nat) (w : World) : World :=
  match hits with
  | O =>
      let w := withHooks (setActiveState None) w in
      let w := withHooks (setStateData None) w in
      withCurrentSelection None w
  | S _ => w
  end.

(** The close button of the region chip in the filter panel. *)
Definition clearRegion (w : World) : World :=
  let h := hooks w in
  let w := withHooks (setActiveState None) w in
  let w := withHooks (setStateData None) w in
  let w := applyFilter (selectedYears h) (selectedStatus h) (selectedTypes h) None w in
  issue home w.

(** The close button of the side panel. *)
Definition closePanel (w : World) : World :=
  withHooks (setStateData None) (withHooks (setActiveState None) w).

(** The effect: [if (map.current) return; map.current = new mapboxgl.Map(...)]. *)
Definition mount (w : World) : World :=
  match map w with
  | Some _ => w
  | None => withMap (mkMapObj [] ∅ ∅ ∅) w
  end.

(** The [load] callback: the five layers are added, the first count is
    scheduled and the handlers are registered. *)
Definition onLoad (w : World) : World :=
  match map w with
  | None => w
  | Some m =>
      let m := mkMapObj
                 (layers m ++ ["state-choropleth"; "state-fill"; "state-fill-hover";
                               "state-border"; "project-points"])
                 (<["state-fill-hover" := EEq (EGet "shapeName") (EStr "")]> (filters m))
                 (<["state-choropleth" := "none"]> (visibility m))
                 (<[("project-points", "circle-color") := PExpr performanceColor]> (paint m)) in
      let w := setTimeout InitialCount (withMap m w) in
      mkWorld (hooks w) (map w) true (timers w) (now w) (issued w)
  end.

(** The timer callbacks; [visible] is the length of what
    [queryRenderedFeatures({ layers: ['project-points'] })] returns when the
    callback runs. *)
Definition onTimer (k : TimerKind) (visible : nat) (w : World) : World :=
  match k with
  | InitialCount =>
      withHooks (setMapReady true) (withHooks (setPointCount (Some visible)) w)
  | Resample => withHooks (setPointCount (Some visible)) w
  end.

(** *** Events *)

(** What can happen to the component.  An event carries what the outside
    supplies: the clicked feature's properties, the number of features a
    query of the renderer returned. *)
Inductive Event :=
| Mount
| Load
| Tick (dt : nat)
| Fire (i visible : nat)
| ToggleYear (y : string)
| ToggleStatus (s : string)
| ToggleType (t : string)
| ClearAll
| SwitchView (v : View)
| StateClick (props : RegionProps)
| MapClick (hits : nat)
| ClearRegion
| ClosePanel.

(** The [i]-th pending timer may run once its delay has elapsed and no timer
    set before it with the same or a shorter delay is still pending. *)
Definition can_fire (ts : list Timer) (i now : nat) : bool :=
  match ts !! i with
  | Some t =>
      (due t <=? now)%nat &&
      forallb (fun t' => (delay (kind t) <? delay (kind t'))%nat) (take i ts)
  | None => false
  end.

Definition advance (dt : nat) (w : World) : World :=
  mkWorld (hooks w) (map w) (registered w) (timers w) (now w + dt) (issued w).

Definition dropTimer (i : nat) (w : World) : World :=
  mkWorld (hooks w) (map w) (registered w) (delete i (timers w)) (now w) (issued w).

(** [showSidePanel]. *)
Definition showSidePanel (h : Hooks) : bool :=
  present (activeState h) && bool_decide (is_Some (stateData h)) &&
  match view h with performance => false | _ => true end.

(** One event; [None] when the event cannot occur in [w]: [load] fires once
    and only on a map object, the map handlers run only once registered, a
    timer runs only when [can_fire] allows it, and the two close buttons exist
    only while their panel is shown. *)
Definition exec (e : Event) (w : World) : option World :=
  match e with
  | Mount => Some (mount w)
  | Load =>
      match map w with
      | Some _ => if registered w then None else Some (onLoad w)
      | None => None
      end
  | Tick dt => Some (advance dt w)
  | Fire i visible =>
      match timers w !! i with
      | Some t =>
          if can_fire (timers w) i (now w)
          then Some (onTimer (kind t) visible (dropTimer i w))
          else None
      | None => None
      end
  | ToggleYear y => Some (toggleYear y w)
  | ToggleStatus s => Some (toggleStatus s w)
  | ToggleType t => Some (toggleType t w)
  | ClearAll => Some (clearAll w)
  | SwitchView v => Some (switchView v w)
  | StateClick props => if registered w then Some (handleStateClick props w) else None
  | MapClick hits => if registered w then Some (handleMapClick hits w) else None
  | ClearRegion =>
      match map w with
      | Some _ => if present (activeState (hooks w)) then Some (clearRegion w) else None
      | None => None
      end
  | ClosePanel => if showSidePanel (hooks w) then Some (closePanel w) else None
  end.

Fixpoint run (es : list Event) (w : World) : option World :=
  match es with
  | [] => Some w
  | e :: es' =>
      match exec e w with
      | Some w' => run es' w'
      | None => None
      end
  end.

Definition reachable (w : World) : Prop := exists es, run es initial = Some w.

(** The filter of the point layer, [null] when it has none. *)
Definition pointsFilter (w : World) : option Expr :=
  match map w with
  | Some m => filters m !! "project-points"
  | None => None
  end.

(** The three categorical selections. *)
Definition selection (h : Hooks) : list string * list string * list string :=
  (selectedYears h, selectedStatus h, selectedTypes h).

(** Whether [map.current] exists and has the point layer. *)
Definition hasPoints (w : World) : bool :=
  match map w with
  | Some m => getLayer "project-points" m
  | None => false
  end.

End ProjectMap.

(* ================================================================== *)
(** ** The spreadsheet conversion *)
(* ================================================================== *)

Module Excel.
Import JS.

(** A row of [XLSX.utils.sheet_to_json]: an object from column names to cell
    values. *)
Abbreviation Row := (gmap string value).

Record Geometry := mkGeometry {
  geometry_type : string;
  coordinates : list number
}.

Record Feature := mkFeature {
  feature_type : string;
  geometry : Geometry;
  properties : Row
}.

Record FeatureCollection := mkFeatureCollection {
  collection_type : string;
  features : list Feature
}.

Section Convert.

(** The two conversions between numbers and their decimal text are the
    language's own; the conversion is stated for any such pair. *)
Variable numberToString : number -> string.
Variable stringToNumber : string -> number.

(** [row.KEY]: [undefined] when the row has no such column. *)
Definition get (row : Row) (key : string) : value := default Undefined (row !! key).

(** [String(v)]. *)
Definition String_of (v : value) : string :=
  match v with
  | Undefined => "undefined"
  | Null => "null"
  | Bool true => "true"
  | Bool false => "false"
  | Num n => numberToString n
  | Str s => s
  end.

(** [Number(s)] of a string. *)
Definition Number (s : string) : number := stringToNumber s.

(** [row => row.LONGITUDE && row.LATITUDE], as the test of [filter]. *)
Definition hasCoordinates (row : Row) : bool :=
  truthy (get row "LONGITUDE") && truthy (get row "LATITUDE").

(** [Number(String(v).replace(',', '.'))]. *)
Definition coordinate (v : value) : number :=
  Number (replace_first "," "." (String_of v)).

Definition toFeature (row : Row) : Feature :=
  mkFeature "Feature"
    (mkGeometry "Point" [coordinate (get row "LONGITUDE"); coordinate (get row "LATITUDE")])
    row.

(** The body of [convertExcelToGeoJSON] from the rows of the first sheet on. *)
Definition convertExcelToGeoJSON (data : list Row) : FeatureCollection :=
  mkFeatureCollection "FeatureCollection" (List.map toFeature (List.filter hasCoordinates data)).

End Convert.

End Excel.

(* ================================================================== *)
(** ** The design document's wording *)
(* ================================================================== *)

(** Definitions that follow the words of the design document rather than the
    code; the theorems below compare the code with them. *)
Module Design.
Import JS Mapbox ProjectMap.

(** The technology colour by the five rules, the earliest rule that applies
    deciding: street light without mini grid, mini grid, home, grid, and the
    fallback. *)
Definition classifyType (ty : string) : string :=
  if includes "SOLAR STREET LIGHT" ty && negb (includes "MINI GRID" ty) then "#f39c12"
  else if includes "MINI GRID" ty then "#3498db"
  else if includes "SOLAR HOME" ty then "#9b59b6"
  else if includes "GRID" ty then "#E63946"
  else "#95a5a6".

(** The property [k] of a feature, [null] when it has none. *)
Definition prop (p : Props) (k : string) : Value := default VNull (p !! k).

(** A dimension restricts the features only when its selection is not empty. *)
Definition dimension_ok (p : Props) (k : string) (selected : list string) : bool :=
  match selected with
  | [] => true
  | _ => match prop p k with VStr s => mem s selected | _ => false end
  end.

Definition region_ok (p : Props) (stateName : option string) : bool :=
  if present stateName then value_eqb (prop p "state") (VStr (default "" stateName))
  else true.

(** The features a selection lets through: the conjunction over the region
    and the three dimensions. *)
Definition selected (years statuses types : list string)
    (stateName : option string) (p : Props) : bool :=
  region_ok p stateName && dimension_ok p "year" years &&
  dimension_ok p "status" statuses && dimension_ok p "type" types.

(** The number of conjuncts: one per non-empty set and one for the region. *)
Definition active (years statuses types : list string) (stateName : option string) : nat :=
  (if present stateName then 1 else 0) + (if nonempty years then 1 else 0) +
  (if nonempty statuses then 1 else 0) + (if nonempty types then 1 else 0).

Definition is_region_conjunct (e : Expr) : bool :=
  match e with
  | EEq (EGet k) (EStr _) => String.eqb k "state"
  | _ => false
  end.

(** A predicate with its region conjunct removed and the other conjuncts
    kept in place. *)
Definition withoutRegion (f : option Expr) : option Expr :=
  match f with
  | None => None
  | Some (EAll cs) => filterOf (List.filter (fun c => negb (is_region_conjunct c)) cs)
  | Some c => if is_region_conjunct c then None else Some c
  end.

(** A toggle of one of the three categorical dimensions. *)
Inductive Toggle :=
| TYear (y : string)
| TStatus (s : string)
| TType (t : string).

Definition toggleEvent (t : Toggle) : Event :=
  match t with
  | TYear y => ToggleYear y
  | TStatus s => ToggleStatus s
  | TType t => ToggleType t
  end.

(** What a toggle does to the three selections. *)
Definition toggled (sel : list string * list string * list string) (t : Toggle) :=
  let '(ys, ss, ts) := sel in
  match t with
  | TYear y => (toggle y ys, ss, ts)
  | TStatus s => (ys, toggle s ss, ts)
  | TType t => (ys, ss, toggle t ts)
  end.

Definition compileSelection (sel : list string * list string * list string)
    (stateName : option string) : option Expr :=
  let '(ys, ss, ts) := sel in compile ys ss ts stateName.

(** The calls that set a filter, a layout property or a paint property. *)
Definition is_style_call (c : Call) : bool :=
  match c with
  | CsetFilter _ _ | CsetLayoutProperty _ _ _ | CsetPaintProperty _ _ _ => true
  | CfitBounds _ _ | CflyTo _ _ => false
  end.

(** What holds of every state the component reaches: once the handlers are
    registered the point layer exists; before that the readiness flag is
    unset, no timer is pending, the point layer does not exist and the only
    call made on the map is the camera reset of [clearAll]. *)
Definition loaded_or_idle (w : World) : Prop :=
  if registered w then hasPoints w = true
  else mapReady (hooks w) = false /\ timers w = [] /\ hasPoints w = false /\
       Forall (fun c => c = home) (issued w).

(** The part of the state only [load] and the timers write. *)
Definition lifecycle (w : World) : bool * bool * bool * option nat * nat :=
  (registered w, hasPoints w, mapReady (hooks w), pointCount (hooks w), now w).

(** The count handed to the timer callback that ran last in a sequence of
    events, if one ran. *)
Fixpoint lastSample (es : list Event) : option nat :=
  match es with
  | [] => None
  | Fire _ visible :: es' =>
      match lastSample es' with
      | Some n => Some n
      | None => Some visible
      end
  | _ :: es' => lastSample es'
  end.

End Design.

(* ================================================================== *)
(** ** Scenarios *)
(* ================================================================== *)

(** Concrete runs, for the examples. *)
Module Scenario.
Import JS Mapbox ProjectMap Design.

Definition lagos : RegionProps :=
  mkRegionProps "Lagos" (of_Z 12) (of_Z 5) (of_Z 4) (of_Z 3) (of_Z 42)
    (of_Z 6) (of_Z 3) (of_Z 1) (of_Z 2) (of_Z 0).

(** The state a sequence of events leads to from the first render. *)
Definition world_of (es : list Event) : World := default initial (run es initial).

(** The map is created and loaded; the first count is still pending. *)
Definition loaded : list Event := [Mount; Load].

(** The first count has been taken, 120 points being rendered. *)
Definition ready : list Event := [Mount; Load; Tick 500; Fire 0 120].

Definition threeToggles : list Toggle := [TYear "2022"; TStatus "ONGOING"; TType "GRID"].

(** The scenario of the design document: two toggles and a region click. *)
Definition filteredLagos : list Event :=
  ready ++ [ToggleYear "2022"; ToggleStatus "ONGOING"; StateClick lagos].

(** A year is selected while the map is still loading, then the map loads. *)
Definition earlyToggle : list Event := [Mount; ToggleYear "2022"; Load].

End Scenario.

(* ================================================================== *)
(** ** What the component renders *)
(* ================================================================== *)

(** The rest of the component: the colours of chips, popup and legend, the
    pie chart, the side panel, the filter badge and the hover handlers. *)
Module Panel.
Import JS Mapbox ProjectMap.

(** [STATUS_COLORS], in the order of the object's keys. *)
Definition STATUS_COLORS : list (string * string) :=
  [("COMPLETED", "#2ecc71"); ("ONGOING", "#f39c12");
   ("YET TO MOBILIZE", "#E63946"); ("", "#333333")].

(** [STATUS_COLORS[p.status] || '#95a5a6'], the colour of the badge in the
    popup of a point, for a status that is a string (the keys of the object
    itself; the members every object inherits are not looked at). *)
Definition popupColor (status : string) : string :=
  default "#95a5a6" (lookup_arm status STATUS_COLORS).

(** [color || STATUS_COLORS[item] || '#888'], the colour of a chip. *)
Definition chipColor (color : option string) (item : string) : string :=
  match color with
  | Some c => c
  | None => default "#888" (lookup_arm item STATUS_COLORS)
  end.

(** The three groups of the filter panel: label, items and [color]. *)
Definition chipGroups : list (string * list string * option string) :=
  [("YEAR", YEARS, Some "#4a90d9"); ("STATUS", STATUSES, None);
   ("PROJECT TYPE", TYPES, Some "#7c4dff")].

(** [renderLegend()]: the rows of the legend, each a colour and a label. *)
Definition renderLegend (v : View) : list (string * string) :=
  match v with
  | coverage =>
      [("#1b5e20", "120+ (High)"); ("#388e3c", "80–120"); ("#81c784", "40–80");
       ("#c8e6c9", "Under 40"); ("#f0f0f0", "None")]
  | performance =>
      [("#2ecc71", "Completed"); ("#f39c12", "Ongoing");
       ("#E63946", "Yet to Mobilize"); ("#333333", "Other")]
  | technology => List.map (fun lc => (snd lc, fst lc)) TECH_COLORS
  end.

(** [activeFilterCount]. *)
Definition activeFilterCount (h : Hooks) : nat :=
  length (selectedYears h) + length (selectedStatus h) + length (selectedTypes h).

(** [Math.PI]. *)
Definition PI : number := S754_finite false 7074237752028440 (-51).

Definition add : number -> number -> number := SFadd prec emax.

(** [a > b]. *)
Definition gt (a b : number) : bool := SFltb b a.

(** A slice of the pie: the large-arc flag of its path and its fill.  The end
    points of the arc, which the source computes with [Math.cos] and
    [Math.sin], are left out. *)
Record Slice := mkSlice { large : bool; fill : string }.

(** [data.reduce((s, d) => s + d.value, 0)]. *)
Definition pieTotal (data : list TechSlice) : number :=
  fold_left (fun s d => add s (value d)) data (of_Z 0).

(** [PieChart({ data })]: [None] is the [null] of [if (!total) return null]. *)
Definition PieChart (data : list TechSlice) : option (list Slice) :=
  let total := pieTotal data in
  if negb (truthy_number total) then None
  else
    Some (List.map
            (fun d =>
               let angle := mul (mul (div (value d) total) (of_Z 2)) PI in
               mkSlice (gt angle PI) (color d))
            (List.filter (fun d => gt (value d) (of_Z 0)) data)).

(** What the side panel shows. *)
Inductive PanelContent :=
| CoverageSummary (name : string)
    (total pct_completed completed ongoing yet_to_mobilize : number)
| TechnologyBreakdown (name : string) (pie : option (list Slice))
    (rows : list (string * string * number)) (total : number).

Definition displayName (activeState : string) : string :=
  if String.eqb activeState "ABUJA FEDERAL CAPITAL TERRITORY"
  then "FCT – Abuja" else activeState.

(** [renderSidePanel()]. *)
Definition renderSidePanel (h : Hooks) : option PanelContent :=
  match activeState h, stateData h with
  | Some a, Some d =>
      if String.eqb a "" then None
      else
        match view h with
        | coverage =>
            Some (CoverageSummary (displayName a) (total d) (pct_completed d)
                    (completed d) (ongoing d) (yet_to_mobilize d))
        | technology =>
            Some (TechnologyBreakdown (displayName a) (PieChart (techData d))
                    (List.map (fun td => (label td, color td, pct (value td) (total d)))
                       (techData d))
                    (total d))
        | performance => None
        end
  | _, _ => None
  end.

(** The legacy filter [['==', 'shapeName', name]] of the hover layer. *)
Definition hoverFilter (name : string) : Expr := EEq (EGet "shapeName") (EStr name).

(** The [mousemove] handler of the two region layers, with
    [name = e.features[0].properties.shapeName]; the cursor is left out. *)
Definition handleMouseMove (name : string) (w : World) : World :=
  setFilter "state-fill-hover" (Some (hoverFilter name)) w.

(** The [mouseleave] handler of the two region layers. *)
Definition handleMouseLeave (w : World) : World :=
  setFilter "state-fill-hover" (Some (hoverFilter "")) w.

End Panel.

(* ================================================================== *)
(** ** Summaries and invariants *)
(* ================================================================== *)

(** What an event does to the cells, and what the states of the component
    have in common; the theorems below establish both. *)
Module Invariants.
Import JS Mapbox ProjectMap Design Panel.

(** The active region and its statistics set to [null]. *)
Definition cleared (h : Hooks) : Hooks := setStateData None (setActiveState None h).

(** The guard of [switchView]. *)
Definition viewReady (w : World) : bool :=
  match map w with
  | Some _ => mapReady (hooks w)
  | None => false
  end.

(** The cells after an event. *)
Definition hooksAfter (e : Event) (w : World) : Hooks :=
  let h := hooks w in
  match e with
  | Mount | Load | Tick _ => h
  | Fire i visible =>
      match timers w !! i with
      | Some t =>
          match kind t with
          | InitialCount => setMapReady true (setPointCount (Some visible) h)
          | Resample => setPointCount (Some visible) h
          end
      | None => h
      end
  | ToggleYear y => setSelectedYears (toggle y (selectedYears h)) h
  | ToggleStatus s => setSelectedStatus (toggle s (selectedStatus h)) h
  | ToggleType t => setSelectedTypes (toggle t (selectedTypes h)) h
  | ClearAll => cleared (setSelectedTypes [] (setSelectedStatus [] (setSelectedYears [] h)))
  | SwitchView v => if viewReady w then cleared (setView v h) else h
  | StateClick props =>
      setStateData (Some props) (setActiveState (Some (toUpperCase (shapeName props))) h)
  | MapClick O => cleared h
  | MapClick (S _) => h
  | ClearRegion | ClosePanel => cleared h
  end.

(** The events whose callback calls [applyFilter]. *)
Definition filterEvent (e : Event) : bool :=
  match e with
  | ToggleYear _ | ToggleStatus _ | ToggleType _ | ClearAll | StateClick _
  | MapClick O | ClearRegion => true
  | _ => false
  end.

(** The pending timers and the clock after an event. *)
Definition timersAfter (e : Event) (w : World) : list Timer :=
  match e with
  | Load => timers w ++ [mkTimer InitialCount (now w)]
  | Fire i _ => delete i (timers w)
  | _ => if filterEvent e && hasPoints w
         then timers w ++ [mkTimer Resample (now w)]
         else timers w
  end.

Definition nowAfter (e : Event) (w : World) : nat :=
  match e with
  | Tick dt => now w + dt
  | _ => now w
  end.

(** The filter of the point layer after an event. *)
Definition filterAfter (e : Event) (w : World) : option Expr :=
  if filterEvent e && hasPoints w
  then compileSelection (selection (hooksAfter e w)) (activeState (hooksAfter e w))
  else pointsFilter w.

(** Whether the value a toggle names is selected. *)
Definition isSelected (t : Toggle) (h : Hooks) : bool :=
  match t with
  | TYear y => mem y (selectedYears h)
  | TStatus s => mem s (selectedStatus h)
  | TType t => mem t (selectedTypes h)
  end.

(** The filter of the point layer is the one compiled from the selections,
    with some region or none. *)
Definition synced (w : World) : Prop :=
  exists r, pointsFilter w = compileSelection (selection (hooks w)) r.

(** The active region is the upper-cased name of the region whose statistics
    are held, and both are absent together. *)
Definition paired (h : Hooks) : Prop :=
  match activeState h, stateData h with
  | None, None => True
  | Some a, Some d => a = toUpperCase (shapeName d)
  | _, _ => False
  end.

Definition noDuplicates (h : Hooks) : Prop :=
  NoDup (selectedYears h) /\ NoDup (selectedStatus h) /\ NoDup (selectedTypes h).

(** The visibility of a layer: [visible] unless the layout says otherwise. *)
Definition visibilityOf (layer : string) (w : World) : string :=
  match map w with
  | Some m => default "visible" (visibility m !! layer)
  | None => "visible"
  end.

Definition circleColor (w : World) : option PaintValue :=
  match map w with
  | Some m => paint m !! ("project-points", "circle-color")
  | None => None
  end.

(** The filter of the hover layer. *)
Definition hoverOf (w : World) : option Expr :=
  match map w with
  | Some m => filters m !! "state-fill-hover"
  | None => None
  end.

(** Whether [map.current] exists. *)
Definition hasMap (w : World) : bool :=
  match map w with
  | Some _ => true
  | None => false
  end.

(** The visibility of the two switched layers and the colour of the points. *)
Definition styleOf (w : World) : string * string * option PaintValue :=
  (visibilityOf "state-choropleth" w, visibilityOf "project-points" w, circleColor w).

(** The style [switchView] sets for a view; the colour of the points is left
    as it is in Coverage. *)
Definition styleFor (v : View) (before : option PaintValue) :
    string * string * option PaintValue :=
  match v with
  | coverage => ("visible", "none", before)
  | performance => ("none", "visible", Some (PExpr performanceColor))
  | technology => ("none", "visible", Some (PExpr technologyColor))
  end.

(** The style a view calls for: the choropleth shown in Coverage only, the
    points in the two other views, coloured by the view's expression. *)
Definition style_matches_view (w : World) : Prop :=
  visibilityOf "state-choropleth" w =
    (match view (hooks w) with coverage => "visible" | _ => "none" end) /\
  visibilityOf "project-points" w =
    (match view (hooks w) with coverage => "none" | _ => "visible" end) /\
  match view (hooks w) with
  | coverage => True
  | performance => circleColor w = Some (PExpr performanceColor)
  | technology => circleColor w = Some (PExpr technologyColor)
  end.

(** A map object nothing has been set on. *)
Definition blank_map (w : World) : Prop :=
  match map w with
  | Some m => layers m = [] /\ filters m = ∅ /\ visibility m = ∅ /\ paint m = ∅
  | None => True
  end.

Definition styled (w : World) : Prop :=
  if registered w then style_matches_view w
  else blank_map w /\ view (hooks w) = performance.

Definition is_resample (t : Timer) : Prop := kind t = Resample.

(** No timer is set in the future; after [load] the first count is at the
    head of the queue until it has run, and every other timer is a re-sample. *)
Definition timers_shape (w : World) : Prop :=
  Forall (fun t => setAt t <= now w) (timers w) /\
  (registered w = true ->
   if mapReady (hooks w) then Forall is_resample (timers w)
   else exists t0 rest, timers w = mkTimer InitialCount t0 :: rest /\
                        Forall is_resample rest).

(** Waiting for each pending timer in turn and running it, the renderer
    finding [visible] points each time. *)
Fixpoint drain (visible : nat) (ts : list Timer) : list Event :=
  match ts with
  | [] => []
  | t :: ts' => Tick (due t) :: Fire 0 visible :: drain visible ts'
  end.

End Invariants.

(* ================================================================== *)
(** ** Strings *)
(* ================================================================== *)

Import JS Mapbox ProjectMap Design Scenario.

Section Strings.

Lemma prefix_app (n h : string) :
  String.prefix n h = true <-> exists b, h = n ++ b.
Proof.
  revert h; induction n as [|c n IH]; intros h.
  - split; [intros _; by exists h | by destruct h].
  - destruct h as [|d h]; simpl.
    + split; [done | intros [b Hb]; discriminate].
    + destruct (ascii_dec c d) as [->|Hne].
      * rewrite IH. split; intros [b Hb]; exists b; [by rewrite Hb | by injection Hb].
      * split; [done | intros [b Hb]; injection Hb; congruence].
Qed.

Lemma includes_nil (n : string) : includes n "" = String.prefix n "".
Proof. simpl. apply orb_false_r. Qed.

Lemma includes_cons (n : string) (c : ascii) (h : string) :
  includes n (String c h) = String.prefix n (String c h) || includes n h.
Proof. reflexivity. Qed.

(** [includes needle hay] holds exactly when [needle] occurs in [hay]. *)
Lemma includes_spec (n h : string) :
  includes n h = true <-> exists a b, h = a ++ n ++ b.
Proof.
  induction h as [|c h IH].
  - rewrite includes_nil, prefix_app. split.
    + intros [b Hb]. by exists "", b.
    + intros [a [b Hb]]. destruct a; [by exists b | discriminate].
  - rewrite includes_cons, orb_true_iff, prefix_app, IH. split.
    + intros [[b Hb] | [a [b Hb]]].
      * by exists "", b.
      * exists (String c a), b. simpl. by rewrite Hb.
    + intros [a [b Hb]]. destruct a as [|c' a]; simpl in Hb.
      * left. by exists b.
      * right. injection Hb as _ Hb. by exists a, b.
Qed.

Lemma toUpperCase_empty (s : string) : toUpperCase s = "" <-> s = "".
Proof. destruct s; simpl; split; congruence. Qed.

Lemma toUpperCase_length (s : string) :
  String.length (toUpperCase s) = String.length s.
Proof. induction s; simpl; congruence. Qed.

Example toUpperCase_lagos : toUpperCase "Lagos" = "LAGOS".
Proof. reflexivity. Qed.

Example replace_first_once : replace_first "," "." "3,14,15" = "3.14,15".
Proof. reflexivity. Qed.

End Strings.

(* ================================================================== *)
(** ** The predicate compiler *)
(* ================================================================== *)

Section Compiler.

Implicit Types (years statuses types : list string) (stateName : option string).
Implicit Types (p : Props).

Lemma conditions_length years statuses types stateName :
  length (conditions years statuses types stateName) =
  active years statuses types stateName.
Proof.
  unfold conditions, active.
  destruct (present stateName), (nonempty years), (nonempty statuses),
    (nonempty types); reflexivity.
Qed.

Lemma filterOf_length (cs : list Expr) :
  match length cs with
  | 0 => filterOf cs = None
  | 1 => exists c, cs = [c] /\ filterOf cs = Some c
  | _ => filterOf cs = Some (EAll cs)
  end.
Proof. destruct cs as [|c [|c' cs]]; simpl; eauto. Qed.

(** One membership conjunct lets a feature pass exactly when the property is
    a string of the selection. *)
Lemma eval_dimension p (k : string) (l : list string) :
  eval p (EIn (EGet k) (ELiteral l)) = Some (VBool true) <->
  match prop p k with VStr s => mem s l | _ => false end = true.
Proof.
  unfold prop. simpl. destruct (default VNull (p !! k)); simpl;
    split; intros H; try discriminate; congruence.
Qed.

Lemma eval_dimension_total p (k : string) (l : list string) :
  eval p (EIn (EGet k) (ELiteral l)) =
  match prop p k with
  | VArr _ => None
  | VStr s => Some (VBool (mem s l))
  | _ => Some (VBool false)
  end.
Proof. unfold prop. simpl. by destruct (default VNull (p !! k)). Qed.

Lemma eval_region p (s : string) :
  eval p (EEq (EGet "state") (EStr s)) = Some (VBool (value_eqb (prop p "state") (VStr s))).
Proof. reflexivity. Qed.

Lemma eval_all_nil p : eval p (EAll []) = Some (VBool true).
Proof. reflexivity. Qed.

Lemma eval_all_cons p (c : Expr) (cs : list Expr) :
  eval p (EAll (c :: cs)) =
  match eval p c with
  | Some (VBool true) => eval p (EAll cs)
  | Some (VBool false) => Some (VBool false)
  | _ => None
  end.
Proof. reflexivity. Qed.

(** The compiled predicate lets through exactly the features the selection
    describes. *)
Lemma passes_compile years statuses types stateName p :
  passes (compile years statuses types stateName) p =
  selected years statuses types stateName p.
Proof.
  unfold compile, conditions, selected, region_ok, dimension_ok, passes.
  destruct stateName as [[|c r]|], years as [|y ys], statuses as [|s ss],
    types as [|t ts];
    cbn [present nonempty app filterOf negb String.eqb default andb];
    rewrite ?eval_all_cons, ?eval_all_nil, ?eval_dimension_total, ?eval_region;
    try reflexivity;
    repeat (match goal with
            | |- context [value_eqb ?a ?b] => destruct (value_eqb a b)
            | |- context [match prop p ?k with _ => _ end] => destruct (prop p k)
            | |- context [mem ?x ?l] => destruct (mem x l)
            end;
            rewrite ?eval_all_cons, ?eval_all_nil, ?eval_dimension_total, ?eval_region;
            cbn [andb]; try reflexivity).
Qed.

(** C2.  The predicate built by [applyFilter] has one conjunct per non-empty
    selection and one for a present region, in the order region, year, status,
    type; it is [null] without a conjunct, the bare conjunct with one, and
    [['all', ...]] of them with two or more; and the features it lets through
    are those that meet every non-empty dimension, an empty dimension
    restricting nothing. *)
Theorem compile_conjuncts years statuses types stateName :
  let cs := conditions years statuses types stateName in
  length cs = active years statuses types stateName /\
  cs = ((if present stateName then [EEq (EGet "state") (EStr (default "" stateName))] else []) ++
        (if nonempty years then [EIn (EGet "year") (ELiteral years)] else []) ++
        (if nonempty statuses then [EIn (EGet "status") (ELiteral statuses)] else []) ++
        (if nonempty types then [EIn (EGet "type") (ELiteral types)] else []))%list /\
  match active years statuses types stateName with
  | 0 => compile years statuses types stateName = None
  | 1 => exists c, cs = [c] /\ compile years statuses types stateName = Some c
  | _ => compile years statuses types stateName = Some (EAll cs)
  end /\
  (forall p, passes (compile years statuses types stateName) p =
             selected years statuses types stateName p) /\
  (forall p, passes (compile [] [] [] None) p = true) /\
  (forall p, passes (compile [] statuses types stateName) p =
             region_ok p stateName && dimension_ok p "status" statuses &&
             dimension_ok p "type" types) /\
  (forall p, passes (compile years [] types stateName) p =
             region_ok p stateName && dimension_ok p "year" years &&
             dimension_ok p "type" types) /\
  (forall p, passes (compile years statuses [] stateName) p =
             region_ok p stateName && dimension_ok p "year" years &&
             dimension_ok p "status" statuses).
Proof.
  intros cs. repeat split.
  - apply conditions_length.
  - rewrite <- conditions_length. apply filterOf_length.
  - intros p. apply passes_compile.
  - intros p. rewrite passes_compile. unfold selected.
    cbn [dimension_ok]. by rewrite andb_true_r.
  - intros p. rewrite passes_compile. unfold selected.
    cbn [dimension_ok]. by rewrite andb_true_r.
  - intros p. rewrite passes_compile. unfold selected.
    cbn [dimension_ok]. by rewrite andb_true_r.
Qed.

Example compile_nothing : compile [] [] [] None = None.
Proof. reflexivity. Qed.

Example compile_one_dimension :
  compile ["2022"] [] [] None = Some (EIn (EGet "year") (ELiteral ["2022"])).
Proof. reflexivity. Qed.

Example compile_region_only :
  compile [] [] [] (Some "LAGOS") = Some (EEq (EGet "state") (EStr "LAGOS")).
Proof. reflexivity. Qed.

Example compile_three :
  compile ["2022"] ["ONGOING"] [] (Some "LAGOS") =
  Some (EAll [EEq (EGet "state") (EStr "LAGOS");
              EIn (EGet "year") (ELiteral ["2022"]);
              EIn (EGet "status") (ELiteral ["ONGOING"])]).
Proof. reflexivity. Qed.

(** A point of 2022 in Kano passes the year filter and fails the filter of
    another region. *)
Example passes_point :
  let p : Props := {["state" := VStr "KANO"; "year" := VStr "2022";
                     "status" := VStr "ONGOING"; "type" := VStr "GRID"]} in
  passes (compile ["2021"; "2022"] [] [] None) p = true /\
  passes (compile ["2021"; "2022"] [] [] (Some "LAGOS")) p = false /\
  passes (compile [] [] [] None) p = true /\
  passes (compile [] ["COMPLETED"] [] None) p = false.
Proof. split_and!; vm_compute; reflexivity. Qed.

End Compiler.

(* ================================================================== *)
(** ** The technology colours *)
(* ================================================================== *)

Section TechnologyColours.

Implicit Types (p : Props) (ty : string).

Lemma eval_case_nil p (fb : Expr) : eval p (ECase [] fb) = eval p fb.
Proof. reflexivity. Qed.

Lemma eval_case_cons p (c r fb : Expr) (bs : list (Expr * Expr)) :
  eval p (ECase ((c, r) :: bs) fb) =
  match eval p c with
  | Some (VBool true) => eval p r
  | Some (VBool false) => eval p (ECase bs fb)
  | _ => None
  end.
Proof. reflexivity. Qed.

Lemma eval_get p (k : string) : eval p (EGet k) = Some (prop p k).
Proof. reflexivity. Qed.

(** A substring test on the type token. *)
Lemma eval_type_test p ty (needle : string) :
  prop p "type" = VStr ty ->
  eval p (EIn (EStr needle) (EGet "type")) = Some (VBool (includes needle ty)).
Proof.
  intros H. change (eval p (EIn (EStr needle) (EGet "type")))
    with (eval_in (VStr needle) (prop p "type")).
  by rewrite H.
Qed.

Lemma eval_not p (a : Expr) (b : bool) :
  eval p a = Some (VBool b) -> eval p (ENot a) = Some (VBool (negb b)).
Proof. intros H. change (eval p (ENot a)) with
  (match eval p a with Some (VBool b) => Some (VBool (negb b)) | _ => None end).
  by rewrite H.
Qed.

(** C6.  In Technology view the colour of a point whose type token is [ty] is
    decided by the five substring rules in their order: street light without
    mini grid, then mini grid, then home, then grid, then the fallback; the
    first rule that applies gives the colour. *)
Theorem technology_color_precedence p ty :
  p !! "type" = Some (VStr ty) ->
  eval p technologyColor = Some (VStr (classifyType ty)).
Proof.
  intros Hty. assert (H : prop p "type" = VStr ty) by (unfold prop; by rewrite Hty).
  unfold technologyColor, classifyType.
  rewrite eval_case_cons, eval_all_cons, (eval_type_test _ _ _ H).
  destruct (includes "SOLAR STREET LIGHT" ty).
  - rewrite eval_all_cons, (eval_not _ _ _ (eval_type_test _ _ _ H)).
    destruct (includes "MINI GRID" ty) eqn:Hmini; cbn [negb andb].
    + rewrite eval_case_cons, (eval_type_test _ _ _ H), Hmini. reflexivity.
    + rewrite eval_all_nil. reflexivity.
  - cbn [andb]. rewrite eval_case_cons, (eval_type_test _ _ _ H).
    destruct (includes "MINI GRID" ty); [reflexivity|].
    rewrite eval_case_cons, (eval_type_test _ _ _ H).
    destruct (includes "SOLAR HOME" ty); [reflexivity|].
    rewrite eval_case_cons, (eval_type_test _ _ _ H).
    destruct (includes "GRID" ty); reflexivity.
Qed.

(** A composite token that meets the first and the fourth rule takes the
    colour of the first. *)
Lemma technology_color_precedence_witness :
  eval {["type" := VStr "GRID/SOLAR STREET LIGHT"]} technologyColor = Some (VStr "#f39c12").
Proof.
  apply (technology_color_precedence
           {["type" := VStr "GRID/SOLAR STREET LIGHT"]} "GRID/SOLAR STREET LIGHT").
  reflexivity.
Defined.

(** The colours of the nineteen type tokens of the filter panel. *)
Example technology_colors_of_TYPES :
  List.map classifyType TYPES =
  [ "#E63946"; "#f39c12"; "#3498db"; "#9b59b6";
    "#95a5a6"; "#95a5a6"; "#95a5a6";
    "#95a5a6"; "#95a5a6"; "#95a5a6";
    "#95a5a6"; "#95a5a6"; "#95a5a6"; "#95a5a6";
    "#f39c12"; "#9b59b6"; "#3498db";
    "#3498db"; "#f39c12" ].
Proof. reflexivity. Qed.

End TechnologyColours.

(* ================================================================== *)
(** ** The percentage guard *)
(* ================================================================== *)

Section Percentage.

Lemma truthy_number_not_zero (n : number) : truthy_number n = true -> is_zero n = false.
Proof. by destruct n. Qed.

(** Every division [pct] performs has a divisor that is not zero. *)
Lemma pct_divisors (num total : number) :
  Forall (fun nd => is_zero (snd nd) = false) (snd (pct_traced num total)).
Proof.
  unfold pct_traced. destruct (truthy_number total) eqn:Ht; simpl.
  - constructor; [by apply truthy_number_not_zero | constructor].
  - constructor.
Qed.

Lemma pct_falsy_total (num total : number) :
  truthy_number total = false ->
  pct num total = S754_zero false /\ snd (pct_traced num total) = [].
Proof. unfold pct, pct_traced. by intros ->. Qed.

(** C9.  [pct] returns 0 when the total is 0 (of either sign, and for a total
    that is not a number), whatever the numerator; it never divides by zero;
    and a region record whose total is 0 has 0 for each of the five technology
    shares. *)
Theorem pct_zero_total (num total : number) :
  (forall sgn, pct num (S754_zero sgn) = S754_zero false) /\
  pct num S754_nan = S754_zero false /\
  Forall (fun nd => is_zero (snd nd) = false) (snd (pct_traced num total)) /\
  (is_zero total = true -> snd (pct_traced num total) = []) /\
  (forall name sgn c o y pc ssl g smg shs ot,
      techShares (mkRegionProps name (S754_zero sgn) c o y pc ssl g smg shs ot) =
      [S754_zero false; S754_zero false; S754_zero false; S754_zero false;
       S754_zero false]).
Proof.
  repeat split.
  - apply pct_divisors.
  - destruct total; try discriminate. reflexivity.
Qed.

Example pct_third : pct (of_Z 1) (of_Z 3) = of_Z 33.
Proof. vm_compute. reflexivity. Qed.

Example pct_tie_rounds_up : pct (of_Z 1) (of_Z 8) = of_Z 13.
Proof. vm_compute. reflexivity. Qed.

Example pct_of_nothing : pct (of_Z 0) (of_Z 0) = of_Z 0.
Proof. vm_compute. reflexivity. Qed.

End Percentage.

(* ================================================================== *)
(** ** The spreadsheet conversion *)
(* ================================================================== *)

Section Conversion.

Import Excel.

Variable numberToString : number -> string.
Variable stringToNumber : string -> number.

Abbreviation convert := (convertExcelToGeoJSON numberToString stringToNumber).
Abbreviation feature := (toFeature numberToString stringToNumber).

Lemma convert_nil : features (convert []) = [].
Proof. reflexivity. Qed.

Lemma convert_cons (row : Row) (data : list Row) :
  features (convert (row :: data)) =
  if truthy (get row "LONGITUDE") && truthy (get row "LATITUDE")
  then feature row :: features (convert data)
  else features (convert data).
Proof.
  unfold convertExcelToGeoJSON. cbn [features List.filter].
  destruct (hasCoordinates row) eqn:Hrow; unfold hasCoordinates in Hrow;
    rewrite Hrow; reflexivity.
Qed.

Lemma convert_In (data : list Row) (f : Feature) :
  In f (features (convert data)) <->
  exists row, In row data /\ truthy (get row "LONGITUDE") = true /\
              truthy (get row "LATITUDE") = true /\ f = feature row.
Proof.
  unfold convertExcelToGeoJSON. cbn [features].
  rewrite in_map_iff. split.
  - intros [row [Hf Hin]]. apply filter_In in Hin as [Hin Hk].
    unfold hasCoordinates in Hk. apply andb_true_iff in Hk as [Hlon Hlat].
    by exists row.
  - intros [row (Hin & Hlon & Hlat & ->)]. exists row. split; [done|].
    apply filter_In. split; [done|]. unfold hasCoordinates. by rewrite Hlon, Hlat.
Qed.

(** C10.  The conversion has one feature per row whose LONGITUDE and LATITUDE
    are both truthy, in the order of the rows, and none for the other rows; a
    coordinate that is the number 0 or the empty string excludes the row as a
    missing one does; the coordinates of a feature are the numbers read from
    the string forms of the two cells with the first comma replaced by a dot;
    and the properties of a feature are the row itself. *)
Theorem convert_keeps_truthy_coordinates (data : list Row) (row : Row) :
  features (convert []) = [] /\
  features (convert (row :: data)) =
    (if truthy (get row "LONGITUDE") && truthy (get row "LATITUDE")
     then feature row :: features (convert data)
     else features (convert data)) /\
  (forall f, In f (features (convert data)) <->
             exists r, In r data /\ truthy (get r "LONGITUDE") = true /\
                       truthy (get r "LATITUDE") = true /\ f = feature r) /\
  (forall sgn v,
      features (convert (<["LATITUDE" := Num (S754_zero sgn)]> (<["LONGITUDE" := v]> row) :: data))
      = features (convert data)) /\
  (forall sgn v,
      features (convert (<["LONGITUDE" := Num (S754_zero sgn)]> (<["LATITUDE" := v]> row) :: data))
      = features (convert data)) /\
  (forall v,
      features (convert (<["LATITUDE" := Str ""]> (<["LONGITUDE" := v]> row) :: data))
      = features (convert data)) /\
  (forall v,
      features (convert (<["LONGITUDE" := Str ""]> (<["LATITUDE" := v]> row) :: data))
      = features (convert data)) /\
  features (convert (delete "LATITUDE" row :: data)) = features (convert data) /\
  features (convert (delete "LONGITUDE" row :: data)) = features (convert data) /\
  coordinates (geometry (feature row)) =
    [ stringToNumber (replace_first "," "." (String_of numberToString (get row "LONGITUDE")));
      stringToNumber (replace_first "," "." (String_of numberToString (get row "LATITUDE"))) ] /\
  properties (feature row) = row /\
  feature_type (feature row) = "Feature" /\
  geometry_type (geometry (feature row)) = "Point" /\
  collection_type (convert data) = "FeatureCollection".
Proof.
  split; [apply convert_nil|]. split; [apply convert_cons|].
  split; [intros f; apply convert_In|].
  repeat split; intros; rewrite convert_cons; unfold get.
  - by rewrite lookup_insert_eq, andb_false_r.
  - by rewrite lookup_insert_eq.
  - by rewrite lookup_insert_eq, andb_false_r.
  - by rewrite lookup_insert_eq.
  - by rewrite lookup_delete_eq, andb_false_r.
  - by rewrite lookup_delete_eq.
Qed.

End Conversion.

(* ================================================================== *)
(** ** The callbacks, one by one *)
(* ================================================================== *)

Open Scope list_scope.

Implicit Types (w : World) (years statuses types : list string).
Implicit Types (stateName : option string).

(** Case analysis on a whole state, then computation on its fields, with the
    finite maps of the map object left folded. *)

Ltac open_world w :=
  destruct w as [[? ? ? ? ? ? ? ?] [[? ? ? ?]|] ? ? ? ?].

Ltac crunch :=
  cbn [hooks map registered timers now issued
       view selectedYears selectedStatus selectedTypes activeState stateData
       pointCount mapReady layers filters visibility paint kind setAt
       withHooks withMap issue setTimeout
       setView setSelectedYears setSelectedStatus setSelectedTypes setActiveState
       setStateData setPointCount setMapReady
       map_setFilter map_setLayoutProperty map_setPaintProperty
       setFilter setLayoutProperty setPaintProperty
       applyFilter switchView toggleYear toggleStatus toggleType clearAll
       withCurrentSelection handleStateClick handleMapClick clearRegion closePanel
       mount onLoad onTimer advance dropTimer
       getLayer hasPoints pointsFilter selection loaded_or_idle
       negb andb orb fst snd] in *.

(** Without the point layer [applyFilter] returns at its first line. *)
Lemma applyFilter_no_layer years statuses types stateName w :
  hasPoints w = false -> applyFilter years statuses types stateName w = w.
Proof.
  open_world w; crunch; [|done].
  by intros ->.
Qed.

(** With the point layer it sets the compiled filter and one timer, and it
    touches nothing else. *)
Lemma applyFilter_layer years statuses types stateName w :
  hasPoints w = true ->
  let w' := applyFilter years statuses types stateName w in
  hooks w' = hooks w /\
  pointsFilter w' = compile years statuses types stateName /\
  issued w' = issued w ++ [CsetFilter "project-points" (compile years statuses types stateName)] /\
  timers w' = timers w ++ [mkTimer Resample (now w)] /\
  now w' = now w /\ registered w' = registered w /\ hasPoints w' = true.
Proof.
  open_world w; crunch; [|done].
  intros H. rewrite H. crunch. repeat split; [|exact H]. unfold compile.
  destruct (filterOf _); [apply lookup_insert_eq | apply lookup_delete_eq].
Qed.

Lemma applyFilter_hooks years statuses types stateName w :
  hooks (applyFilter years statuses types stateName w) = hooks w.
Proof.
  destruct (hasPoints w) eqn:H.
  - by apply applyFilter_layer.
  - by rewrite applyFilter_no_layer.
Qed.

Lemma applyFilter_registered years statuses types stateName w :
  registered (applyFilter years statuses types stateName w) = registered w.
Proof.
  destruct (hasPoints w) eqn:H.
  - by apply applyFilter_layer.
  - by rewrite applyFilter_no_layer.
Qed.

Lemma applyFilter_hasPoints years statuses types stateName w :
  hasPoints (applyFilter years statuses types stateName w) = hasPoints w.
Proof.
  destruct (hasPoints w) eqn:H.
  - by apply applyFilter_layer.
  - by rewrite applyFilter_no_layer.
Qed.

Lemma applyFilter_now years statuses types stateName w :
  now (applyFilter years statuses types stateName w) = now w.
Proof.
  destruct (hasPoints w) eqn:H.
  - by apply applyFilter_layer.
  - by rewrite applyFilter_no_layer.
Qed.

(** *** What the primitive steps leave alone *)

Ltac by_map w := intros; try unfold selection;
  first [ reflexivity
        | unfold setFilter, setLayoutProperty, setPaintProperty, hasPoints, pointsFilter;
          destruct (map w) eqn:E; rewrite ?E; reflexivity ].

Lemma hooks_withHooks f w : hooks (withHooks f w) = f (hooks w).
Proof. by_map w. Qed.
Lemma hooks_issue c w : hooks (issue c w) = hooks w.
Proof. by_map w. Qed.
Lemma hooks_setTimeout k w : hooks (setTimeout k w) = hooks w.
Proof. by_map w. Qed.
Lemma hooks_setFilter l f w : hooks (setFilter l f w) = hooks w.
Proof. by_map w. Qed.
Lemma hooks_setLayoutProperty l v w : hooks (setLayoutProperty l v w) = hooks w.
Proof. by_map w. Qed.
Lemma hooks_setPaintProperty l p v w : hooks (setPaintProperty l p v w) = hooks w.
Proof. by_map w. Qed.

Lemma map_withHooks f w : map (withHooks f w) = map w.
Proof. by_map w. Qed.
Lemma map_issue c w : map (issue c w) = map w.
Proof. by_map w. Qed.
Lemma map_setTimeout k w : map (setTimeout k w) = map w.
Proof. by_map w. Qed.

Lemma timers_withHooks f w : timers (withHooks f w) = timers w.
Proof. by_map w. Qed.
Lemma timers_issue c w : timers (issue c w) = timers w.
Proof. by_map w. Qed.
Lemma timers_setLayoutProperty l v w : timers (setLayoutProperty l v w) = timers w.
Proof. by_map w. Qed.
Lemma timers_setPaintProperty l p v w : timers (setPaintProperty l p v w) = timers w.
Proof. by_map w. Qed.

Lemma registered_withHooks f w : registered (withHooks f w) = registered w.
Proof. by_map w. Qed.
Lemma registered_issue c w : registered (issue c w) = registered w.
Proof. by_map w. Qed.
Lemma registered_setLayoutProperty l v w :
  registered (setLayoutProperty l v w) = registered w.
Proof. by_map w. Qed.
Lemma registered_setPaintProperty l p v w :
  registered (setPaintProperty l p v w) = registered w.
Proof. by_map w. Qed.

Lemma now_withHooks f w : now (withHooks f w) = now w.
Proof. by_map w. Qed.
Lemma now_issue c w : now (issue c w) = now w.
Proof. by_map w. Qed.
Lemma now_setLayoutProperty l v w : now (setLayoutProperty l v w) = now w.
Proof. by_map w. Qed.
Lemma now_setPaintProperty l p v w : now (setPaintProperty l p v w) = now w.
Proof. by_map w. Qed.

Lemma issued_withHooks f w : issued (withHooks f w) = issued w.
Proof. by_map w. Qed.
Lemma issued_issue c w : issued (issue c w) = issued w ++ [c].
Proof. by_map w. Qed.

Lemma hasPoints_withHooks f w : hasPoints (withHooks f w) = hasPoints w.
Proof. by_map w. Qed.
Lemma hasPoints_issue c w : hasPoints (issue c w) = hasPoints w.
Proof. by_map w. Qed.
Lemma hasPoints_setLayoutProperty l v w :
  hasPoints (setLayoutProperty l v w) = hasPoints w.
Proof. by_map w. Qed.
Lemma hasPoints_setPaintProperty l p v w :
  hasPoints (setPaintProperty l p v w) = hasPoints w.
Proof. by_map w. Qed.

Lemma pointsFilter_withHooks f w : pointsFilter (withHooks f w) = pointsFilter w.
Proof. by_map w. Qed.
Lemma pointsFilter_issue c w : pointsFilter (issue c w) = pointsFilter w.
Proof. by_map w. Qed.
Lemma pointsFilter_setLayoutProperty l v w :
  pointsFilter (setLayoutProperty l v w) = pointsFilter w.
Proof. by_map w. Qed.
Lemma pointsFilter_setPaintProperty l p v w :
  pointsFilter (setPaintProperty l p v w) = pointsFilter w.
Proof. by_map w. Qed.

Lemma selection_setView v h : selection (setView v h) = selection h.
Proof. reflexivity. Qed.
Lemma selection_setActiveState a h : selection (setActiveState a h) = selection h.
Proof. reflexivity. Qed.
Lemma selection_setStateData d h : selection (setStateData d h) = selection h.
Proof. reflexivity. Qed.
Lemma selection_setPointCount n h : selection (setPointCount n h) = selection h.
Proof. reflexivity. Qed.
Lemma selection_setMapReady b h : selection (setMapReady b h) = selection h.
Proof. reflexivity. Qed.

Create Rewrite HintDb world.

#[global] Hint Rewrite hooks_withHooks hooks_issue hooks_setTimeout hooks_setFilter
  hooks_setLayoutProperty hooks_setPaintProperty
  map_withHooks map_issue map_setTimeout
  timers_withHooks timers_issue timers_setLayoutProperty timers_setPaintProperty
  registered_withHooks registered_issue registered_setLayoutProperty
  registered_setPaintProperty
  now_withHooks now_issue now_setLayoutProperty now_setPaintProperty
  issued_withHooks issued_issue
  hasPoints_withHooks hasPoints_issue hasPoints_setLayoutProperty
  hasPoints_setPaintProperty
  pointsFilter_withHooks pointsFilter_issue pointsFilter_setLayoutProperty
  pointsFilter_setPaintProperty
  selection_setView selection_setActiveState selection_setStateData
  selection_setPointCount selection_setMapReady
  applyFilter_hooks applyFilter_registered applyFilter_hasPoints applyFilter_now
  : world.

Ltac frame := autorewrite with world; try reflexivity.

(** *** [switchView] *)

Lemma switchView_not_ready (v : View) w :
  map w = None \/ mapReady (hooks w) = false -> switchView v w = w.
Proof.
  unfold switchView. intros [-> | H]; [done|].
  destruct (map w); [|done]. by rewrite H.
Qed.

Lemma switchView_ready (v : View) w :
  is_Some (map w) -> mapReady (hooks w) = true ->
  let w' := switchView v w in
  view (hooks w') = v /\ activeState (hooks w') = None /\ stateData (hooks w') = None /\
  selection (hooks w') = selection (hooks w) /\ pointsFilter w' = pointsFilter w /\
  timers w' = timers w /\ registered w' = registered w /\ hasPoints w' = hasPoints w /\
  now w' = now w /\ mapReady (hooks w') = true /\ pointCount (hooks w') = pointCount (hooks w).
Proof.
  intros [m Hm] Hr. unfold switchView. rewrite Hm, Hr. cbn [negb].
  destruct v; cbn zeta; repeat split; frame; assumption.
Qed.

Lemma switchView_selection (v : View) w :
  selection (hooks (switchView v w)) = selection (hooks w).
Proof.
  destruct (map w) as [m|] eqn:Hm; [|by rewrite switchView_not_ready; auto].
  destruct (mapReady (hooks w)) eqn:Hr; [|by rewrite switchView_not_ready; auto].
  by apply switchView_ready.
Qed.

(** *** The nested updaters *)

Lemma withHooks_id (f : Hooks -> Hooks) w : f (hooks w) = hooks w -> withHooks f w = w.
Proof. destruct w. unfold withHooks. cbn [hooks]. by intros ->. Qed.

Lemma setSelectedYears_id h : setSelectedYears (selectedYears h) h = h.
Proof. by destruct h. Qed.
Lemma setSelectedStatus_id h : setSelectedStatus (selectedStatus h) h = h.
Proof. by destruct h. Qed.
Lemma setSelectedTypes_id h : setSelectedTypes (selectedTypes h) h = h.
Proof. by destruct h. Qed.

(** The three updaters return what they were handed: all they do is call
    [applyFilter] on the values of the three cells. *)
Lemma withCurrentSelection_applyFilter stateName w :
  withCurrentSelection stateName w =
  applyFilter (selectedYears (hooks w)) (selectedStatus (hooks w))
    (selectedTypes (hooks w)) stateName w.
Proof.
  unfold withCurrentSelection. cbn zeta.
  rewrite (withHooks_id _ w (setSelectedYears_id _)).
  rewrite (withHooks_id _ w (setSelectedStatus_id _)).
  apply withHooks_id. rewrite applyFilter_hooks. apply setSelectedTypes_id.
Qed.

(** *** What every callback leaves alone *)

Ltac lifecycle_frame :=
  unfold lifecycle; frame.

Lemma toggleYear_lifecycle y w : lifecycle (toggleYear y w) = lifecycle w.
Proof. unfold toggleYear. cbn zeta. lifecycle_frame. Qed.

Lemma toggleStatus_lifecycle x w : lifecycle (toggleStatus x w) = lifecycle w.
Proof. unfold toggleStatus. cbn zeta. lifecycle_frame. Qed.

Lemma toggleType_lifecycle t w : lifecycle (toggleType t w) = lifecycle w.
Proof. unfold toggleType. cbn zeta. lifecycle_frame. Qed.

Lemma clearAll_lifecycle w : lifecycle (clearAll w) = lifecycle w.
Proof.
  unfold clearAll. cbn zeta. destruct (map _); lifecycle_frame.
Qed.

Lemma switchView_lifecycle v w : lifecycle (switchView v w) = lifecycle w.
Proof.
  destruct (map w) as [m|] eqn:Hm; [|by rewrite switchView_not_ready; auto].
  destruct (mapReady (hooks w)) eqn:Hr; [|by rewrite switchView_not_ready; auto].
  destruct (switchView_ready v w) as (_ & _ & _ & _ & _ & _ & H1 & H2 & H3 & H4 & H5);
    [by eexists | done |].
  unfold lifecycle. by rewrite H1, H2, H3, H4, H5, Hr.
Qed.

Lemma handleStateClick_lifecycle props w :
  lifecycle (handleStateClick props w) = lifecycle w.
Proof.
  unfold handleStateClick. cbn zeta. rewrite withCurrentSelection_applyFilter.
  destruct (map _); lifecycle_frame.
Qed.

Lemma handleMapClick_lifecycle hits w :
  lifecycle (handleMapClick hits w) = lifecycle w.
Proof.
  destruct hits; [|reflexivity]. unfold handleMapClick. cbn zeta.
  rewrite withCurrentSelection_applyFilter. lifecycle_frame.
Qed.

Lemma clearRegion_lifecycle w : lifecycle (clearRegion w) = lifecycle w.
Proof. unfold clearRegion. cbn zeta. lifecycle_frame. Qed.

Lemma closePanel_lifecycle w : lifecycle (closePanel w) = lifecycle w.
Proof. unfold closePanel. lifecycle_frame. Qed.

(** *** Before the layers exist *)

Ltac idle H :=
  cbn zeta; rewrite applyFilter_no_layer by (autorewrite with world; exact H);
  autorewrite with world.

Lemma toggleYear_idle y w :
  hasPoints w = false ->
  timers (toggleYear y w) = timers w /\ issued (toggleYear y w) = issued w.
Proof. intros H. unfold toggleYear. idle H. done. Qed.

Lemma toggleStatus_idle x w :
  hasPoints w = false ->
  timers (toggleStatus x w) = timers w /\ issued (toggleStatus x w) = issued w.
Proof. intros H. unfold toggleStatus. idle H. done. Qed.

Lemma toggleType_idle t w :
  hasPoints w = false ->
  timers (toggleType t w) = timers w /\ issued (toggleType t w) = issued w.
Proof. intros H. unfold toggleType. idle H. done. Qed.

Lemma clearAll_idle w :
  hasPoints w = false ->
  timers (clearAll w) = timers w /\
  issued (clearAll w) = issued w ++ (match map w with Some _ => [home] | None => [] end).
Proof.
  intros H. unfold clearAll. idle H.
  destruct (map w); autorewrite with world; [done|]. by rewrite app_nil_r.
Qed.

Lemma clearRegion_idle w :
  hasPoints w = false ->
  timers (clearRegion w) = timers w /\ issued (clearRegion w) = issued w ++ [home].
Proof. intros H. unfold clearRegion. idle H. done. Qed.

Lemma closePanel_idle w :
  timers (closePanel w) = timers w /\ issued (closePanel w) = issued w.
Proof. unfold closePanel. by autorewrite with world. Qed.

Lemma mem_app (x : string) (l1 l2 : list string) :
  mem x (l1 ++ l2) = mem x l1 || mem x l2.
Proof. induction l1 as [|y l1 IH]; simpl; [done|]. by rewrite IH, orb_assoc. Qed.

Lemma onLoad_hasPoints w : is_Some (map w) -> hasPoints (onLoad w) = true.
Proof.
  intros [m Hm]. unfold onLoad, hasPoints. rewrite Hm.
  cbn [map setTimeout withMap]. unfold getLayer. cbn [layers]. rewrite mem_app.
  apply orb_true_iff. right. reflexivity.
Qed.

Lemma onLoad_registered w : is_Some (map w) -> registered (onLoad w) = true.
Proof. intros [m Hm]. unfold onLoad. by rewrite Hm. Qed.

Lemma mount_frame w :
  registered (mount w) = registered w /\ hooks (mount w) = hooks w /\
  timers (mount w) = timers w /\ issued (mount w) = issued w /\
  now (mount w) = now w /\ hasPoints (mount w) = hasPoints w /\
  is_Some (map (mount w)).
Proof.
  unfold mount, hasPoints. destruct (map w) eqn:Hm; rewrite ?Hm; [by eauto 10|].
  cbn [registered hooks timers issued now map withMap getLayer layers mem].
  by eauto 10.
Qed.

Lemma onTimer_frame k n w :
  registered (onTimer k n w) = registered w /\ hasPoints (onTimer k n w) = hasPoints w /\
  timers (onTimer k n w) = timers w /\ issued (onTimer k n w) = issued w /\
  now (onTimer k n w) = now w /\ pointCount (hooks (onTimer k n w)) = Some n /\
  selection (hooks (onTimer k n w)) = selection (hooks w) /\
  pointsFilter (onTimer k n w) = pointsFilter w.
Proof. destruct k; unfold onTimer; by autorewrite with world. Qed.

Lemma dropTimer_frame i w :
  registered (dropTimer i w) = registered w /\ hasPoints (dropTimer i w) = hasPoints w /\
  hooks (dropTimer i w) = hooks w /\ issued (dropTimer i w) = issued w /\
  now (dropTimer i w) = now w /\ pointsFilter (dropTimer i w) = pointsFilter w /\
  timers (dropTimer i w) = delete i (timers w).
Proof. done. Qed.

(** *** The invariant *)

Lemma loaded_or_idle_initial : loaded_or_idle initial.
Proof. unfold loaded_or_idle. cbn. repeat split. constructor. Qed.

Lemma lifecycle_loaded w w' :
  lifecycle w' = lifecycle w -> registered w = true -> loaded_or_idle w ->
  loaded_or_idle w'.
Proof.
  unfold lifecycle, loaded_or_idle. intros [= -> -> _ _ _] ->. done.
Qed.

Lemma lifecycle_idle w w' (extra : list Call) :
  lifecycle w' = lifecycle w -> registered w = false -> loaded_or_idle w ->
  timers w' = timers w -> issued w' = issued w ++ extra ->
  Forall (fun c => c = home) extra ->
  loaded_or_idle w'.
Proof.
  unfold lifecycle, loaded_or_idle. intros [= -> -> -> _ _] -> (Hr & Ht & Hp & Hi) -> -> He.
  repeat split; try done. by apply Forall_app.
Qed.


(* ================================================================== *)
(** ** Runs of the component *)
(* ================================================================== *)

Section Runs.

Implicit Types (e : Event) (es : list Event).

Lemma loaded_exec e w w' :
  registered w = true -> loaded_or_idle w -> exec e w = Some w' ->
  registered w' = true /\ loaded_or_idle w'.
Proof.
  intros Hreg Hinv Hex.
  assert (Hpts : hasPoints w = true) by (unfold loaded_or_idle in Hinv; by rewrite Hreg in Hinv).
  assert (Hkeep : forall w1, lifecycle w1 = lifecycle w ->
                             registered w1 = true /\ loaded_or_idle w1).
  { intros w1 Hl. split; [|by eapply lifecycle_loaded].
    unfold lifecycle in Hl. injection Hl as -> _ _ _ _. exact Hreg. }
  destruct e; cbn [exec] in Hex.
  - injection Hex as <-. destruct (mount_frame w) as (H1 & _ & _ & _ & _ & H6 & _).
    unfold loaded_or_idle. by rewrite H1, Hreg, H6.
  - rewrite Hreg in Hex. destruct (map w); discriminate.
  - injection Hex as <-. split; [exact Hreg|]. unfold loaded_or_idle.
    change (registered (advance dt w)) with (registered w). rewrite Hreg.
    exact Hpts.
  - destruct (timers w !! i) as [t|]; [|discriminate].
    destruct (can_fire _ _ _); [|discriminate]. injection Hex as <-.
    destruct (onTimer_frame (kind t) visible (dropTimer i w)) as (H1 & H2 & _).
    unfold loaded_or_idle. rewrite H1, H2. cbn [registered dropTimer].
    by rewrite Hreg.
  - injection Hex as <-. apply Hkeep, toggleYear_lifecycle.
  - injection Hex as <-. apply Hkeep, toggleStatus_lifecycle.
  - injection Hex as <-. apply Hkeep, toggleType_lifecycle.
  - injection Hex as <-. apply Hkeep, clearAll_lifecycle.
  - injection Hex as <-. apply Hkeep, switchView_lifecycle.
  - rewrite Hreg in Hex. injection Hex as <-. apply Hkeep, handleStateClick_lifecycle.
  - rewrite Hreg in Hex. injection Hex as <-. apply Hkeep, handleMapClick_lifecycle.
  - destruct (map w); [|discriminate].
    destruct (present _); [|discriminate].
    injection Hex as <-. apply Hkeep, clearRegion_lifecycle.
  - destruct (showSidePanel _); [|discriminate].
    injection Hex as <-. apply Hkeep, closePanel_lifecycle.
Qed.

Lemma idle_exec e w w' :
  registered w = false -> loaded_or_idle w -> exec e w = Some w' ->
  loaded_or_idle w'.
Proof.
  intros Hreg Hinv Hex.
  assert (Hidle := Hinv). unfold loaded_or_idle in Hidle. rewrite Hreg in Hidle.
  destruct Hidle as (Hrdy & Hts & Hpts & Hiss).
  destruct e; cbn [exec] in Hex.
  - injection Hex as <-.
    destruct (mount_frame w) as (H1 & H2 & H3 & H4 & _ & H6 & _).
    unfold loaded_or_idle. by rewrite H1, Hreg, H2, H3, H4, H6.
  - destruct (map w) as [m|] eqn:Hm; [|discriminate]. rewrite Hreg in Hex.
    injection Hex as <-. unfold loaded_or_idle.
    rewrite onLoad_registered by eauto. apply onLoad_hasPoints. eauto.
  - injection Hex as <-. unfold loaded_or_idle.
    change (registered (advance dt w)) with (registered w). rewrite Hreg.
    done.
  - rewrite Hts in Hex. discriminate.
  - injection Hex as <-. destruct (toggleYear_idle y w Hpts) as [H1 H2].
    eapply (lifecycle_idle _ _ []); eauto using toggleYear_lifecycle.
    by rewrite app_nil_r.
  - injection Hex as <-. destruct (toggleStatus_idle s w Hpts) as [H1 H2].
    eapply (lifecycle_idle _ _ []); eauto using toggleStatus_lifecycle.
    by rewrite app_nil_r.
  - injection Hex as <-. destruct (toggleType_idle t w Hpts) as [H1 H2].
    eapply (lifecycle_idle _ _ []); eauto using toggleType_lifecycle.
    by rewrite app_nil_r.
  - injection Hex as <-. destruct (clearAll_idle w Hpts) as [H1 H2].
    eapply lifecycle_idle; eauto using clearAll_lifecycle.
    destruct (map w); repeat constructor.
  - injection Hex as <-. rewrite switchView_not_ready by auto. exact Hinv.
  - rewrite Hreg in Hex. discriminate.
  - rewrite Hreg in Hex. discriminate.
  - destruct (map w); [|discriminate].
    destruct (present _); [|discriminate].
    injection Hex as <-. destruct (clearRegion_idle w Hpts) as [H1 H2].
    eapply lifecycle_idle; eauto using clearRegion_lifecycle.
  - destruct (showSidePanel _); [|discriminate].
    injection Hex as <-. destruct (closePanel_idle w) as [H1 H2].
    eapply (lifecycle_idle _ _ []); eauto using closePanel_lifecycle.
    by rewrite app_nil_r.
Qed.

Lemma loaded_or_idle_exec e w w' :
  loaded_or_idle w -> exec e w = Some w' -> loaded_or_idle w'.
Proof.
  intros Hinv Hex. destruct (registered w) eqn:Hreg.
  - by eapply loaded_exec.
  - by eapply idle_exec.
Qed.

Lemma loaded_or_idle_run es w w' :
  loaded_or_idle w -> run es w = Some w' -> loaded_or_idle w'.
Proof.
  revert w. induction es as [|e es IH]; intros w Hinv Hrun; simpl in Hrun.
  - by injection Hrun as <-.
  - destruct (exec e w) as [w1|] eqn:Hex; [|discriminate].
    eapply IH; [|exact Hrun]. by eapply loaded_or_idle_exec.
Qed.

(** Every reachable state satisfies the invariant. *)
Lemma reachable_loaded_or_idle w : reachable w -> loaded_or_idle w.
Proof.
  intros [es Hrun]. eapply loaded_or_idle_run; [|exact Hrun].
  apply loaded_or_idle_initial.
Qed.

Lemma reachable_registered_hasPoints w :
  reachable w -> registered w = true -> hasPoints w = true.
Proof.
  intros Hr Hreg. apply reachable_loaded_or_idle in Hr.
  unfold loaded_or_idle in Hr. by rewrite Hreg in Hr.
Qed.

Lemma run_app es1 es2 w :
  run (es1 ++ es2) w = match run es1 w with Some w1 => run es2 w1 | None => None end.
Proof.
  revert w. induction es1 as [|e es1 IH]; intros w; simpl; [done|].
  destruct (exec e w); [apply IH | done].
Qed.

Lemma reachable_run es w w' : reachable w -> run es w = Some w' -> reachable w'.
Proof.
  intros [es0 H0] Hrun. exists (es0 ++ es). by rewrite run_app, H0.
Qed.

End Runs.

(* ================================================================== *)
(** ** The click handlers and the view switch *)
(* ================================================================== *)

Section Handlers.

(** Removing the region conjunct from a compiled predicate gives the
    predicate compiled without a region. *)
Lemma withoutRegion_compile years statuses types stateName :
  withoutRegion (compile years statuses types stateName) =
  compile years statuses types None.
Proof.
  unfold compile, conditions.
  destruct (present stateName), years as [|y ys], statuses as [|s ss],
    types as [|t ts]; reflexivity.
Qed.

Lemma compile_present years statuses types (name : string) :
  name <> "" ->
  compile years statuses types (Some name) =
  filterOf (EEq (EGet "state") (EStr name) :: conditions years statuses types None).
Proof.
  intros Hne. unfold compile, conditions. cbn [present default].
  destruct (String.eqb_spec name ""); [done|]. reflexivity.
Qed.

(** What the empty-area branch of the click handler does, given the layer. *)
Lemma handleMapClick_empty w :
  hasPoints w = true ->
  let w' := handleMapClick 0 w in
  hooks w' = setStateData None (setActiveState None (hooks w)) /\
  pointsFilter w' = compileSelection (selection (hooks w)) None /\
  issued w' = issued w ++ [CsetFilter "project-points"
                             (compileSelection (selection (hooks w)) None)] /\
  timers w' = timers w ++ [mkTimer Resample (now w)].
Proof.
  intros Hpts. cbn zeta. unfold handleMapClick. cbn zeta.
  rewrite withCurrentSelection_applyFilter.
  set (w0 := withHooks (setStateData None) (withHooks (setActiveState None) w)).
  assert (H0 : hasPoints w0 = true) by (unfold w0; by autorewrite with world).
  destruct (applyFilter_layer (selectedYears (hooks w0)) (selectedStatus (hooks w0))
              (selectedTypes (hooks w0)) None w0 H0) as (Hh & Hf & Hi & Ht & _).
  rewrite Hh, Hf, Hi, Ht. unfold w0. autorewrite with world. done.
Qed.

(** What [handleStateClick] does, given the layer. *)
Lemma handleStateClick_layer (props : RegionProps) w :
  hasPoints w = true ->
  let name := toUpperCase (shapeName props) in
  let w' := handleStateClick props w in
  hooks w' = setStateData (Some props) (setActiveState (Some name) (hooks w)) /\
  pointsFilter w' = compileSelection (selection (hooks w)) (Some name) /\
  issued w' = issued w ++ [CfitBounds (shapeName props) 40;
                           CsetFilter "project-points"
                             (compileSelection (selection (hooks w)) (Some name))] /\
  timers w' = timers w ++ [mkTimer Resample (now w)].
Proof.
  intros Hpts. cbn zeta. unfold handleStateClick. cbn zeta.
  rewrite withCurrentSelection_applyFilter.
  assert (Hm : is_Some (map w)).
  { unfold hasPoints in Hpts. destruct (map w); [by eexists | discriminate]. }
  destruct Hm as [m Hm]. rewrite map_withHooks, map_withHooks, Hm.
  set (name := toUpperCase (shapeName props)).
  set (w0 := issue _ _).
  assert (H0 : hasPoints w0 = true) by (unfold w0; by autorewrite with world).
  destruct (applyFilter_layer (selectedYears (hooks w0)) (selectedStatus (hooks w0))
              (selectedTypes (hooks w0)) (Some name) w0 H0) as (Hh & Hf & Hi & Ht & _).
  rewrite Hh, Hf, Hi, Ht. unfold w0. autorewrite with world.
  rewrite <- app_assoc. done.
Qed.

(** C5.  [switchView] never changes the selected years, statuses and types;
    when it takes effect (the map exists and is ready), and so whenever the
    view changes, the view becomes the requested one and the active region and
    the region statistics are cleared, so that no side panel is shown. *)
Theorem switchView_keeps_selection (v : View) w :
  let w' := switchView v w in
  selection (hooks w') = selection (hooks w) /\
  (is_Some (map w) -> mapReady (hooks w) = true ->
   view (hooks w') = v /\ activeState (hooks w') = None /\
   stateData (hooks w') = None /\ showSidePanel (hooks w') = false) /\
  (view (hooks w') <> view (hooks w) ->
   view (hooks w') = v /\ activeState (hooks w') = None /\
   stateData (hooks w') = None).
Proof.
  cbn zeta. split; [apply switchView_selection|].
  assert (Hready : is_Some (map w) -> mapReady (hooks w) = true ->
                   view (hooks (switchView v w)) = v /\
                   activeState (hooks (switchView v w)) = None /\
                   stateData (hooks (switchView v w)) = None).
  { intros Hm Hr. destruct (switchView_ready v w Hm Hr) as (H1 & H2 & H3 & _). done. }
  split.
  - intros Hm Hr. destruct (Hready Hm Hr) as (H1 & H2 & H3).
    repeat split; try done. unfold showSidePanel. by rewrite H2.
  - intros Hchange. destruct (map w) as [m|] eqn:Hm.
    + destruct (mapReady (hooks w)) eqn:Hr; [by apply Hready|].
      rewrite switchView_not_ready in Hchange by auto. done.
    + rewrite switchView_not_ready in Hchange by auto. done.
Qed.

(** What a click that hits no region and no point does on a reachable state:
    it clears the active region and the region statistics, leaves the years,
    statuses, types and the view as they are, and sets the filter compiled
    from those selections without a region. *)
Lemma empty_click_effect w w' :
  reachable w -> exec (MapClick 0) w = Some w' ->
  selection (hooks w') = selection (hooks w) /\
  view (hooks w') = view (hooks w) /\
  activeState (hooks w') = None /\ stateData (hooks w') = None /\
  pointsFilter w' = compileSelection (selection (hooks w)) None /\
  pointsFilter w' =
    withoutRegion (compileSelection (selection (hooks w)) (activeState (hooks w))) /\
  (forall r, pointsFilter w = compileSelection (selection (hooks w)) r ->
             pointsFilter w' = withoutRegion (pointsFilter w)) /\
  issued w' = issued w ++ [CsetFilter "project-points" (pointsFilter w')].
Proof.
  intros Hreach Hex.
  change (exec (MapClick 0) w)
    with (if registered w then Some (handleMapClick 0 w) else None) in Hex.
  destruct (registered w) eqn:Hreg; [|discriminate].
  assert (Hw' : handleMapClick 0 w = w') by congruence. subst w'. clear Hex.
  pose proof (reachable_registered_hasPoints w Hreach Hreg) as Hpts.
  destruct (handleMapClick_empty w Hpts) as (Hh & Hf & Hi & _).
  rewrite Hh, Hf, Hi.
  assert (Hw : forall r, withoutRegion (compileSelection (selection (hooks w)) r)
                         = compileSelection (selection (hooks w)) None).
  { intros r. unfold compileSelection, selection. apply withoutRegion_compile. }
  split_and!; try done.
  intros r ->. by rewrite Hw.
Qed.

(** C3.  A click on a region stores the upper-cased name of the region as the
    active region and the region's properties as its statistics, leaves the
    years, statuses and types as they are, and sets the filter compiled from
    those selections and the upper-cased name: for a name that is not empty,
    the region-equality conjunct followed by the conjuncts of the selections
    as they are when the click is handled. *)
Theorem state_click_uses_current_selection (props : RegionProps) w w' :
  reachable w -> exec (StateClick props) w = Some w' ->
  let name := toUpperCase (shapeName props) in
  activeState (hooks w') = Some name /\ stateData (hooks w') = Some props /\
  selection (hooks w') = selection (hooks w) /\
  view (hooks w') = view (hooks w) /\
  pointsFilter w' = compileSelection (selection (hooks w)) (Some name) /\
  (shapeName props <> "" ->
   pointsFilter w' =
     filterOf (EEq (EGet "state") (EStr name) ::
               conditions (selectedYears (hooks w)) (selectedStatus (hooks w))
                 (selectedTypes (hooks w)) None)) /\
  issued w' = issued w ++ [CfitBounds (shapeName props) 40;
                           CsetFilter "project-points" (pointsFilter w')].
Proof.
  intros Hreach Hex.
  change (exec (StateClick props) w)
    with (if registered w then Some (handleStateClick props w) else None) in Hex.
  destruct (registered w) eqn:Hreg; [|discriminate].
  assert (Hw' : handleStateClick props w = w') by congruence. subst w'. clear Hex.
  pose proof (reachable_registered_hasPoints w Hreach Hreg) as Hpts.
  destruct (handleStateClick_layer props w Hpts) as (Hh & Hf & Hi & _).
  cbn zeta. rewrite Hh, Hf, Hi. repeat split; try done.
  intros Hne. unfold compileSelection, selection. apply compile_present.
  by rewrite toUpperCase_empty.
Qed.

End Handlers.

(* ================================================================== *)
(** ** Handlers registered once *)
(* ================================================================== *)

Section StableHandlers.

Implicit Types (ts : list Toggle).

Lemma toggle_exec (t : Toggle) w :
  exists w1, exec (toggleEvent t) w = Some w1 /\
             selection (hooks w1) = toggled (selection (hooks w)) t /\
             activeState (hooks w1) = activeState (hooks w) /\
             registered w1 = registered w.
Proof.
  destruct t; eexists; (split; [reflexivity|]); cbn [toggleEvent];
    unfold toggleYear, toggleStatus, toggleType; cbn zeta;
    autorewrite with world; done.
Qed.

Lemma toggles_run ts w :
  exists w1, run (List.map toggleEvent ts) w = Some w1 /\
             selection (hooks w1) = fold_left toggled ts (selection (hooks w)) /\
             activeState (hooks w1) = activeState (hooks w) /\
             registered w1 = registered w.
Proof.
  revert w. induction ts as [|t ts IH]; intros w.
  - by exists w.
  - destruct (toggle_exec t w) as (w1 & Hex & Hsel & Hact & Hreg).
    destruct (IH w1) as (w2 & Hrun & Hsel2 & Hact2 & Hreg2).
    exists w2. cbn [List.map run fold_left]. rewrite Hex, Hrun, Hsel2, Hact2, Hreg2.
    by rewrite Hsel, Hact, Hreg.
Qed.

(** C1.  After any sequence of year, status and type toggles on a state whose
    handlers are registered, the handlers are the same (a second [load] does
    not occur), and the next region click and the next empty-area click set
    the filter compiled from the selections as the toggles left them, not as
    they were before. *)
Theorem handlers_read_current_selection ts w :
  reachable w -> registered w = true ->
  exists w1,
    run (List.map toggleEvent ts) w = Some w1 /\
    selection (hooks w1) = fold_left toggled ts (selection (hooks w)) /\
    exec Load w1 = None /\
    (forall props, exists w2,
        exec (StateClick props) w1 = Some w2 /\
        pointsFilter w2 =
          compileSelection (fold_left toggled ts (selection (hooks w)))
            (Some (toUpperCase (shapeName props)))) /\
    (exists w2,
        exec (MapClick 0) w1 = Some w2 /\
        pointsFilter w2 =
          compileSelection (fold_left toggled ts (selection (hooks w))) None).
Proof.
  intros Hreach Hreg.
  destruct (toggles_run ts w) as (w1 & Hrun & Hsel & _ & Hreg1).
  rewrite Hreg in Hreg1.
  pose proof (reachable_run _ _ _ Hreach Hrun) as Hreach1.
  pose proof (reachable_registered_hasPoints w1 Hreach1 Hreg1) as Hpts.
  exists w1. split; [exact Hrun|]. split; [exact Hsel|]. split; [|split].
  - cbn [exec]. rewrite Hreg1. by destruct (map w1).
  - intros props. exists (handleStateClick props w1). split.
    + change (exec (StateClick props) w1)
        with (if registered w1 then Some (handleStateClick props w1) else None).
      by rewrite Hreg1.
    + destruct (handleStateClick_layer props w1 Hpts) as (_ & Hf & _).
      by rewrite Hf, Hsel.
  - exists (handleMapClick 0 w1). split.
    + change (exec (MapClick 0) w1)
        with (if registered w1 then Some (handleMapClick 0 w1) else None).
      by rewrite Hreg1.
    + destruct (handleMapClick_empty w1 Hpts) as (_ & Hf & _).
      by rewrite Hf, Hsel.
Qed.

(** Three toggles after the handlers were registered with nothing selected:
    the next handler sees all three. *)
Lemma handlers_read_current_selection_witness :
  exists w1,
    run (List.map toggleEvent threeToggles) (world_of loaded) = Some w1 /\
    selection (hooks w1) =
      fold_left toggled threeToggles (selection (hooks (world_of loaded))) /\
    exec Load w1 = None /\
    (forall props, exists w2,
        exec (StateClick props) w1 = Some w2 /\
        pointsFilter w2 =
          compileSelection
            (fold_left toggled threeToggles (selection (hooks (world_of loaded))))
            (Some (toUpperCase (shapeName props)))) /\
    (exists w2,
        exec (MapClick 0) w1 = Some w2 /\
        pointsFilter w2 =
          compileSelection
            (fold_left toggled threeToggles (selection (hooks (world_of loaded)))) None).
Proof.
  apply (handlers_read_current_selection threeToggles (world_of loaded)).
  - exists loaded. vm_compute. reflexivity.
  - vm_compute. reflexivity.
Defined.

Example three_toggles_then_region_click :
  selection (hooks (world_of loaded)) = ([], [], []) /\
  pointsFilter (world_of (loaded ++ List.map toggleEvent threeToggles ++ [StateClick lagos])) =
  Some (EAll [EEq (EGet "state") (EStr "LAGOS");
              EIn (EGet "year") (ELiteral ["2022"]);
              EIn (EGet "status") (ELiteral ["ONGOING"]);
              EIn (EGet "type") (ELiteral ["GRID"])]).
Proof. split; vm_compute; reflexivity. Qed.

Example three_toggles_then_empty_click :
  pointsFilter (world_of (loaded ++ List.map toggleEvent threeToggles ++ [MapClick 0])) =
  Some (EAll [EIn (EGet "year") (ELiteral ["2022"]);
              EIn (EGet "status") (ELiteral ["ONGOING"]);
              EIn (EGet "type") (ELiteral ["GRID"])]).
Proof. vm_compute. reflexivity. Qed.

End StableHandlers.

(* ================================================================== *)
(** ** Witnesses of the click theorems *)
(* ================================================================== *)

Section ClickWitnesses.

Lemma reachable_world_of (es : list Event) :
  is_Some (run es initial) -> reachable (world_of es).
Proof.
  intros [w Hw]. exists es. unfold world_of. by rewrite Hw.
Qed.

(** The scenario of the design document: with the year 2022 and the status
    ONGOING selected and LAGOS active, a click on nothing leaves the two
    membership conjuncts. *)
Example empty_click_scenario :
  pointsFilter (world_of filteredLagos) =
    Some (EAll [EEq (EGet "state") (EStr "LAGOS");
                EIn (EGet "year") (ELiteral ["2022"]);
                EIn (EGet "status") (ELiteral ["ONGOING"])]) /\
  pointsFilter (world_of (filteredLagos ++ [MapClick 0])) =
    Some (EAll [EIn (EGet "year") (ELiteral ["2022"]);
                EIn (EGet "status") (ELiteral ["ONGOING"])]) /\
  activeState (hooks (world_of (filteredLagos ++ [MapClick 0]))) = None /\
  pointsFilter (world_of (filteredLagos ++ [MapClick 0; ClearAll])) = None.
Proof. split_and!; vm_compute; reflexivity. Qed.

(** A click that hits a region or a point leaves everything as it is. *)
Example click_with_hits (hits : nat) w : handleMapClick (S hits) w = w.
Proof. reflexivity. Qed.

Lemma state_click_uses_current_selection_witness :
  let w := world_of (ready ++ [ToggleYear "2022"; ToggleStatus "ONGOING"]) in
  let w' := world_of filteredLagos in
  let name := toUpperCase (shapeName lagos) in
  activeState (hooks w') = Some name /\ stateData (hooks w') = Some lagos /\
  selection (hooks w') = selection (hooks w) /\
  view (hooks w') = view (hooks w) /\
  pointsFilter w' = compileSelection (selection (hooks w)) (Some name) /\
  (shapeName lagos <> "" ->
   pointsFilter w' =
     filterOf (EEq (EGet "state") (EStr name) ::
               conditions (selectedYears (hooks w)) (selectedStatus (hooks w))
                 (selectedTypes (hooks w)) None)) /\
  issued w' = issued w ++ [CfitBounds (shapeName lagos) 40;
                           CsetFilter "project-points" (pointsFilter w')].
Proof.
  apply (state_click_uses_current_selection lagos
           (world_of (ready ++ [ToggleYear "2022"; ToggleStatus "ONGOING"]))
           (world_of filteredLagos)).
  - apply reachable_world_of. vm_compute. eauto.
  - vm_compute. reflexivity.
Defined.

(** Selecting two years and switching Coverage, Technology, Performance, with
    a region clicked in between: the years are still selected and the region
    and its statistics are gone. *)
Example view_switches_keep_years :
  let w := world_of (ready ++ [ToggleYear "2020"; ToggleYear "2021"; SwitchView coverage;
                               StateClick lagos; SwitchView technology;
                               SwitchView performance]) in
  selectedYears (hooks w) = ["2020"; "2021"] /\ view (hooks w) = performance /\
  activeState (hooks w) = None /\ stateData (hooks w) = None.
Proof. split_and!; vm_compute; reflexivity. Qed.

Example view_switch_clears_statistics :
  let w := world_of (ready ++ [SwitchView coverage; StateClick lagos]) in
  let w' := world_of (ready ++ [SwitchView coverage; StateClick lagos;
                                SwitchView technology]) in
  showSidePanel (hooks w) = true /\ stateData (hooks w) = Some lagos /\
  showSidePanel (hooks w') = false /\ stateData (hooks w') = None /\
  activeState (hooks w') = None.
Proof. split_and!; vm_compute; reflexivity. Qed.

End ClickWitnesses.

(* ================================================================== *)
(** ** The visible count *)
(* ================================================================== *)

Section VisibleCount.

Implicit Types (e : Event) (es : list Event).

Lemma onLoad_hooks w : hooks (onLoad w) = hooks w.
Proof. unfold onLoad. by destruct (map w). Qed.

(** Only a timer callback writes the count. *)
Lemma exec_pointCount e w w' :
  exec e w = Some w' ->
  pointCount (hooks w') =
  match e with
  | Fire _ visible => Some visible
  | _ => pointCount (hooks w)
  end.
Proof.
  assert (Hl : forall w1, lifecycle w1 = lifecycle w ->
                          pointCount (hooks w1) = pointCount (hooks w)).
  { intros w1 Hl. unfold lifecycle in Hl. by injection Hl as _ _ _ -> _. }
  intros Hex. destruct e; cbn [exec] in Hex.
  - injection Hex as <-. destruct (mount_frame w) as (_ & -> & _). done.
  - destruct (map w); [|discriminate]. destruct (registered w); [discriminate|].
    injection Hex as <-. by rewrite onLoad_hooks.
  - by injection Hex as <-.
  - destruct (timers w !! i) as [t|]; [|discriminate].
    destruct (can_fire _ _ _); [|discriminate]. injection Hex as <-.
    by destruct (onTimer_frame (kind t) visible (dropTimer i w)) as (_ & _ & _ & _ & _ & -> & _).
  - injection Hex as <-. apply Hl, toggleYear_lifecycle.
  - injection Hex as <-. apply Hl, toggleStatus_lifecycle.
  - injection Hex as <-. apply Hl, toggleType_lifecycle.
  - injection Hex as <-. apply Hl, clearAll_lifecycle.
  - injection Hex as <-. apply Hl, switchView_lifecycle.
  - destruct (registered w); [|discriminate].
    injection Hex as <-. apply Hl, handleStateClick_lifecycle.
  - destruct (registered w); [|discriminate].
    injection Hex as <-. apply Hl, handleMapClick_lifecycle.
  - destruct (map w); [|discriminate]. destruct (present _); [|discriminate].
    injection Hex as <-. apply Hl, clearRegion_lifecycle.
  - destruct (showSidePanel _); [|discriminate].
    injection Hex as <-. apply Hl, closePanel_lifecycle.
Qed.

(** After any run the count is the sample of the callback that ran last. *)
Lemma run_pointCount es w w' :
  run es w = Some w' ->
  pointCount (hooks w') = match lastSample es with
                          | Some n => Some n
                          | None => pointCount (hooks w)
                          end.
Proof.
  revert w. induction es as [|e es IH]; intros w Hrun; cbn [run] in Hrun.
  - by injection Hrun as <-.
  - destruct (exec e w) as [w1|] eqn:Hex; [|discriminate].
    rewrite (IH w1 Hrun). pose proof (exec_pointCount e w w1 Hex) as Hp.
    destruct e; cbn [lastSample]; destruct (lastSample es); congruence.
Qed.

(** A timer that runs is due, and no timer set before it with the same or a
    shorter delay is pending. *)
Lemma can_fire_spec (ts : list Timer) (i now : nat) :
  can_fire ts i now = true ->
  exists t, ts !! i = Some t /\ due t <= now /\
            forall j t', j < i -> ts !! j = Some t' -> delay (kind t) < delay (kind t').
Proof.
  unfold can_fire. destruct (ts !! i) as [t|] eqn:Hi; [|discriminate].
  intros H. apply andb_true_iff in H as [Hdue Hall]. exists t.
  split; [done|]. split; [by apply Nat.leb_le|].
  intros j t' Hj Hj'. rewrite forallb_forall in Hall.
  apply Nat.ltb_lt, Hall, list_elem_of_In, list_elem_of_lookup.
  exists j. rewrite lookup_take_lt; done.
Qed.

Lemma applyFilter_deferred years statuses types stateName w :
  hasPoints w = true ->
  let w' := applyFilter years statuses types stateName w in
  pointCount (hooks w') = pointCount (hooks w) /\
  timers w' = timers w ++ [mkTimer Resample (now w)] /\
  can_fire (timers w') (length (timers w)) (now w') = false.
Proof.
  intros Hpts. cbn zeta.
  destruct (applyFilter_layer years statuses types stateName w Hpts)
    as (Hh & _ & _ & Ht & Hn & _).
  rewrite Hh, Ht, Hn. repeat split. unfold can_fire.
  rewrite list_lookup_middle by done. unfold due. cbn [kind setAt delay].
  apply andb_false_iff. left. apply Nat.leb_gt. lia.
Qed.

(** [applyFilter] on a state that has the filter, the timers and the clock of
    [w]: either the filter stays or a re-sample is set. *)
Lemma applyFilter_after years statuses types stateName (w0 w : World) :
  pointsFilter w0 = pointsFilter w -> timers w0 = timers w -> now w0 = now w ->
  pointsFilter (applyFilter years statuses types stateName w0) = pointsFilter w \/
  timers (applyFilter years statuses types stateName w0) =
    timers w ++ [mkTimer Resample (now w)].
Proof.
  intros Hf Ht Hn. destruct (hasPoints w0) eqn:Hpts.
  - right. destruct (applyFilter_layer years statuses types stateName w0 Hpts)
      as (_ & _ & _ & -> & _). by rewrite Ht, Hn.
  - left. by rewrite applyFilter_no_layer.
Qed.

Lemma mount_pointsFilter w : pointsFilter (mount w) = pointsFilter w.
Proof. unfold mount, pointsFilter. destruct (map w) eqn:Hm; by rewrite ?Hm. Qed.

Lemma onLoad_pointsFilter w : pointsFilter (onLoad w) = pointsFilter w.
Proof.
  unfold onLoad, pointsFilter. destruct (map w) eqn:Hm; rewrite ?Hm; [|done].
  cbn [map setTimeout withMap filters]. by rewrite lookup_insert_ne.
Qed.

(** Whenever an event changes the filter of the point layer, it sets a
    re-sample. *)
Lemma exec_filter_timer e w w' :
  exec e w = Some w' ->
  pointsFilter w' = pointsFilter w \/
  timers w' = timers w ++ [mkTimer Resample (now w)].
Proof.
  intros Hex. destruct e; cbn [exec] in Hex.
  - injection Hex as <-. left. apply mount_pointsFilter.
  - destruct (map w); [|discriminate]. destruct (registered w); [discriminate|].
    injection Hex as <-. left. apply onLoad_pointsFilter.
  - injection Hex as <-. by left.
  - destruct (timers w !! i) as [t|]; [|discriminate].
    destruct (can_fire _ _ _); [|discriminate]. injection Hex as <-. left.
    by destruct (onTimer_frame (kind t) visible (dropTimer i w))
      as (_ & _ & _ & _ & _ & _ & _ & ->).
  - injection Hex as <-. unfold toggleYear. cbn zeta.
    apply applyFilter_after; by autorewrite with world.
  - injection Hex as <-. unfold toggleStatus. cbn zeta.
    apply applyFilter_after; by autorewrite with world.
  - injection Hex as <-. unfold toggleType. cbn zeta.
    apply applyFilter_after; by autorewrite with world.
  - injection Hex as <-. unfold clearAll. cbn zeta.
    set (w0 := withHooks _ _).
    destruct (applyFilter_after [] [] [] None w0 w) as [H|H];
      try (unfold w0; by autorewrite with world);
      destruct (map (applyFilter [] [] [] None w0)); autorewrite with world; auto.
  - injection Hex as <-. left.
    destruct (map w) as [m|] eqn:Hm; [|by rewrite switchView_not_ready; auto].
    destruct (mapReady (hooks w)) eqn:Hr; [|by rewrite switchView_not_ready; auto].
    by destruct (switchView_ready v w) as (_ & _ & _ & _ & -> & _).
  - destruct (registered w); [|discriminate]. injection Hex as <-.
    unfold handleStateClick. cbn zeta. rewrite withCurrentSelection_applyFilter.
    apply applyFilter_after; destruct (map _); by autorewrite with world.
  - destruct (registered w); [|discriminate]. injection Hex as <-.
    destruct hits; [|by left]. unfold handleMapClick. cbn zeta.
    rewrite withCurrentSelection_applyFilter.
    apply applyFilter_after; by autorewrite with world.
  - destruct (map w); [|discriminate]. destruct (present _); [|discriminate].
    injection Hex as <-. unfold clearRegion. cbn zeta.
    set (w0 := withHooks _ _).
    destruct (applyFilter_after (selectedYears (hooks w)) (selectedStatus (hooks w))
                (selectedTypes (hooks w)) None w0 w) as [H|H];
      try (unfold w0; by autorewrite with world); autorewrite with world; auto.
  - destruct (showSidePanel _); [|discriminate]. injection Hex as <-. left.
    unfold closePanel. by autorewrite with world.
Qed.

(** C7.  [applyFilter] does not sample the count itself: it leaves the count
    as it is and sets a timer of 300 ms, which cannot run at the instant it
    is set.  A timer callback that runs publishes the sample it is handed at
    that moment; when it is a re-sample, every re-sample set before it has
    already run, so the re-samples publish in the order they were scheduled;
    after any sequence of events the published count is the sample of the
    callback that ran last; and every event that changes the filter of the
    point layer sets such a timer and leaves the count as it is. *)
Theorem resample_deferred_and_ordered :
  (forall years statuses types stateName w,
      hasPoints w = true ->
      let w' := applyFilter years statuses types stateName w in
      pointCount (hooks w') = pointCount (hooks w) /\
      timers w' = timers w ++ [mkTimer Resample (now w)] /\
      due (mkTimer Resample (now w)) = now w + 300 /\
      can_fire (timers w') (length (timers w)) (now w') = false) /\
  (forall i visible w w',
      exec (Fire i visible) w = Some w' ->
      exists t, timers w !! i = Some t /\ due t <= now w /\
                pointCount (hooks w') = Some visible /\
                timers w' = delete i (timers w) /\
                (kind t = Resample ->
                 forall j t', j < i -> timers w !! j = Some t' -> kind t' = InitialCount)) /\
  (forall es w w',
      run es w = Some w' ->
      pointCount (hooks w') = match lastSample es with
                              | Some n => Some n
                              | None => pointCount (hooks w)
                              end) /\
  (forall e w w',
      exec e w = Some w' ->
      pointsFilter w' = pointsFilter w \/
      (timers w' = timers w ++ [mkTimer Resample (now w)] /\
       pointCount (hooks w') = pointCount (hooks w))).
Proof.
  split; [|split; [|split]]; cycle 3.
  { intros e w w' Hex. destruct (exec_filter_timer e w w' Hex) as [H|H]; [by left|].
    pose proof (exec_pointCount e w w' Hex) as Hp.
    destruct e; try (right; by split). left.
    cbn [exec] in Hex. destruct (timers w !! i) as [t|]; [|discriminate].
    destruct (can_fire _ _ _); [|discriminate]. injection Hex as <-.
    by destruct (onTimer_frame (kind t) visible (dropTimer i w))
      as (_ & _ & _ & _ & _ & _ & _ & ->). }
  - intros years statuses types stateName w Hpts. cbn zeta.
    destruct (applyFilter_deferred years statuses types stateName w Hpts) as (H1 & H2 & H3).
    repeat split; done.
  - intros i visible w w' Hex.
    pose proof (exec_pointCount _ _ _ Hex) as Hp. cbn [exec] in Hex.
    destruct (timers w !! i) as [t|] eqn:Hi; [|discriminate].
    destruct (can_fire (timers w) i (now w)) eqn:Hcan; [|discriminate].
    injection Hex as <-.
    destruct (can_fire_spec _ _ _ Hcan) as (t0 & Hi0 & Hdue & Hbefore).
    rewrite Hi in Hi0. injection Hi0 as <-.
    exists t. repeat split; try done.
    + by destruct (onTimer_frame (kind t) visible (dropTimer i w)) as (_ & _ & -> & _).
    + intros Hk j t' Hj Hj'. specialize (Hbefore j t' Hj Hj'). rewrite Hk in Hbefore.
      destruct (kind t'); [done|]. cbn [delay] in Hbefore. lia.
  - apply run_pointCount.
Qed.

(** Two toggles in quick succession: both re-samples are pending, the second
    cannot run before the first, and the count that stays is the sample of
    the second. *)
Example rapid_toggles :
  let w := world_of (ready ++ [ToggleYear "2022"; Tick 100; ToggleStatus "ONGOING"; Tick 300]) in
  timers w = [mkTimer Resample 500; mkTimer Resample 600] /\
  pointCount (hooks w) = Some 120 /\
  exec (Fire 1 7) w = None /\
  (exists w', run [Fire 0 31; Fire 0 7] w = Some w' /\
              timers w' = [] /\ pointCount (hooks w') = Some 7).
Proof.
  split_and!; try (vm_compute; reflexivity).
  eexists. split; [vm_compute; reflexivity|]. split; reflexivity.
Qed.

End VisibleCount.

(* ================================================================== *)
(** ** Readiness *)
(* ================================================================== *)

Section Readiness.

(** Before the first count has been taken the readiness flag is unset, and
    yet a toggle changes the selection and, once the layers exist, sets a
    filter and a timer; a region click sets the active region, fits the
    bounds and sets a filter; and before the layers exist a toggle still
    changes the selection and [clearAll] still moves the camera. *)
Lemma toggle_before_ready_not_noop :
  (reachable (world_of loaded) /\
   mapReady (hooks (world_of loaded)) = false /\
   selectedYears (hooks (world_of loaded)) = [] /\
   issued (world_of loaded) = []) /\
  (exec (ToggleYear "2022") (world_of loaded) = Some (toggleYear "2022" (world_of loaded)) /\
   selectedYears (hooks (toggleYear "2022" (world_of loaded))) = ["2022"] /\
   issued (toggleYear "2022" (world_of loaded)) =
     [CsetFilter "project-points" (Some (EIn (EGet "year") (ELiteral ["2022"])))] /\
   timers (toggleYear "2022" (world_of loaded)) =
     [mkTimer InitialCount 0; mkTimer Resample 0]) /\
  (exec (StateClick lagos) (world_of loaded) = Some (handleStateClick lagos (world_of loaded)) /\
   activeState (hooks (handleStateClick lagos (world_of loaded))) = Some "LAGOS" /\
   issued (handleStateClick lagos (world_of loaded)) =
     [CfitBounds "Lagos" 40;
      CsetFilter "project-points" (Some (EEq (EGet "state") (EStr "LAGOS")))]) /\
  (reachable (world_of [Mount]) /\
   mapReady (hooks (world_of [Mount])) = false /\
   selectedYears (hooks (world_of [Mount])) = [] /\
   selectedYears (hooks (toggleYear "2022" (world_of [Mount]))) = ["2022"] /\
   issued (clearAll (world_of [Mount])) = [home]).
Proof.
  split_and!;
    lazymatch goal with
    | |- reachable _ => apply reachable_world_of; vm_compute; eauto
    | |- _ = _ => vm_compute; reflexivity
    end.
Qed.

(** C8, as the code has it.  [switchView] is a no-op unless the map object
    exists and the readiness flag is set.  [applyFilter], through which the
    toggles, [clearAll] and the click handlers set the filter, is a no-op
    unless the map object has the point layer.  The click handlers do not run
    before the [load] callback has registered them.  So in every state the
    component reaches before that callback, the point layer does not exist,
    the readiness flag is unset, no timer is pending and no filter, layout or
    paint call has been made on the map. *)
Theorem readiness_guards :
  (forall v w, map w = None \/ mapReady (hooks w) = false -> switchView v w = w) /\
  (forall years statuses types stateName w,
      hasPoints w = false -> applyFilter years statuses types stateName w = w) /\
  (forall w, registered w = false ->
             (forall props, exec (StateClick props) w = None) /\
             (forall hits, exec (MapClick hits) w = None)) /\
  (forall w, reachable w -> registered w = false ->
             hasPoints w = false /\ mapReady (hooks w) = false /\ timers w = [] /\
             Forall (fun c => is_style_call c = false) (issued w)) /\
  (forall w, reachable w -> mapReady (hooks w) = true -> hasPoints w = true).
Proof.
  split; [apply switchView_not_ready|].
  split; [apply applyFilter_no_layer|].
  split; [|split].
  - intros w Hreg. split; intros; cbn [exec]; by rewrite Hreg.
  - intros w Hreach Hreg. apply reachable_loaded_or_idle in Hreach.
    unfold loaded_or_idle in Hreach. rewrite Hreg in Hreach.
    destruct Hreach as (Hr & Ht & Hp & Hi). repeat split; try done.
    eapply Forall_impl; [exact Hi|]. by intros c ->.
  - intros w Hreach Hrdy. pose proof (reachable_loaded_or_idle w Hreach) as Hinv.
    unfold loaded_or_idle in Hinv. destruct (registered w); [done|].
    destruct Hinv as (Hr & _). congruence.
Qed.

(** Before [load]: toggling changes nothing on the map. *)
Example toggle_before_load :
  let w := world_of [Mount; ToggleYear "2022"; SwitchView coverage] in
  registered w = false /\ issued w = [] /\ timers w = [] /\ view (hooks w) = performance.
Proof. split_and!; vm_compute; reflexivity. Qed.

End Readiness.

(* ================================================================== *)
(** ** Toggling a chip *)
(* ================================================================== *)

Import Panel Invariants.

Section Toggling.

Implicit Types (x y : string) (l : list string).

Lemma mem_In x l : mem x l = true <-> In x l.
Proof.
  induction l as [|z l IH]; simpl; [done|].
  rewrite orb_true_iff, IH, String.eqb_eq. done.
Qed.

Lemma mem_false_not_In x l : mem x l = false <-> ~ In x l.
Proof. rewrite <- mem_In. by destruct (mem x l). Qed.

Lemma mem_filter_ne x y l :
  mem y (List.filter (fun v => negb (String.eqb v x)) l) =
  mem y l && negb (String.eqb y x).
Proof.
  induction l as [|z l IH]; simpl; [done|].
  destruct (String.eqb_spec z x) as [->|Hzx]; simpl.
  - rewrite IH. destruct (String.eqb_spec x y) as [->|Hxy]; simpl.
    + rewrite String.eqb_refl. simpl. by rewrite andb_false_r.
    + done.
  - rewrite IH. destruct (String.eqb_spec z y) as [->|Hzy]; simpl; [|done].
    destruct (String.eqb_spec y x); [done|]. simpl. done.
Qed.

Lemma filter_ne_absent x l :
  mem x l = false -> List.filter (fun v => negb (String.eqb v x)) l = l.
Proof.
  induction l as [|z l IH]; simpl; [done|].
  intros H. apply orb_false_iff in H as [Hz Hl]. rewrite Hz. simpl.
  by rewrite IH.
Qed.

(** Toggling [x] flips whether [x] is selected and changes the membership of
    nothing else. *)
Theorem toggle_flips_membership x y l :
  mem y (toggle x l) = if String.eqb y x then negb (mem x l) else mem y l.
Proof.
  unfold toggle. destruct (mem x l) eqn:Hx.
  - rewrite mem_filter_ne. destruct (String.eqb_spec y x) as [->|Hne]; simpl.
    + by rewrite andb_false_r.
    + by rewrite andb_true_r.
  - rewrite mem_app. simpl. rewrite orb_false_r.
    destruct (String.eqb_spec y x) as [->|Hne].
    + rewrite String.eqb_refl. by rewrite orb_true_r.
    + destruct (String.eqb_spec x y); [congruence|]. by rewrite orb_false_r.
Qed.

(** Selecting a value that was not selected and deselecting it again gives
    back the selection, order included. *)
Theorem toggle_twice x l : mem x l = false -> toggle x (toggle x l) = l.
Proof.
  intros Hx. unfold toggle at 2. rewrite Hx. unfold toggle.
  rewrite mem_app. simpl. rewrite String.eqb_refl, orb_true_r.
  rewrite List.filter_app. simpl. rewrite String.eqb_refl. simpl.
  rewrite filter_ne_absent by done. apply app_nil_r.
Qed.

Lemma toggle_twice_witness : toggle "2021" (toggle "2021" ["2019"; "2023"]) = ["2019"; "2023"].
Proof. apply (toggle_twice "2021" ["2019"; "2023"]). reflexivity. Defined.

Lemma filter_NoDup (f : string -> bool) l : NoDup l -> NoDup (List.filter f l).
Proof.
  induction l as [|z l IH]; simpl; [done|].
  intros Hnd. apply NoDup_cons in Hnd as [Hz Hnd]. destruct (f z); [|by apply IH].
  apply NoDup_cons. split; [|by apply IH].
  intros Hin. apply Hz. apply list_elem_of_In. apply list_elem_of_In in Hin.
  by apply List.filter_In in Hin as [Hin _].
Qed.

Lemma toggle_NoDup x l : NoDup l -> NoDup (toggle x l).
Proof.
  intros Hl. unfold toggle. destruct (mem x l) eqn:Hx.
  - by apply filter_NoDup.
  - apply NoDup_app. split; [done|]. split; [|apply NoDup_singleton].
    intros z Hz Hzx. apply list_elem_of_In in Hz. apply list_elem_of_In in Hzx.
    destruct Hzx as [<-|[]]. apply mem_false_not_In in Hx. done.
Qed.

Lemma filter_ne_length x l :
  NoDup l -> mem x l = true ->
  S (length (List.filter (fun v => negb (String.eqb v x)) l)) = length l.
Proof.
  induction l as [|z l IH]; simpl; [discriminate|].
  intros Hnd Hx. apply NoDup_cons in Hnd as [Hz Hnd].
  destruct (String.eqb_spec z x) as [->|Hne]; simpl.
  - rewrite filter_ne_absent; [done|]. apply mem_false_not_In.
    intros Hin. apply Hz. by apply list_elem_of_In.
  - rewrite IH; done.
Qed.

Lemma toggle_length x l :
  NoDup l ->
  length (toggle x l) = if mem x l then length l - 1 else length l + 1.
Proof.
  intros Hnd. unfold toggle. destruct (mem x l) eqn:Hx.
  - pose proof (filter_ne_length x l Hnd Hx). lia.
  - rewrite length_app. simpl. lia.
Qed.

End Toggling.

(* ================================================================== *)
(** ** What an event does *)
(* ================================================================== *)

Section Effects.

Implicit Types (e : Event).

Lemma applyFilter_effect years statuses types stateName w :
  timers (applyFilter years statuses types stateName w) =
    (if hasPoints w then timers w ++ [mkTimer Resample (now w)] else timers w) /\
  pointsFilter (applyFilter years statuses types stateName w) =
    (if hasPoints w then compile years statuses types stateName else pointsFilter w).
Proof.
  destruct (hasPoints w) eqn:Hpts.
  - destruct (applyFilter_layer years statuses types stateName w Hpts)
      as (_ & Hf & _ & Ht & _). done.
  - by rewrite applyFilter_no_layer.
Qed.

Lemma timers_applyFilter years statuses types stateName w :
  timers (applyFilter years statuses types stateName w) =
  if hasPoints w then timers w ++ [mkTimer Resample (now w)] else timers w.
Proof. apply applyFilter_effect. Qed.

Lemma pointsFilter_applyFilter years statuses types stateName w :
  pointsFilter (applyFilter years statuses types stateName w) =
  if hasPoints w then compile years statuses types stateName else pointsFilter w.
Proof. apply applyFilter_effect. Qed.

Lemma switchView_hooks v w :
  hooks (switchView v w) = if viewReady w then cleared (setView v (hooks w)) else hooks w.
Proof.
  unfold viewReady. destruct (map w) as [m|] eqn:Hm;
    [|by rewrite switchView_not_ready; auto].
  destruct (mapReady (hooks w)) eqn:Hr; [|by rewrite switchView_not_ready; auto].
  unfold switchView. rewrite Hm, Hr. cbn [negb].
  destruct v; cbn zeta; autorewrite with world; reflexivity.
Qed.

Ltac effect_applyFilter :=
  cbn zeta; rewrite ?withCurrentSelection_applyFilter;
  repeat match goal with
         | |- context [match map ?x with _ => _ end] =>
             destruct (map x)
         end;
  autorewrite with world;
  rewrite ?timers_applyFilter, ?pointsFilter_applyFilter;
  autorewrite with world;
  unfold timersAfter, filterAfter, nowAfter, hooksAfter;
  cbn [filterEvent andb];
  match goal with
  | |- context [hasPoints ?x] => destruct (hasPoints x)
  end; split_and!; reflexivity.

(** The cells, the timers, the clock and the filter of the point layer after
    an event. *)
Lemma exec_effect e w w' :
  exec e w = Some w' ->
  hooks w' = hooksAfter e w /\ timers w' = timersAfter e w /\
  now w' = nowAfter e w /\ pointsFilter w' = filterAfter e w.
Proof.
  intros Hex. destruct e; cbn [exec] in Hex.
  - injection Hex as <-. destruct (mount_frame w) as (_ & H2 & H3 & _ & H5 & _).
    rewrite H2, H3, H5, mount_pointsFilter. done.
  - destruct (map w) as [m|] eqn:Hm; [|discriminate].
    destruct (registered w); [discriminate|]. injection Hex as <-.
    rewrite onLoad_hooks, onLoad_pointsFilter. unfold onLoad. rewrite Hm. done.
  - by injection Hex as <-.
  - destruct (timers w !! i) as [t|] eqn:Hi; [|discriminate].
    destruct (can_fire _ _ _); [|discriminate]. injection Hex as <-.
    unfold hooksAfter. rewrite Hi. by destruct (kind t).
  - injection Hex as <-. unfold toggleYear. effect_applyFilter.
  - injection Hex as <-. unfold toggleStatus. effect_applyFilter.
  - injection Hex as <-. unfold toggleType. effect_applyFilter.
  - injection Hex as <-. unfold clearAll. effect_applyFilter.
  - injection Hex as <-. rewrite switchView_hooks.
    assert (H : timers (switchView v w) = timers w /\ now (switchView v w) = now w /\
                pointsFilter (switchView v w) = pointsFilter w).
    { destruct (map w) as [m|] eqn:Hm; [|by rewrite switchView_not_ready; auto].
      destruct (mapReady (hooks w)) eqn:Hr; [|by rewrite switchView_not_ready; auto].
      by destruct (switchView_ready v w) as (_ & _ & _ & _ & -> & -> & _ & _ & -> & _). }
    destruct H as (-> & -> & ->). done.
  - destruct (registered w); [|discriminate]. injection Hex as <-.
    unfold handleStateClick. effect_applyFilter.
  - destruct (registered w); [|discriminate]. injection Hex as <-.
    destruct hits; [|done]. unfold handleMapClick. effect_applyFilter.
  - destruct (map w); [|discriminate]. destruct (present _); [|discriminate].
    injection Hex as <-. unfold clearRegion. effect_applyFilter.
  - destruct (showSidePanel _); [|discriminate]. injection Hex as <-.
    unfold closePanel. by autorewrite with world.
Qed.

End Effects.

(* ================================================================== *)
(** ** Invariants of the cells *)
(* ================================================================== *)

Section CellInvariants.

Implicit Types (e : Event) (es : list Event).

(** Induction over the states the component reaches. *)
Lemma reachable_ind (P : World -> Prop) :
  P initial ->
  (forall e w w', reachable w -> P w -> exec e w = Some w' -> P w') ->
  forall w, reachable w -> P w.
Proof.
  intros H0 Hstep.
  assert (H : forall es w0 w, reachable w0 -> P w0 -> run es w0 = Some w -> P w).
  { induction es as [|e es IH]; intros w0 w Hr HP Hrun; cbn [run] in Hrun.
    - by injection Hrun as <-.
    - destruct (exec e w0) as [w1|] eqn:Hex; [|discriminate].
      apply (IH w1 w); [|by eapply Hstep|done].
      apply (reachable_run [e] w0 w1 Hr). cbn [run]. by rewrite Hex. }
  intros w [es Hrun]. apply (H es initial w); [by exists [] | done | done].
Qed.

Lemma exec_hooks e w w' : exec e w = Some w' -> hooks w' = hooksAfter e w.
Proof. intros Hex. by destruct (exec_effect e w w' Hex) as (-> & _). Qed.

Lemma exec_selection e w w' :
  exec e w = Some w' -> filterEvent e = false ->
  selection (hooks w') = selection (hooks w).
Proof.
  intros Hex Hf. rewrite (exec_hooks e w w' Hex).
  destruct e; try discriminate Hf; unfold hooksAfter; cbn zeta; try reflexivity.
  - destruct (timers w !! i) as [t|]; [|done]. by destruct (kind t).
  - by destruct (viewReady w).
  - destruct hits; [discriminate Hf|done].
Qed.

Lemma noDuplicates_exec e w w' :
  noDuplicates (hooks w) -> exec e w = Some w' -> noDuplicates (hooks w').
Proof.
  intros (Hy & Hs & Ht) Hex. rewrite (exec_hooks e w w' Hex).
  unfold noDuplicates, hooksAfter.
  destruct e; cbn zeta;
    try (split_and!; first [assumption | by apply toggle_NoDup | apply NoDup_nil_2]).
  - destruct (timers w !! i) as [t|]; [destruct (kind t)|]; by split_and!.
  - destruct (viewReady w); by split_and!.
  - destruct hits; by split_and!.
Qed.

Lemma reachable_noDuplicates w : reachable w -> noDuplicates (hooks w).
Proof.
  revert w. apply reachable_ind.
  - repeat split; apply NoDup_nil_2.
  - intros e w w' _ Hnd Hex. by eapply noDuplicates_exec.
Qed.

(** A value is never selected twice: the three selections of every state the
    component reaches are free of duplicates. *)
Theorem selections_have_no_duplicates w : reachable w -> noDuplicates (hooks w).
Proof. apply reachable_noDuplicates. Qed.

Lemma selections_have_no_duplicates_witness :
  noDuplicates (hooks (world_of filteredLagos)).
Proof.
  apply (selections_have_no_duplicates (world_of filteredLagos)).
  apply reachable_world_of. vm_compute. eauto.
Defined.

Lemma paired_exec e w w' : paired (hooks w) -> exec e w = Some w' -> paired (hooks w').
Proof.
  intros Hp Hex. rewrite (exec_hooks e w w' Hex). unfold hooksAfter. cbn zeta.
  destruct e; try exact Hp; try exact I; try reflexivity.
  - destruct (timers w !! i) as [t|]; [destruct (kind t)|]; exact Hp.
  - destruct (viewReady w); [exact I | exact Hp].
  - destruct hits; [exact I | exact Hp].
Qed.

(** The active region and the region statistics go together: both are
    absent, or the active region is the upper-cased name of the region whose
    statistics are held. *)
Theorem region_and_statistics_are_paired w : reachable w -> paired (hooks w).
Proof.
  revert w. apply reachable_ind; [exact I|].
  intros e w w' _ Hp Hex. by eapply paired_exec.
Qed.

Lemma region_and_statistics_are_paired_witness :
  paired (hooks (world_of filteredLagos)).
Proof.
  apply (region_and_statistics_are_paired (world_of filteredLagos)).
  apply reachable_world_of. vm_compute. eauto.
Defined.

Example paired_after_region_click :
  activeState (hooks (world_of filteredLagos)) = Some "LAGOS" /\
  stateData (hooks (world_of filteredLagos)) = Some lagos.
Proof. split; vm_compute; reflexivity. Qed.

(** A toggle changes the number on the filter button by exactly one: down
    when the value was selected, up when it was not. *)
Theorem toggle_changes_count_by_one (t : Toggle) w w' :
  reachable w -> exec (toggleEvent t) w = Some w' ->
  activeFilterCount (hooks w') =
    (if isSelected t (hooks w)
     then activeFilterCount (hooks w) - 1
     else activeFilterCount (hooks w) + 1) /\
  (isSelected t (hooks w) = true -> 1 <= activeFilterCount (hooks w)).
Proof.
  intros Hreach Hex. destruct (reachable_noDuplicates w Hreach) as (Hy & Hs & Ht).
  rewrite (exec_hooks _ w w' Hex). unfold activeFilterCount, isSelected.
  destruct t; cbn [toggleEvent hooksAfter selectedYears selectedStatus selectedTypes
                   setSelectedYears setSelectedStatus setSelectedTypes];
    rewrite toggle_length by done;
    match goal with
    | |- context [mem ?x ?l] =>
        destruct (mem x l) eqn:Hm;
        [ assert (1 <= length l)
            by (apply mem_In in Hm; destruct l; [destruct Hm | simpl; lia]) |]
    end; split; try lia; try discriminate.
Qed.

End CellInvariants.

(* ================================================================== *)
(** ** The filter and the selections *)
(* ================================================================== *)

Section FilterSync.

Implicit Types (e : Event) (es : list Event).

Lemma exec_hasPoints e w w' :
  exec e w = Some w' -> hasPoints w = true -> hasPoints w' = true.
Proof.
  assert (Hl : forall w1, lifecycle w1 = lifecycle w -> hasPoints w = true ->
                          hasPoints w1 = true).
  { intros w1 Hl. unfold lifecycle in Hl. by injection Hl as _ -> _ _ _. }
  intros Hex. destruct e; cbn [exec] in Hex.
  - injection Hex as <-. by destruct (mount_frame w) as (_ & _ & _ & _ & _ & -> & _).
  - destruct (map w) as [m|] eqn:Hm; [|discriminate].
    destruct (registered w); [discriminate|]. injection Hex as <-.
    intros _. apply onLoad_hasPoints. by eexists.
  - by injection Hex as <-.
  - destruct (timers w !! i) as [t|]; [|discriminate].
    destruct (can_fire _ _ _); [|discriminate]. injection Hex as <-.
    by destruct (onTimer_frame (kind t) visible (dropTimer i w)) as (_ & -> & _).
  - injection Hex as <-. apply Hl, toggleYear_lifecycle.
  - injection Hex as <-. apply Hl, toggleStatus_lifecycle.
  - injection Hex as <-. apply Hl, toggleType_lifecycle.
  - injection Hex as <-. apply Hl, clearAll_lifecycle.
  - injection Hex as <-. apply Hl, switchView_lifecycle.
  - destruct (registered w); [|discriminate].
    injection Hex as <-. apply Hl, handleStateClick_lifecycle.
  - destruct (registered w); [|discriminate].
    injection Hex as <-. apply Hl, handleMapClick_lifecycle.
  - destruct (map w); [|discriminate]. destruct (present _); [|discriminate].
    injection Hex as <-. apply Hl, clearRegion_lifecycle.
  - destruct (showSidePanel _); [|discriminate].
    injection Hex as <-. apply Hl, closePanel_lifecycle.
Qed.

Lemma filterEvent_syncs e w w' :
  filterEvent e = true -> hasPoints w = true -> exec e w = Some w' ->
  pointsFilter w' = compileSelection (selection (hooks w')) (activeState (hooks w')) /\
  timers w' = timers w ++ [mkTimer Resample (now w)].
Proof.
  intros Hf Hpts Hex. destruct (exec_effect e w w' Hex) as (Hh & Ht & _ & Hp).
  rewrite Hp, Hh, Ht. unfold filterAfter, timersAfter. rewrite Hf, Hpts.
  split; [done|]. destruct e; try discriminate Hf; reflexivity.
Qed.

Lemma synced_exec e w w' :
  hasPoints w = true -> synced w -> exec e w = Some w' -> synced w'.
Proof.
  intros Hpts [r Hr] Hex. destruct (filterEvent e) eqn:Hf.
  - exists (activeState (hooks w')). by eapply filterEvent_syncs.
  - exists r. rewrite (exec_selection e w w' Hex Hf).
    destruct (exec_effect e w w' Hex) as (_ & _ & _ & ->).
    unfold filterAfter. by rewrite Hf.
Qed.

(** Every callback that calls [applyFilter] (the three toggles, Clear all,
    the region click, the empty-area click and the close button of the region
    chip), run on a map with the point layer, leaves on that layer the filter
    compiled from the selections and the active region as the callback leaves
    them, and sets one re-sample. *)
Theorem filter_event_synchronises e w w' :
  filterEvent e = true -> hasPoints w = true -> exec e w = Some w' ->
  pointsFilter w' = compileSelection (selection (hooks w')) (activeState (hooks w')) /\
  timers w' = timers w ++ [mkTimer Resample (now w)].
Proof. apply filterEvent_syncs. Qed.

Lemma filter_event_synchronises_witness :
  let w := world_of filteredLagos in
  let w' := world_of (filteredLagos ++ [ToggleType "GRID"]) in
  pointsFilter w' = compileSelection (selection (hooks w')) (activeState (hooks w')) /\
  timers w' = timers w ++ [mkTimer Resample (now w)].
Proof.
  apply (filter_event_synchronises (ToggleType "GRID") (world_of filteredLagos)
           (world_of (filteredLagos ++ [ToggleType "GRID"]))).
  - reflexivity.
  - vm_compute. reflexivity.
  - vm_compute. reflexivity.
Defined.

(** Once the point layer exists and its filter is the one compiled from the
    three selections (with whatever region), it stays so through every
    sequence of events: the years, statuses and types in the filter are
    always the ones the chips show. *)
Theorem filter_follows_selections es w w' :
  hasPoints w = true -> synced w -> run es w = Some w' ->
  hasPoints w' = true /\ synced w'.
Proof.
  revert w. induction es as [|e es IH]; intros w Hpts Hs Hrun; cbn [run] in Hrun.
  - by injection Hrun as <-.
  - destruct (exec e w) as [w1|] eqn:Hex; [|discriminate].
    apply (IH w1); [by eapply exec_hasPoints | by eapply synced_exec | done].
Qed.

Lemma filter_follows_selections_witness :
  hasPoints (world_of (filteredLagos ++ [SwitchView technology; ToggleYear "2022"])) = true /\
  synced (world_of (filteredLagos ++ [SwitchView technology; ToggleYear "2022"])).
Proof.
  apply (filter_follows_selections
           [Tick 500; Fire 0 120; ToggleYear "2022"; ToggleStatus "ONGOING";
            StateClick lagos; SwitchView technology; ToggleYear "2022"]
           (world_of loaded)
           (world_of (filteredLagos ++ [SwitchView technology; ToggleYear "2022"]))).
  - vm_compute. reflexivity.
  - exists None. vm_compute. reflexivity.
  - vm_compute. reflexivity.
Defined.

End FilterSync.

(* ================================================================== *)
(** ** Region clicks, view switches and Clear all *)
(* ================================================================== *)

Section RegionAndView.

Implicit Types (e : Event) (p : Props).

Lemma passes_region years statuses types (name : string) p :
  name <> "" ->
  passes (compile years statuses types (Some name)) p = true ->
  prop p "state" = VStr name.
Proof.
  intros Hne. rewrite passes_compile. unfold selected, region_ok. cbn [present default].
  destruct (String.eqb_spec name ""); [done|]. cbn [negb].
  intros H. repeat (apply andb_true_iff in H as [H _]).
  destruct (prop p "state"); try discriminate H. simpl in H.
  apply String.eqb_eq in H. by subst.
Qed.

Lemma viewReady_hasPoints_map w : hasPoints w = true -> viewReady w = mapReady (hooks w).
Proof. unfold hasPoints, viewReady. by destruct (map w). Qed.

(** A view switch and the close button of the side panel clear the active
    region without touching the filter of the point layer: after a click on
    a named region, either of them leaves no region active while the filter
    still lets through the points of that region only. *)
Theorem region_filter_outlives_the_region (props : RegionProps) e w w1 w2 :
  e = ClosePanel \/ (exists v, e = SwitchView v) ->
  hasPoints w = true -> mapReady (hooks w) = true -> shapeName props <> "" ->
  exec (StateClick props) w = Some w1 -> exec e w1 = Some w2 ->
  activeState (hooks w2) = None /\ stateData (hooks w2) = None /\
  pointsFilter w2 =
    compileSelection (selection (hooks w2)) (Some (toUpperCase (shapeName props))) /\
  (forall p, passes (pointsFilter w2) p = true ->
             prop p "state" = VStr (toUpperCase (shapeName props))).
Proof.
  intros He Hpts Hrdy Hname Hex1 Hex2.
  destruct (filterEvent_syncs (StateClick props) w w1 eq_refl Hpts Hex1) as (Hf1 & _).
  pose proof (exec_hooks _ _ _ Hex1) as Hh1. cbn [hooksAfter] in Hh1.
  pose proof (exec_hasPoints _ _ _ Hex1 Hpts) as Hpts1.
  assert (Hrdy1 : viewReady w1 = true).
  { rewrite viewReady_hasPoints_map by done. by rewrite Hh1. }
  assert (Hfe : filterEvent e = false) by (destruct He as [->|[v ->]]; reflexivity).
  pose proof (exec_selection e w1 w2 Hex2 Hfe) as Hsel.
  destruct (exec_effect e w1 w2 Hex2) as (Hh2 & _ & _ & Hf2).
  unfold filterAfter in Hf2. rewrite Hfe in Hf2. cbn [andb] in Hf2.
  assert (Hc : activeState (hooks w2) = None /\ stateData (hooks w2) = None).
  { rewrite Hh2. destruct He as [->|[v ->]]; cbn [hooksAfter]; [done|].
    by rewrite Hrdy1. }
  assert (Hfilter : pointsFilter w2 =
            compileSelection (selection (hooks w2)) (Some (toUpperCase (shapeName props)))).
  { rewrite Hf2, Hf1, Hsel. by rewrite Hh1. }
  split_and!.
  - apply Hc.
  - apply Hc.
  - exact Hfilter.
  - intros p. rewrite Hfilter. unfold compileSelection.
    destruct (selection (hooks w2)) as [[ys ss] ts].
    apply passes_region. by rewrite toUpperCase_empty.
Qed.

Lemma region_filter_outlives_the_region_witness :
  let w2 := world_of (ready ++ [StateClick lagos; SwitchView technology]) in
  activeState (hooks w2) = None /\ stateData (hooks w2) = None /\
  pointsFilter w2 =
    compileSelection (selection (hooks w2)) (Some (toUpperCase (shapeName lagos))) /\
  (forall p, passes (pointsFilter w2) p = true ->
             prop p "state" = VStr (toUpperCase (shapeName lagos))).
Proof.
  apply (region_filter_outlives_the_region lagos (SwitchView technology)
           (world_of ready) (world_of (ready ++ [StateClick lagos]))
           (world_of (ready ++ [StateClick lagos; SwitchView technology]))).
  - right. by exists technology.
  - vm_compute. reflexivity.
  - vm_compute. reflexivity.
  - discriminate.
  - vm_compute. reflexivity.
  - vm_compute. reflexivity.
Defined.

(** The region handler run twice on the same region, as when a click hits
    both region layers, leaves the cells and the filter as one run does. *)
Theorem region_click_twice (props : RegionProps) w :
  hasPoints w = true ->
  hooks (handleStateClick props (handleStateClick props w)) =
    hooks (handleStateClick props w) /\
  pointsFilter (handleStateClick props (handleStateClick props w)) =
    pointsFilter (handleStateClick props w).
Proof.
  intros Hpts.
  destruct (handleStateClick_layer props w Hpts) as (Hh & Hf & _).
  assert (Hpts1 : hasPoints (handleStateClick props w) = true).
  { pose proof (handleStateClick_lifecycle props w) as Hl. unfold lifecycle in Hl.
    injection Hl as _ -> _ _ _. done. }
  destruct (handleStateClick_layer props (handleStateClick props w) Hpts1) as (Hh2 & Hf2 & _).
  rewrite Hf2, Hh2, Hf, Hh. split; reflexivity.
Qed.

Lemma region_click_twice_witness :
  hooks (handleStateClick lagos (handleStateClick lagos (world_of ready))) =
    hooks (handleStateClick lagos (world_of ready)) /\
  pointsFilter (handleStateClick lagos (handleStateClick lagos (world_of ready))) =
    pointsFilter (handleStateClick lagos (world_of ready)).
Proof.
  apply (region_click_twice lagos (world_of ready)). vm_compute. reflexivity.
Defined.

Lemma map_applyFilter years statuses types stateName w :
  is_Some (map (applyFilter years statuses types stateName w)) <-> is_Some (map w).
Proof.
  unfold applyFilter. destruct (map w) as [m|] eqn:Hm; [|by rewrite Hm].
  destruct (negb (getLayer "project-points" m)); [by rewrite Hm|].
  unfold setFilter. rewrite Hm. cbn [map setTimeout issue withMap].
  split; intros _; by eexists.
Qed.

(** Clear all empties the three selections, the active region and the region
    statistics, so that the filter button shows no number and the side panel
    nothing; it keeps the view, the count and the readiness flag; with the
    point layer present it removes the filter of that layer, so that every
    point passes; and with a map object its last call moves the camera home. *)
Theorem clear_all_resets w :
  let w' := clearAll w in
  selection (hooks w') = ([], [], []) /\
  activeState (hooks w') = None /\ stateData (hooks w') = None /\
  activeFilterCount (hooks w') = 0 /\ renderSidePanel (hooks w') = None /\
  view (hooks w') = view (hooks w) /\ pointCount (hooks w') = pointCount (hooks w) /\
  mapReady (hooks w') = mapReady (hooks w) /\
  (hasPoints w = true ->
   pointsFilter w' = None /\ forall p, passes (pointsFilter w') p = true) /\
  (is_Some (map w) -> last (issued w') = Some home).
Proof.
  cbn zeta.
  destruct (exec_effect ClearAll w (clearAll w) eq_refl) as (Hh & _ & _ & Hf).
  cbn [hooksAfter] in Hh. rewrite Hh, Hf. split_and!; try reflexivity.
  - intros Hpts. unfold filterAfter. cbn [filterEvent andb]. rewrite Hpts.
    split; [reflexivity|]. intros p. reflexivity.
  - intros Hm. unfold clearAll. cbn zeta.
    match goal with
    | |- context [match map ?x with _ => _ end] =>
        assert (Hx : is_Some (map x))
          by (apply map_applyFilter; by autorewrite with world);
        destruct Hx as [m ->]
    end.
    rewrite issued_issue. apply last_snoc.
Qed.

End RegionAndView.

(* ================================================================== *)
(** ** The timers and the readiness flag *)
(* ================================================================== *)

Section Timers.

Implicit Types (e : Event) (es : list Event).

Lemma exec_registered e w w' :
  exec e w = Some w' ->
  registered w' = match e with Load => true | _ => registered w end.
Proof.
  assert (Hl : forall w1, lifecycle w1 = lifecycle w -> registered w1 = registered w).
  { intros w1 Hl. unfold lifecycle in Hl. by injection Hl as -> _ _ _ _. }
  intros Hex. destruct e; cbn [exec] in Hex.
  - injection Hex as <-. by destruct (mount_frame w) as (-> & _).
  - destruct (map w) as [m|] eqn:Hm; [|discriminate].
    destruct (registered w); [discriminate|]. injection Hex as <-.
    apply onLoad_registered. by eexists.
  - by injection Hex as <-.
  - destruct (timers w !! i) as [t|]; [|discriminate].
    destruct (can_fire _ _ _); [|discriminate]. injection Hex as <-.
    by destruct (onTimer_frame (kind t) visible (dropTimer i w)) as (-> & _).
  - injection Hex as <-. apply Hl, toggleYear_lifecycle.
  - injection Hex as <-. apply Hl, toggleStatus_lifecycle.
  - injection Hex as <-. apply Hl, toggleType_lifecycle.
  - injection Hex as <-. apply Hl, clearAll_lifecycle.
  - injection Hex as <-. apply Hl, switchView_lifecycle.
  - destruct (registered w); [|discriminate].
    injection Hex as <-. apply Hl, handleStateClick_lifecycle.
  - destruct (registered w); [|discriminate].
    injection Hex as <-. apply Hl, handleMapClick_lifecycle.
  - destruct (map w); [|discriminate]. destruct (present _); [|discriminate].
    injection Hex as <-. apply Hl, clearRegion_lifecycle.
  - destruct (showSidePanel _); [|discriminate].
    injection Hex as <-. apply Hl, closePanel_lifecycle.
Qed.

Lemma hooksAfter_mapReady e w :
  mapReady (hooksAfter e w) =
  match e with
  | Fire i _ =>
      match timers w !! i with
      | Some t => match kind t with InitialCount => true | Resample => mapReady (hooks w) end
      | None => mapReady (hooks w)
      end
  | _ => mapReady (hooks w)
  end.
Proof.
  destruct e; unfold hooksAfter; cbn zeta; try reflexivity.
  - destruct (timers w !! i) as [t|]; [|done]. by destruct (kind t).
  - by destruct (viewReady w).
  - by destruct hits.
Qed.

Lemma Forall_delete_timer {P : Timer -> Prop} (i : nat) (ts : list Timer) :
  Forall P ts -> Forall P (delete i ts).
Proof. apply Forall_delete. Qed.

Lemma timers_not_ahead e w w' :
  exec e w = Some w' ->
  Forall (fun t => setAt t <= now w) (timers w) ->
  Forall (fun t => setAt t <= now w') (timers w').
Proof.
  intros Hex H. destruct (exec_effect e w w' Hex) as (_ & -> & -> & _).
  assert (Hnew : forall k, Forall (fun t => setAt t <= now w)
                             (timers w ++ [mkTimer k (now w)])).
  { intros k. apply Forall_app. split; [done|]. by repeat constructor. }
  destruct e; unfold timersAfter, nowAfter; cbn [filterEvent andb];
    try done; try (destruct (hasPoints w); done).
  - eapply Forall_impl; [exact H|]. intros t Ht. simpl in *. lia.
  - by apply Forall_delete_timer.
  - destruct hits; cbn [filterEvent andb]; [destruct (hasPoints w)|]; done.
Qed.

Lemma timers_shape_exec e w w' :
  reachable w -> timers_shape w -> exec e w = Some w' -> timers_shape w'.
Proof.
  intros Hreach [Hahead Hshape] Hex. split; [by eapply timers_not_ahead|].
  pose proof (reachable_loaded_or_idle w Hreach) as Hinv.
  pose proof (exec_registered e w w' Hex) as Hreg.
  destruct (exec_effect e w w' Hex) as (Hh & Ht & _ & _).
  rewrite Hh, Ht, hooksAfter_mapReady.
  assert (Happ : registered w = true ->
            if mapReady (hooks w)
            then Forall is_resample (timers w ++ [mkTimer Resample (now w)])
            else exists t0 rest,
                timers w ++ [mkTimer Resample (now w)] = mkTimer InitialCount t0 :: rest /\
                Forall is_resample rest).
  { intros Hr. specialize (Hshape Hr). destruct (mapReady (hooks w)).
    - apply Forall_app. split; [done|]. by repeat constructor.
    - destruct Hshape as (t0 & rest & -> & Hrest).
      exists t0, (rest ++ [mkTimer Resample (now w)]). split; [done|].
      apply Forall_app. split; [done|]. by repeat constructor. }
  destruct e; rewrite Hreg; unfold timersAfter; cbn [filterEvent andb];
    try exact Hshape;
    try (destruct (hasPoints w); [exact Happ | exact Hshape]).
  - (* load *)
    intros _. unfold loaded_or_idle in Hinv. cbn [exec] in Hex.
    destruct (map w); [|discriminate]. destruct (registered w); [discriminate|].
    destruct Hinv as (-> & -> & _). exists (now w), []. split; [done|]. constructor.
  - (* a timer runs *)
    intros Hr. specialize (Hshape Hr). cbn [exec] in Hex.
    destruct (timers w !! i) as [t|] eqn:Hi; [|discriminate].
    destruct (mapReady (hooks w)).
    + assert (Hk : kind t = Resample).
      { rewrite Forall_forall in Hshape. apply Hshape.
        apply list_elem_of_lookup. by exists i. }
      rewrite Hk. by apply Forall_delete_timer.
    + destruct Hshape as (t0 & rest & Hts & Hrest). rewrite Hts in Hi |- *.
      destruct i as [|j]; cbn in Hi.
      * injection Hi as <-. done.
      * assert (Hk : kind t = Resample).
        { rewrite Forall_forall in Hrest. apply Hrest.
          apply list_elem_of_lookup. by exists j. }
        rewrite Hk. exists t0, (delete j rest). split; [done|].
        by apply Forall_delete_timer.
  - (* a click *)
    destruct hits; cbn [filterEvent andb];
      [destruct (hasPoints w); [exact Happ | exact Hshape] | exact Hshape].
Qed.

Lemma reachable_timers_shape w : reachable w -> timers_shape w.
Proof.
  revert w. apply reachable_ind.
  - split; [constructor | discriminate].
  - intros e w w' Hr Hs Hex. by eapply timers_shape_exec.
Qed.

(** After [load] the readiness flag is unset exactly while the first count is
    pending, and that timer is at the head of the queue: 500 ms later it can
    run, whatever else is pending, and running it sets the flag and the count
    and leaves the selections alone. *)
Theorem readiness_arrives (visible : nat) w :
  reachable w -> registered w = true -> mapReady (hooks w) = false ->
  exists setAt0 rest w',
    timers w = mkTimer InitialCount setAt0 :: rest /\ Forall is_resample rest /\
    run [Tick 500; Fire 0 visible] w = Some w' /\
    mapReady (hooks w') = true /\ pointCount (hooks w') = Some visible /\
    selection (hooks w') = selection (hooks w) /\ timers w' = rest.
Proof.
  intros Hreach Hreg Hrdy.
  destruct (reachable_timers_shape w Hreach) as [Hahead Hshape].
  specialize (Hshape Hreg). rewrite Hrdy in Hshape.
  destruct Hshape as (t0 & rest & Hts & Hrest).
  exists t0, rest. eexists. split; [exact Hts|]. split; [exact Hrest|].
  assert (Hfire : can_fire (timers (advance 500 w)) 0 (now (advance 500 w)) = true).
  { cbn [advance timers now]. rewrite Hts. unfold can_fire. cbn.
    rewrite Hts in Hahead. apply Forall_cons in Hahead as [Hle _]. cbn in Hle.
    rewrite andb_true_r. apply Nat.leb_le. unfold due. cbn. lia. }
  cbn [run exec]. cbn [advance timers] in Hfire |- *. rewrite Hts in Hfire |- *.
  cbn [lookup list_lookup]. rewrite Hfire.
  split; [reflexivity|]. split_and!; try reflexivity.
  cbn [onTimer kind withHooks timers dropTimer advance]. by rewrite Hts.
Qed.

Lemma readiness_arrives_witness :
  exists setAt0 rest w',
    timers (world_of (loaded ++ [ToggleYear "2022"])) = mkTimer InitialCount setAt0 :: rest /\
    Forall is_resample rest /\
    run [Tick 500; Fire 0 75] (world_of (loaded ++ [ToggleYear "2022"])) = Some w' /\
    mapReady (hooks w') = true /\ pointCount (hooks w') = Some 75 /\
    selection (hooks w') = selection (hooks (world_of (loaded ++ [ToggleYear "2022"]))) /\
    timers w' = rest.
Proof.
  apply (readiness_arrives 75 (world_of (loaded ++ [ToggleYear "2022"]))).
  - apply reachable_world_of. vm_compute. eauto.
  - vm_compute. reflexivity.
  - vm_compute. reflexivity.
Defined.

(** The readiness flag and the registration of the handlers are never
    undone. *)
Theorem ready_stays_ready es w w' :
  run es w = Some w' ->
  (mapReady (hooks w) = true -> mapReady (hooks w') = true) /\
  (registered w = true -> registered w' = true).
Proof.
  revert w. induction es as [|e es IH]; intros w Hrun; cbn [run] in Hrun.
  - by injection Hrun as <-.
  - destruct (exec e w) as [w1|] eqn:Hex; [|discriminate].
    destruct (IH w1 Hrun) as [H1 H2]. split.
    + intros Hr. apply H1. rewrite (exec_hooks e w w1 Hex), hooksAfter_mapReady.
      destruct e; try exact Hr.
      destruct (timers w !! i) as [t|]; [destruct (kind t)|]; done.
    + intros Hr. apply H2. rewrite (exec_registered e w w1 Hex).
      by destruct e.
Qed.

Lemma ready_stays_ready_witness :
  (mapReady (hooks (world_of ready)) = true ->
   mapReady (hooks (world_of filteredLagos)) = true) /\
  (registered (world_of ready) = true -> registered (world_of filteredLagos) = true).
Proof.
  apply (ready_stays_ready [ToggleYear "2022"; ToggleStatus "ONGOING"; StateClick lagos]
           (world_of ready) (world_of filteredLagos)).
  vm_compute. reflexivity.
Defined.

(** No pending callback is held back for ever: waiting for the oldest timer
    and running it, again and again, empties the queue; the last sample is
    the count, and the selections and the filter are as before. *)
Theorem pending_timers_drain (visible : nat) w :
  exists w',
    run (drain visible (timers w)) w = Some w' /\ timers w' = [] /\
    selection (hooks w') = selection (hooks w) /\
    pointsFilter w' = pointsFilter w /\
    (timers w <> [] -> pointCount (hooks w') = Some visible).
Proof.
  remember (timers w) as ts eqn:Hts. revert w Hts.
  induction ts as [|t ts IH]; intros w Hts.
  - exists w. cbn [drain run]. by split_and!.
  - set (w1 := advance (due t) w).
    assert (Hcan : can_fire (timers w1) 0 (now w1) = true).
    { unfold w1. cbn [advance timers now]. rewrite <- Hts. unfold can_fire. cbn.
      rewrite andb_true_r. apply Nat.leb_le. lia. }
    set (w2 := onTimer (kind t) visible (dropTimer 0 w1)).
    assert (Hex : exec (Fire 0 visible) w1 = Some w2).
    { cbn [exec]. rewrite Hcan. unfold w1 at 1. cbn [advance timers].
      rewrite <- Hts. reflexivity. }
    destruct (onTimer_frame (kind t) visible (dropTimer 0 w1))
      as (_ & _ & Ht2 & _ & _ & Hp2 & Hs2 & Hf2).
    fold w2 in Ht2, Hp2, Hs2, Hf2.
    assert (Hts2 : ts = timers w2).
    { rewrite Ht2. unfold w1. cbn [dropTimer advance timers]. by rewrite <- Hts. }
    destruct (IH w2 Hts2) as (w' & Hrun & Hnil & Hsel & Hfil & Hcount).
    exists w'. cbn [drain run].
    change (exec (Tick (due t)) w) with (Some w1). cbv iota. rewrite Hex, Hrun.
    split_and!; try done.
    + by rewrite Hsel, Hs2.
    + by rewrite Hfil, Hf2.
    + intros _. destruct ts as [|t' ts'].
      * cbn [drain run] in Hrun. injection Hrun as <-. exact Hp2.
      * by apply Hcount.
Qed.

End Timers.

(* ================================================================== *)
(** ** The style of the map and the view *)
(* ================================================================== *)

Section Style.

Implicit Types (e : Event) (l : string).

Ltac by_map' w :=
  intros; unfold styleOf, visibilityOf, circleColor, hoverOf, hasMap,
    setFilter, setLayoutProperty, setPaintProperty;
  destruct (map w) eqn:E; rewrite ?E; reflexivity.

Lemma styleOf_withHooks f w : styleOf (withHooks f w) = styleOf w.
Proof. reflexivity. Qed.
Lemma styleOf_issue c w : styleOf (issue c w) = styleOf w.
Proof. reflexivity. Qed.
Lemma styleOf_setTimeout k w : styleOf (setTimeout k w) = styleOf w.
Proof. reflexivity. Qed.
Lemma styleOf_setFilter l f w : styleOf (setFilter l f w) = styleOf w.
Proof. by_map' w. Qed.

Lemma styleOf_applyFilter years statuses types stateName w :
  styleOf (applyFilter years statuses types stateName w) = styleOf w.
Proof.
  unfold applyFilter. destruct (map w) eqn:Hm; [|done].
  destruct (negb _); [done|]. by rewrite styleOf_setTimeout, styleOf_setFilter.
Qed.

Lemma hasMap_withHooks f w : hasMap (withHooks f w) = hasMap w.
Proof. reflexivity. Qed.
Lemma hasMap_setLayoutProperty l v w : hasMap (setLayoutProperty l v w) = hasMap w.
Proof. by_map' w. Qed.
Lemma hasMap_setPaintProperty l p v w : hasMap (setPaintProperty l p v w) = hasMap w.
Proof. by_map' w. Qed.

Lemma visibilityOf_withHooks l f w : visibilityOf l (withHooks f w) = visibilityOf l w.
Proof. reflexivity. Qed.
Lemma visibilityOf_setPaintProperty l l' p v w :
  visibilityOf l (setPaintProperty l' p v w) = visibilityOf l w.
Proof. by_map' w. Qed.
Lemma visibilityOf_setLayoutProperty l l' v w :
  visibilityOf l (setLayoutProperty l' v w) =
  if hasMap w && String.eqb l' l then v else visibilityOf l w.
Proof.
  unfold visibilityOf, hasMap, setLayoutProperty.
  destruct (map w) as [m|] eqn:Hm; rewrite ?Hm; [|done].
  cbn [map issue withMap map_setLayoutProperty visibility andb].
  destruct (String.eqb_spec l' l) as [->|Hne].
  - by rewrite lookup_insert_eq.
  - by rewrite lookup_insert_ne.
Qed.

Lemma circleColor_withHooks f w : circleColor (withHooks f w) = circleColor w.
Proof. reflexivity. Qed.
Lemma circleColor_setLayoutProperty l v w :
  circleColor (setLayoutProperty l v w) = circleColor w.
Proof. by_map' w. Qed.
Lemma circleColor_setPaintProperty l p v w :
  circleColor (setPaintProperty l p v w) =
  if hasMap w && String.eqb l "project-points" && String.eqb p "circle-color"
  then Some v else circleColor w.
Proof.
  unfold circleColor, hasMap, setPaintProperty.
  destruct (map w) as [m|] eqn:Hm; rewrite ?Hm; [|done].
  cbn [map issue withMap map_setPaintProperty paint andb].
  destruct (String.eqb_spec l "project-points") as [->|Hne].
  - destruct (String.eqb_spec p "circle-color") as [->|Hne].
    + by rewrite lookup_insert_eq.
    + rewrite lookup_insert_ne; [done|]. congruence.
  - rewrite lookup_insert_ne; [done|]. congruence.
Qed.

(** The style after a view switch that takes effect. *)
Lemma switchView_style v w :
  viewReady w = true -> styleOf (switchView v w) = styleFor v (circleColor w).
Proof.
  unfold viewReady. intros Hr. destruct (map w) as [m|] eqn:Hm; [|discriminate].
  assert (Hmap : hasMap w = true) by (unfold hasMap; by rewrite Hm).
  unfold switchView. rewrite Hm, Hr. cbn [negb].
  unfold styleOf.
  destruct v; cbn zeta;
    rewrite ?visibilityOf_setPaintProperty, ?visibilityOf_setLayoutProperty,
      ?circleColor_setPaintProperty, ?circleColor_setLayoutProperty,
      ?hasMap_setPaintProperty, ?hasMap_setLayoutProperty, ?hasMap_withHooks,
      ?visibilityOf_withHooks, ?circleColor_withHooks, ?Hmap;
    reflexivity.
Qed.

Lemma styleOf_switchView_not_ready v w :
  viewReady w = false -> switchView v w = w.
Proof.
  unfold viewReady. intros H. apply switchView_not_ready.
  destruct (map w); auto.
Qed.

Lemma styleOf_mount w : styleOf (mount w) = styleOf w.
Proof.
  unfold mount, styleOf, visibilityOf, circleColor.
  destruct (map w) eqn:Hm; rewrite ?Hm; [done|].
  cbn [map withMap visibility paint]. by rewrite !lookup_empty.
Qed.

(** Apart from a view switch and [load], no event changes the style. *)
Lemma exec_styleOf e w w' :
  exec e w = Some w' ->
  styleOf w' =
  match e with
  | SwitchView v => if viewReady w then styleFor v (circleColor w) else styleOf w
  | Load => ("none", visibilityOf "project-points" w, Some (PExpr performanceColor))
  | _ => styleOf w
  end.
Proof.
  intros Hex. destruct e; cbn [exec] in Hex.
  - injection Hex as <-. apply styleOf_mount.
  - destruct (map w) as [m|] eqn:Hm; [|discriminate].
    destruct (registered w); [discriminate|]. injection Hex as <-.
    unfold onLoad, styleOf, visibilityOf, circleColor. rewrite Hm.
    cbn [map setTimeout withMap visibility paint].
    rewrite lookup_insert_eq, lookup_insert_eq, lookup_insert_ne by done. done.
  - by injection Hex as <-.
  - destruct (timers w !! i) as [t|]; [|discriminate].
    destruct (can_fire _ _ _); [|discriminate]. injection Hex as <-.
    by destruct (kind t).
  - injection Hex as <-. unfold toggleYear. cbn zeta.
    by rewrite styleOf_applyFilter.
  - injection Hex as <-. unfold toggleStatus. cbn zeta.
    by rewrite styleOf_applyFilter.
  - injection Hex as <-. unfold toggleType. cbn zeta.
    by rewrite styleOf_applyFilter.
  - injection Hex as <-. unfold clearAll. cbn zeta.
    destruct (map _); rewrite ?styleOf_issue; by rewrite styleOf_applyFilter.
  - injection Hex as <-. destruct (viewReady w) eqn:Hr.
    + by apply switchView_style.
    + by rewrite styleOf_switchView_not_ready.
  - destruct (registered w); [|discriminate]. injection Hex as <-.
    unfold handleStateClick. cbn zeta. rewrite withCurrentSelection_applyFilter.
    rewrite styleOf_applyFilter. by destruct (map _).
  - destruct (registered w); [|discriminate]. injection Hex as <-.
    destruct hits; [|done]. unfold handleMapClick. cbn zeta.
    rewrite withCurrentSelection_applyFilter. by rewrite styleOf_applyFilter.
  - destruct (map w); [|discriminate]. destruct (present _); [|discriminate].
    injection Hex as <-. unfold clearRegion. cbn zeta.
    by rewrite styleOf_issue, styleOf_applyFilter.
  - destruct (showSidePanel _); [|discriminate]. by injection Hex as <-.
Qed.

Lemma hooksAfter_view e w :
  view (hooksAfter e w) =
  match e with
  | SwitchView v => if viewReady w then v else view (hooks w)
  | _ => view (hooks w)
  end.
Proof.
  destruct e; unfold hooksAfter; cbn zeta; try reflexivity.
  - destruct (timers w !! i) as [t|]; [|done]. by destruct (kind t).
  - by destruct (viewReady w).
  - by destruct hits.
Qed.

Lemma style_matches_view_styleOf w :
  style_matches_view w <->
  match view (hooks w) with
  | coverage => fst (fst (styleOf w)) = "visible" /\ snd (fst (styleOf w)) = "none"
  | performance => styleOf w = ("none", "visible", Some (PExpr performanceColor))
  | technology => styleOf w = ("none", "visible", Some (PExpr technologyColor))
  end.
Proof.
  unfold style_matches_view, styleOf. cbn [fst snd].
  destruct (view (hooks w)); split.
  - by intros (-> & -> & _).
  - by intros (-> & ->).
  - by intros (-> & -> & ->).
  - by intros [= -> -> ->].
  - by intros (-> & -> & ->).
  - by intros [= -> -> ->].
Qed.

Lemma idle_map_exec e w w' :
  hasPoints w = false -> mapReady (hooks w) = false -> exec e w = Some w' ->
  match e with
  | Mount => match map w with Some m => map w' = Some m | None => map w' = Some (mkMapObj [] ∅ ∅ ∅) end
  | Load => True
  | _ => map w' = map w
  end.
Proof.
  intros Hpts Hrdy Hex. destruct e; cbn [exec] in Hex.
  - injection Hex as <-. unfold mount. by destruct (map w) eqn:Hm.
  - exact I.
  - by injection Hex as <-.
  - destruct (timers w !! i) as [t|]; [|discriminate].
    destruct (can_fire _ _ _); [|discriminate]. injection Hex as <-.
    by destruct (kind t).
  - injection Hex as <-. unfold toggleYear. cbn zeta.
    by rewrite applyFilter_no_layer by (autorewrite with world; exact Hpts).
  - injection Hex as <-. unfold toggleStatus. cbn zeta.
    by rewrite applyFilter_no_layer by (autorewrite with world; exact Hpts).
  - injection Hex as <-. unfold toggleType. cbn zeta.
    by rewrite applyFilter_no_layer by (autorewrite with world; exact Hpts).
  - injection Hex as <-. unfold clearAll. cbn zeta.
    rewrite applyFilter_no_layer by (autorewrite with world; exact Hpts).
    autorewrite with world.
    destruct (map w) eqn:Hm; autorewrite with world; by rewrite ?Hm.
  - injection Hex as <-. by rewrite switchView_not_ready by auto.
  - destruct (registered w); [|discriminate]. injection Hex as <-.
    unfold handleStateClick. cbn zeta. rewrite withCurrentSelection_applyFilter.
    rewrite applyFilter_no_layer.
    + autorewrite with world.
      destruct (map w) eqn:Hm; autorewrite with world; by rewrite ?Hm.
    + autorewrite with world. destruct (map w); by autorewrite with world.
  - destruct (registered w); [|discriminate]. injection Hex as <-.
    destruct hits; [|done]. unfold handleMapClick. cbn zeta.
    rewrite withCurrentSelection_applyFilter.
    by rewrite applyFilter_no_layer by (autorewrite with world; exact Hpts).
  - destruct (map w) eqn:Hm; [|discriminate]. destruct (present _); [|discriminate].
    injection Hex as <-. unfold clearRegion. cbn zeta.
    rewrite applyFilter_no_layer by (autorewrite with world; exact Hpts).
    autorewrite with world. by rewrite Hm.
  - destruct (showSidePanel _); [|discriminate]. by injection Hex as <-.
Qed.

Lemma styled_exec e w w' : reachable w -> styled w -> exec e w = Some w' -> styled w'.
Proof.
  intros Hreach Hst Hex.
  pose proof (reachable_loaded_or_idle w Hreach) as Hinv.
  pose proof (exec_registered e w w' Hex) as Hreg.
  pose proof (exec_styleOf e w w' Hex) as Hstyle.
  pose proof (exec_hooks e w w' Hex) as Hh.
  pose proof (hooksAfter_view e w) as Hview. rewrite <- Hh in Hview.
  unfold styled, loaded_or_idle in *. destruct (registered w) eqn:Hr.
  - (* the layers exist *)
    assert (Hr' : registered w' = true) by (rewrite Hreg; by destruct e).
    rewrite Hr'. apply style_matches_view_styleOf. apply style_matches_view_styleOf in Hst.
    rewrite Hview, Hstyle.
    destruct e; try exact Hst.
    + cbn [exec] in Hex. rewrite Hr in Hex. destruct (map w); discriminate.
    + destruct (viewReady w); [|exact Hst]. by destruct v.
  - (* before load *)
    destruct Hinv as (Hrdy & _ & Hpts & _). destruct Hst as [Hblank Hperf].
    pose proof (idle_map_exec e w w' Hpts Hrdy Hex) as Hmap.
    assert (Hvr : viewReady w = false).
    { unfold viewReady. rewrite Hrdy. by destruct (map w). }
    rewrite Hvr in Hview.
    destruct e; rewrite Hreg;
      try (split; [unfold blank_map in *; by rewrite Hmap | by rewrite Hview]).
    + split; [|by rewrite Hview]. unfold blank_map in *.
      destruct (map w); by rewrite Hmap.
    + apply style_matches_view_styleOf. rewrite Hview, Hperf, Hstyle.
      unfold visibilityOf, blank_map in *. cbn [exec] in Hex.
      destruct (map w) as [m|]; [|discriminate].
      destruct Hblank as (_ & _ & -> & _). by rewrite lookup_empty.
Qed.

Lemma reachable_styled w : reachable w -> styled w.
Proof.
  revert w. apply reachable_ind.
  - split; [exact I | reflexivity].
  - intros e w w' Hr Hs Hex. by eapply styled_exec.
Qed.

(** Once the layers exist the style of the map always fits the view: the
    choropleth is visible in Coverage and hidden otherwise, the points are
    hidden in Coverage and visible otherwise, and the colour of the points is
    the status expression in Performance and the technology expression in
    Technology. *)
Theorem style_fits_view w :
  reachable w -> registered w = true -> style_matches_view w.
Proof.
  intros Hreach Hreg. pose proof (reachable_styled w Hreach) as H.
  unfold styled in H. by rewrite Hreg in H.
Qed.

Lemma style_fits_view_witness :
  style_matches_view
    (world_of (ready ++ [SwitchView coverage; ToggleYear "2022"; SwitchView technology])).
Proof.
  apply (style_fits_view
           (world_of (ready ++ [SwitchView coverage; ToggleYear "2022"; SwitchView technology]))).
  - apply reachable_world_of. vm_compute. eauto.
  - vm_compute. reflexivity.
Defined.

Lemma blank_pointsFilter w : blank_map w -> pointsFilter w = None.
Proof.
  unfold blank_map, pointsFilter. destruct (map w) as [m|]; [|done].
  intros (_ & -> & _). apply lookup_empty.
Qed.

(** [load] does not look at the selections: whatever was toggled before it,
    the point layer starts without a filter, so that every point passes, and
    the selections stay as they were. *)
Theorem load_ignores_selection w w' :
  reachable w -> exec Load w = Some w' ->
  pointsFilter w' = None /\ (forall p, passes (pointsFilter w') p = true) /\
  hooks w' = hooks w /\ hasPoints w' = true /\ registered w' = true.
Proof.
  intros Hreach Hex. pose proof (reachable_styled w Hreach) as Hst.
  pose proof (exec_registered Load w w' Hex) as Hreg.
  destruct (exec_effect Load w w' Hex) as (Hh & _ & _ & Hf).
  cbn [exec] in Hex. destruct (map w) as [m|] eqn:Hm; [|discriminate].
  destruct (registered w) eqn:Hr; [discriminate|]. injection Hex as <-.
  unfold styled in Hst. rewrite Hr in Hst. destruct Hst as [Hblank _].
  assert (Hnone : pointsFilter (onLoad w) = None).
  { rewrite onLoad_pointsFilter. by apply blank_pointsFilter. }
  split_and!; try done.
  - intros p. by rewrite Hnone.
  - apply onLoad_hasPoints. by eexists.
Qed.

Lemma load_ignores_selection_witness :
  let w' := world_of [Mount; ToggleYear "2022"; Load] in
  pointsFilter w' = None /\ (forall p, passes (pointsFilter w') p = true) /\
  hooks w' = hooks (world_of [Mount; ToggleYear "2022"]) /\
  hasPoints w' = true /\ registered w' = true.
Proof.
  apply (load_ignores_selection (world_of [Mount; ToggleYear "2022"])
           (world_of [Mount; ToggleYear "2022"; Load])).
  - apply reachable_world_of. vm_compute. eauto.
  - vm_compute. reflexivity.
Defined.

Example chip_selected_but_not_filtered :
  selectedYears (hooks (world_of [Mount; ToggleYear "2022"; Load])) = ["2022"] /\
  pointsFilter (world_of [Mount; ToggleYear "2022"; Load]) = None.
Proof. split; vm_compute; reflexivity. Qed.

End Style.

(* ================================================================== *)
(** ** Colours, legend and panels *)
(* ================================================================== *)

Section Colours.

Implicit Types (p : Props) (ty s : string).

Lemma eval_match p (k : string) (arms : list (string * string)) (fb : string) :
  eval p (EMatch (EGet k) arms fb) =
  Some (VStr (match prop p k with
              | VStr s => default fb (lookup_arm s arms)
              | _ => fb
              end)).
Proof. unfold prop. cbn [eval]. by destruct (default VNull (p !! k)). Qed.

Lemma performance_colour p :
  eval p performanceColor =
  Some (VStr (match prop p "status" with
              | VStr s =>
                  if String.eqb "COMPLETED" s then "#2ecc71"
                  else if String.eqb "ONGOING" s then "#f39c12"
                  else if String.eqb "YET TO MOBILIZE" s then "#E63946"
                  else "#333333"
              | _ => "#333333"
              end)).
Proof.
  unfold performanceColor. rewrite eval_match. destruct (prop p "status"); try done.
  cbn [lookup_arm].
  by destruct (String.eqb "COMPLETED" s), (String.eqb "ONGOING" s),
    (String.eqb "YET TO MOBILIZE" s).
Qed.

Lemma technology_colour p ty :
  prop p "type" = VStr ty -> eval p technologyColor = Some (VStr (classifyType ty)).
Proof.
  intros H. unfold technologyColor, classifyType.
  rewrite eval_case_cons, eval_all_cons, (eval_type_test _ _ _ H).
  destruct (includes "SOLAR STREET LIGHT" ty).
  - rewrite eval_all_cons, (eval_not _ _ _ (eval_type_test _ _ _ H)).
    destruct (includes "MINI GRID" ty) eqn:Hmini; cbn [negb andb].
    + rewrite eval_case_cons, (eval_type_test _ _ _ H), Hmini. reflexivity.
    + rewrite eval_all_nil. reflexivity.
  - cbn [andb]. rewrite eval_case_cons, (eval_type_test _ _ _ H).
    destruct (includes "MINI GRID" ty); [reflexivity|].
    rewrite eval_case_cons, (eval_type_test _ _ _ H).
    destruct (includes "SOLAR HOME" ty); [reflexivity|].
    rewrite eval_case_cons, (eval_type_test _ _ _ H).
    destruct (includes "GRID" ty); reflexivity.
Qed.

(** Whatever the properties of a point, its colour in Performance view is one
    of the four colours of the Performance legend; and whatever its type
    token, its colour in Technology view is one of the colours of the
    Technology legend. *)
Theorem circle_colours_are_in_the_legend p :
  (exists c, eval p performanceColor = Some (VStr c) /\
             In c (List.map fst (renderLegend performance))) /\
  (forall ty, p !! "type" = Some (VStr ty) ->
              exists c, eval p technologyColor = Some (VStr c) /\
                        In c (List.map fst (renderLegend technology))).
Proof.
  split.
  - rewrite performance_colour. eexists. split; [reflexivity|].
    cbn [renderLegend List.map fst In].
    destruct (prop p "status") as [| | |s|]; try tauto.
    destruct (String.eqb "COMPLETED" s), (String.eqb "ONGOING" s),
      (String.eqb "YET TO MOBILIZE" s); tauto.
  - intros ty Hty. exists (classifyType ty). split.
    + apply technology_colour. unfold prop. by rewrite Hty.
    + unfold classifyType. cbn [renderLegend TECH_COLORS List.map fst snd In].
      destruct (includes "SOLAR STREET LIGHT" ty), (includes "MINI GRID" ty),
        (includes "SOLAR HOME" ty), (includes "GRID" ty); cbn [andb negb]; tauto.
Qed.

(** Which type tokens get which colour in Technology view: the mini-grid
    colour goes to every token that contains MINI GRID, the street-light
    colour to those that contain SOLAR STREET LIGHT and not MINI GRID, the
    home colour to those that contain SOLAR HOME and neither of the two, the
    grid colour to those that contain GRID and none of the three, and the
    fallback to the rest. *)
Theorem technology_colour_classes p ty :
  p !! "type" = Some (VStr ty) ->
  let light := includes "SOLAR STREET LIGHT" ty in
  let mini := includes "MINI GRID" ty in
  let home := includes "SOLAR HOME" ty in
  let grid := includes "GRID" ty in
  (eval p technologyColor = Some (VStr "#3498db") <-> mini = true) /\
  (eval p technologyColor = Some (VStr "#f39c12") <-> light = true /\ mini = false) /\
  (eval p technologyColor = Some (VStr "#9b59b6") <->
     light = false /\ mini = false /\ home = true) /\
  (eval p technologyColor = Some (VStr "#E63946") <->
     light = false /\ mini = false /\ home = false /\ grid = true) /\
  (eval p technologyColor = Some (VStr "#95a5a6") <->
     light = false /\ mini = false /\ home = false /\ grid = false).
Proof.
  intros Hty. cbn zeta.
  rewrite (technology_colour p ty) by (unfold prop; by rewrite Hty).
  unfold classifyType.
  destruct (includes "SOLAR STREET LIGHT" ty), (includes "MINI GRID" ty),
    (includes "SOLAR HOME" ty), (includes "GRID" ty); cbn [andb negb];
    split_and!; split; intros H; try discriminate H; try done;
    destruct_and?; discriminate.
Qed.

Lemma technology_colour_classes_witness :
  let p : Props := {["type" := VStr "SOLAR MINI GRID/SOLAR STREET LIGHT"]} in
  let ty := "SOLAR MINI GRID/SOLAR STREET LIGHT" in
  let light := includes "SOLAR STREET LIGHT" ty in
  let mini := includes "MINI GRID" ty in
  let home := includes "SOLAR HOME" ty in
  let grid := includes "GRID" ty in
  (eval p technologyColor = Some (VStr "#3498db") <-> mini = true) /\
  (eval p technologyColor = Some (VStr "#f39c12") <-> light = true /\ mini = false) /\
  (eval p technologyColor = Some (VStr "#9b59b6") <->
     light = false /\ mini = false /\ home = true) /\
  (eval p technologyColor = Some (VStr "#E63946") <->
     light = false /\ mini = false /\ home = false /\ grid = true) /\
  (eval p technologyColor = Some (VStr "#95a5a6") <->
     light = false /\ mini = false /\ home = false /\ grid = false).
Proof.
  apply (technology_colour_classes
           {["type" := VStr "SOLAR MINI GRID/SOLAR STREET LIGHT"]}
           "SOLAR MINI GRID/SOLAR STREET LIGHT").
  reflexivity.
Defined.

(** For each of the three statuses of the filter panel, the chip, the badge
    in the popup of a point and the circle in Performance view have the same
    colour, and the Performance legend lists it. *)
Theorem status_colours_agree p s :
  In s STATUSES -> p !! "status" = Some (VStr s) ->
  chipColor None s = popupColor s /\
  eval p performanceColor = Some (VStr (popupColor s)) /\
  In (popupColor s) (List.map fst (renderLegend performance)).
Proof.
  intros Hs Hp. rewrite performance_colour. unfold prop. rewrite Hp. cbn [default].
  cbn in Hs. destruct Hs as [<-|[<-|[<-|[]]]]; cbn; tauto.
Qed.

Lemma status_colours_agree_witness :
  chipColor None "ONGOING" = popupColor "ONGOING" /\
  eval {["status" := VStr "ONGOING"]} performanceColor = Some (VStr (popupColor "ONGOING")) /\
  In (popupColor "ONGOING") (List.map fst (renderLegend performance)).
Proof.
  apply (status_colours_agree {["status" := VStr "ONGOING"]} "ONGOING").
  - cbn. tauto.
  - reflexivity.
Defined.

(** The frame of the side panel is shown exactly when [renderSidePanel] has
    something to put in it; in Performance view neither is there. *)
Theorem side_panel_frame_has_content (h : Hooks) :
  (showSidePanel h = true <-> is_Some (renderSidePanel h)) /\
  (view h = performance -> showSidePanel h = false /\ renderSidePanel h = None).
Proof.
  unfold showSidePanel, renderSidePanel, present.
  destruct (activeState h) as [a|], (stateData h) as [d|], (view h);
    try destruct (String.eqb a ""); cbn [negb andb];
    repeat case_bool_decide;
    split; try split; try (intros; split); try done;
    try (intros [? ?]; discriminate); try (by eexists);
    try (exfalso; match goal with H : ¬ is_Some _ |- _ => apply H; by eexists end);
    try (match goal with H : is_Some None |- _ => by destruct H end).
Qed.

End Colours.

(* ================================================================== *)
(** ** More on the filter, the pie chart and the conversion *)
(* ================================================================== *)

Section Alternatives.

Implicit Types (p : Props) (l ys ss ts : list string) (y : string).

Lemma dimension_ok_app p (k : string) l1 l2 :
  nonempty l1 = true -> nonempty l2 = true ->
  dimension_ok p k (l1 ++ l2) = dimension_ok p k l1 || dimension_ok p k l2.
Proof.
  intros H1 H2. destruct l1 as [|x1 l1]; [discriminate|].
  destruct l2 as [|x2 l2]; [discriminate|].
  unfold dimension_ok. change ((x1 :: l1) ++ x2 :: l2) with (x1 :: (l1 ++ x2 :: l2)).
  destruct (prop p k); try reflexivity.
  change (x1 :: l1 ++ x2 :: l2) with ((x1 :: l1) ++ x2 :: l2). apply mem_app.
Qed.

Lemma toggle_absent y l : mem y l = false -> toggle y l = l ++ [y].
Proof. unfold toggle. by intros ->. Qed.

(** Selecting one more value in a dimension that already has a selection
    never hides a point: the points that pass are those that passed before
    together with those that pass for the new value alone. *)
Theorem one_more_value_adds_points y l ys ss ts (r : option string) p :
  mem y l = false -> nonempty l = true ->
  passes (compile (toggle y l) ss ts r) p =
    passes (compile l ss ts r) p || passes (compile [y] ss ts r) p /\
  passes (compile ys (toggle y l) ts r) p =
    passes (compile ys l ts r) p || passes (compile ys [y] ts r) p /\
  passes (compile ys ss (toggle y l) r) p =
    passes (compile ys ss l r) p || passes (compile ys ss [y] r) p.
Proof.
  intros Hy Hl. rewrite !passes_compile, (toggle_absent y l Hy). unfold selected.
  rewrite !(dimension_ok_app p _ l [y]) by done.
  split_and!;
    destruct (region_ok p r), (dimension_ok p "year" ys), (dimension_ok p "status" ss),
      (dimension_ok p "type" ts), (dimension_ok p "year" l), (dimension_ok p "year" [y]),
      (dimension_ok p "status" l), (dimension_ok p "status" [y]),
      (dimension_ok p "type" l), (dimension_ok p "type" [y]); reflexivity.
Qed.

Lemma one_more_value_adds_points_witness :
  let p : Props := {["year" := VStr "2023"; "status" := VStr "ONGOING"]} in
  passes (compile (toggle "2023" ["2022"]) ["ONGOING"] [] None) p =
    passes (compile ["2022"] ["ONGOING"] [] None) p
    || passes (compile ["2023"] ["ONGOING"] [] None) p /\
  passes (compile [] (toggle "2023" ["2022"]) [] None) p =
    passes (compile [] ["2022"] [] None) p || passes (compile [] ["2023"] [] None) p /\
  passes (compile [] ["ONGOING"] (toggle "2023" ["2022"]) None) p =
    passes (compile [] ["ONGOING"] ["2022"] None) p
    || passes (compile [] ["ONGOING"] ["2023"] None) p.
Proof.
  apply (one_more_value_adds_points "2023" ["2022"] [] ["ONGOING"] [] None
           {["year" := VStr "2023"; "status" := VStr "ONGOING"]}); reflexivity.
Defined.

End Alternatives.

Section Pie.

Implicit Types (data : list TechSlice).

Lemma add_zero_zero (a b : number) :
  is_zero a = true -> is_zero b = true -> is_zero (add a b) = true.
Proof. destruct a as [[|]| | |], b as [[|]| | |]; try discriminate; reflexivity. Qed.

Lemma add_nan_l (a : number) : add S754_nan a = S754_nan.
Proof. by destruct a. Qed.

Lemma add_nan_r (a : number) : add a S754_nan = S754_nan.
Proof. by destruct a. Qed.

Lemma fold_zero data (acc : number) :
  is_zero acc = true -> Forall (fun d => is_zero (value d) = true) data ->
  is_zero (fold_left (fun s d => add s (value d)) data acc) = true.
Proof.
  revert acc. induction data as [|d data IH]; intros acc Hacc Hall; [done|].
  apply Forall_cons in Hall as [Hd Hall]. cbn [fold_left].
  apply IH; [by apply add_zero_zero | done].
Qed.

Lemma fold_from_nan data :
  fold_left (fun s d => add s (value d)) data S754_nan = S754_nan.
Proof. induction data as [|d data IH]; [done|]. cbn [fold_left]. by rewrite add_nan_l. Qed.

Lemma fold_nan data (acc : number) :
  Exists (fun d => value d = S754_nan) data ->
  fold_left (fun s d => add s (value d)) data acc = S754_nan.
Proof.
  revert acc. induction data as [|d data IH]; intros acc Hex.
  - by apply Exists_nil in Hex.
  - apply Exists_cons in Hex as [Hd|Hex]; cbn [fold_left].
    + rewrite Hd, add_nan_r. apply fold_from_nan.
    + by apply IH.
Qed.

(** The pie chart draws nothing when all values are zero, and nothing when a
    value is not a number (a count missing from the record); when it draws,
    it has one slice for each value above zero, in the order of the data and
    in the colour of that entry. *)
Theorem pie_chart_needs_a_total data :
  (Forall (fun d => is_zero (value d) = true) data -> PieChart data = None) /\
  (Exists (fun d => value d = S754_nan) data -> PieChart data = None) /\
  (forall slices,
      PieChart data = Some slices ->
      List.map fill slices =
        List.map color (List.filter (fun d => gt (value d) (of_Z 0)) data) /\
      length slices <= length data).
Proof.
  unfold PieChart, pieTotal. cbn zeta. split_and!.
  - intros Hall. pose proof (fold_zero data (of_Z 0) eq_refl Hall) as Hz.
    destruct (fold_left _ data (of_Z 0)); try discriminate Hz. reflexivity.
  - intros Hex. by rewrite (fold_nan data (of_Z 0) Hex).
  - intros slices H. destruct (negb _); [discriminate|]. injection H as <-.
    rewrite List.map_map. cbn [fill]. split; [reflexivity|].
    rewrite length_map. apply List.filter_length_le.
Qed.

Example pie_of_lagos :
  List.map fill (default [] (PieChart (techData lagos))) =
  ["#f39c12"; "#E63946"; "#3498db"; "#9b59b6"].
Proof. vm_compute. reflexivity. Qed.

Example pie_without_a_count :
  PieChart (techData (mkRegionProps "Kano" (of_Z 3) (of_Z 1) (of_Z 1) (of_Z 1) (of_Z 33)
                        (of_Z 2) S754_nan (of_Z 0) (of_Z 1) (of_Z 0))) = None.
Proof. vm_compute. reflexivity. Qed.

End Pie.

Section MoreConversion.

Import Excel.

Variable numberToString : number -> string.
Variable stringToNumber : string -> number.

Abbreviation convert' := (convertExcelToGeoJSON numberToString stringToNumber).
Abbreviation feature' := (toFeature numberToString stringToNumber).

Lemma filter_filter {A : Type} (f : A -> bool) (l : list A) :
  List.filter f (List.filter f l) = List.filter f l.
Proof.
  induction l as [|x l IH]; [done|]. cbn [List.filter].
  destruct (f x) eqn:Hx; [|done]. cbn [List.filter]. by rewrite Hx, IH.
Qed.

Lemma properties_features (rows : list Row) :
  List.map properties (List.map feature' rows) = rows.
Proof. induction rows as [|r rows IH]; [done|]. cbn [List.map]. by rewrite IH. Qed.

(** The conversion goes row by row: the features of two sheets put together
    are the features of the first followed by those of the second; there are
    never more features than rows; the properties of the features are the
    rows that have both coordinates, in their order; and converting those
    properties again gives the same features. *)
Theorem conversion_row_by_row (data1 data2 : list Row) :
  features (convert' (data1 ++ data2)) =
    features (convert' data1) ++ features (convert' data2) /\
  length (features (convert' data1)) <= length data1 /\
  List.map properties (features (convert' data1)) = List.filter hasCoordinates data1 /\
  convert' (List.map properties (features (convert' data1))) = convert' data1.
Proof.
  unfold convertExcelToGeoJSON. cbn [features]. split_and!.
  - by rewrite List.filter_app, List.map_app.
  - rewrite length_map. apply List.filter_length_le.
  - apply properties_features.
  - by rewrite properties_features, filter_filter.
Qed.

Lemma prefix_comma (c : ascii) (s : string) :
  String.prefix "," (String c s) = Ascii.eqb c ",".
Proof.
  cbn [String.prefix]. destruct (ascii_dec "," c) as [<-|Hne].
  - by destruct s.
  - symmetry. apply Ascii.eqb_neq. congruence.
Qed.

Lemma replace_first_absent (s : string) :
  includes "," s = false -> replace_first "," "." s = s.
Proof.
  induction s as [|c s IH]; [done|].
  rewrite includes_cons, prefix_comma. intros H.
  apply orb_false_iff in H as [Hc Hs]. cbn [replace_first]. rewrite Hc.
  by rewrite IH.
Qed.

Lemma replace_first_middle (a b : string) :
  includes "," a = false ->
  replace_first "," "." (a ++ String "," b) = (a ++ String "." b)%string.
Proof.
  induction a as [|c a IH]; [done|].
  rewrite includes_cons, prefix_comma. intros H.
  apply orb_false_iff in H as [Hc Ha]. simpl. rewrite Hc.
  by rewrite IH.
Qed.

Lemma replace_first_length (s : string) :
  String.length (replace_first "," "." s) = String.length s.
Proof.
  induction s as [|c s IH]; [done|]. cbn [replace_first].
  destruct (Ascii.eqb c ","); cbn [String.length]; by rewrite ?IH.
Qed.

(** A text cell without a comma is read as it is; in a text cell with commas
    only the first becomes a point, so that a second comma stays in the text
    that is read as a number. *)
Theorem decimal_comma_first_only (a b : string) :
  includes "," a = false ->
  coordinate numberToString stringToNumber (Str a) = stringToNumber a /\
  coordinate numberToString stringToNumber (Str (a ++ String "," b)) =
    stringToNumber (a ++ String "." b) /\
  String.length (replace_first "," "." (a ++ String "," b))
    = String.length (a ++ String "," b)%string.
Proof.
  intros Ha. unfold coordinate, Number. cbn [String_of].
  split_and!.
  - by rewrite (replace_first_absent a Ha).
  - by rewrite (replace_first_middle a b Ha).
  - apply replace_first_length.
Qed.

End MoreConversion.

Lemma decimal_comma_first_only_witness :
  let numberToString : number -> string := fun _ => "0" in
  let stringToNumber : string -> number :=
    fun s => of_Z (Z.of_nat (String.length s)) in
  Excel.coordinate numberToString stringToNumber (Str "9") = stringToNumber "9" /\
  Excel.coordinate numberToString stringToNumber (Str "9,082,5") = stringToNumber "9.082,5" /\
  String.length (replace_first "," "." "9,082,5") = String.length "9,082,5".
Proof.
  apply (decimal_comma_first_only (fun _ => "0")
           (fun s => of_Z (Z.of_nat (String.length s))) "9" "082,5").
  reflexivity.
Defined.

Section Hover.

Implicit Types (name : string) (p : Props).

Lemma pointsFilter_hover name w :
  pointsFilter (setFilter "state-fill-hover" (Some (hoverFilter name)) w) = pointsFilter w.
Proof.
  unfold pointsFilter, setFilter. destruct (map w) eqn:E; rewrite ?E; [|done].
  cbn [map issue withMap map_setFilter filters]. by rewrite lookup_insert_ne.
Qed.

Lemma hoverOf_hover name w :
  hoverOf (setFilter "state-fill-hover" (Some (hoverFilter name)) w) =
  if hasMap w then Some (hoverFilter name) else None.
Proof.
  unfold hoverOf, hasMap, setFilter. destruct (map w) eqn:E; rewrite ?E; [|done].
  cbn [map issue withMap map_setFilter filters]. by rewrite lookup_insert_eq.
Qed.

Lemma passes_hover name p :
  passes (Some (hoverFilter name)) p = true <-> p !! "shapeName" = Some (VStr name).
Proof.
  unfold passes, hoverFilter. cbn [eval].
  destruct (p !! "shapeName") as [v|]; cbn [default from_option id value_eqb];
    [destruct v; cbn [value_eqb]|];
    try (split; intros H; [discriminate H | by inversion H]).
  destruct (String.eqb_spec s name) as [->|Hne]; split; intros H;
    try done; try discriminate H. congruence.
Qed.

(** Moving the pointer over the regions only sets the filter of the hover
    layer: the cells, the timers, the clock, the filter of the points and the
    style of the view stay as they are.  The hover layer then shows the
    regions whose name is the one under the pointer, and after the pointer
    leaves it has the filter that the load callback gave it, whichever
    regions were passed before. *)
Theorem hover_only_highlights name w :
  hooks (handleMouseMove name w) = hooks w /\
  timers (handleMouseMove name w) = timers w /\
  now (handleMouseMove name w) = now w /\
  pointsFilter (handleMouseMove name w) = pointsFilter w /\
  styleOf (handleMouseMove name w) = styleOf w /\
  hoverOf (handleMouseMove name w) = (if hasMap w then Some (hoverFilter name) else None) /\
  (forall p, passes (Some (hoverFilter name)) p = true <->
             p !! "shapeName" = Some (VStr name)) /\
  hoverOf (handleMouseLeave (handleMouseMove name w)) = hoverOf (handleMouseLeave w) /\
  hoverOf (handleMouseLeave (onLoad w)) = hoverOf (onLoad w).
Proof.
  unfold handleMouseMove, handleMouseLeave. split_and!.
  - apply hooks_setFilter.
  - by_map w.
  - by_map w.
  - apply pointsFilter_hover.
  - apply styleOf_setFilter.
  - apply hoverOf_hover.
  - intros p. apply passes_hover.
  - rewrite !hoverOf_hover. unfold hasMap, setFilter.
    destruct (map w) eqn:E; by rewrite ?E.
  - rewrite hoverOf_hover. unfold hoverOf, hasMap, onLoad.
    destruct (map w) eqn:E; rewrite ?E; [|done].
    cbn [map setTimeout withMap filters]. by rewrite lookup_insert_eq.
Qed.

Example hover_over_lagos :
  let w := handleMouseMove "Lagos" (world_of filteredLagos) in
  hoverOf w = Some (hoverFilter "Lagos") /\
  pointsFilter w = pointsFilter (world_of filteredLagos) /\
  activeState (hooks w) = Some "LAGOS".
Proof. split_and!; vm_compute; reflexivity. Qed.

End Hover.

Section CountWitness.

Lemma toggle_changes_count_by_one_witness :
  let w := world_of filteredLagos in
  let w' := world_of (filteredLagos ++ [ToggleYear "2021"]) in
  activeFilterCount (hooks w') =
    (if isSelected (TYear "2021") (hooks w)
     then activeFilterCount (hooks w) - 1
     else activeFilterCount (hooks w) + 1) /\
  (isSelected (TYear "2021") (hooks w) = true -> 1 <= activeFilterCount (hooks w)).
Proof.
  apply (toggle_changes_count_by_one (TYear "2021") (world_of filteredLagos)
           (world_of (filteredLagos ++ [ToggleYear "2021"]))).
  - apply reachable_world_of. vm_compute. eauto.
  - vm_compute. reflexivity.
Defined.

End CountWitness.

Section Shares.

(** A technology without projects has the share zero whatever the total is,
    and a count that is not a number gives a share that is not a number as
    soon as the total is neither zero nor not a number. *)
Theorem pct_without_a_count (sgn : bool) (total : number) :
  is_zero (pct (S754_zero sgn) total) = true /\
  pct S754_nan total = (if truthy_number total then S754_nan else of_Z 0).
Proof.
  split.
  - destruct total as [s| s| |s m e]; reflexivity.
  - destruct total; reflexivity.
Qed.

Example share_of_a_missing_count : pct S754_nan (of_Z 12) = S754_nan.
Proof. vm_compute. reflexivity. Qed.

End Shares.

(* ================================================================== *)
(** ** The empty-area click and the filter in place *)
(* ================================================================== *)

Section EmptyClick.

Lemma synced_run es w w' :
  hasPoints w = true -> synced w -> run es w = Some w' -> synced w'.
Proof.
  revert w. induction es as [|e es IH]; intros w Hpts Hs Hrun; cbn [run] in Hrun.
  - by injection Hrun as <-.
  - destruct (exec e w) as [w1|] eqn:Hex; [|discriminate].
    apply (IH w1); [by eapply exec_hasPoints | by eapply synced_exec | done].
Qed.

Lemma load_starts_unfiltered w w' :
  reachable w -> exec Load w = Some w' ->
  pointsFilter w' = None /\ hooks w' = hooks w /\ hasPoints w' = true.
Proof.
  intros Hreach Hex. pose proof (reachable_styled w Hreach) as Hst.
  destruct (exec_effect Load w w' Hex) as (Hh & _ & _ & _).
  cbn [exec] in Hex. destruct (map w) as [m|] eqn:Hm; [|discriminate].
  destruct (registered w) eqn:Hr; [discriminate|]. injection Hex as <-.
  unfold styled in Hst. rewrite Hr in Hst. destruct Hst as [Hblank _].
  split_and!; try done.
  - rewrite onLoad_pointsFilter. by apply blank_pointsFilter.
  - apply onLoad_hasPoints. by eexists.
Qed.

(** A year selected while the map is loading is on the chips but not in the
    filter: [applyFilter] returns without the point layer, and [load] adds
    the layer without a filter.  The next click on nothing sets the filter
    compiled from the selections, so that the filter gains the year conjunct:
    it is not the filter that was in place with its region conjunct removed,
    and a point of another year that passed before no longer passes. *)
Lemma empty_click_after_early_toggle :
  reachable (world_of earlyToggle) /\
  exec (MapClick 0) (world_of earlyToggle) = Some (handleMapClick 0 (world_of earlyToggle)) /\
  selection (hooks (world_of earlyToggle)) = (["2022"], [], []) /\
  selection (hooks (handleMapClick 0 (world_of earlyToggle))) = (["2022"], [], []) /\
  activeState (hooks (world_of earlyToggle)) = None /\
  pointsFilter (world_of earlyToggle) = None /\
  withoutRegion (pointsFilter (world_of earlyToggle)) = None /\
  pointsFilter (handleMapClick 0 (world_of earlyToggle)) =
    Some (EIn (EGet "year") (ELiteral ["2022"])) /\
  pointsFilter (handleMapClick 0 (world_of earlyToggle)) <>
    withoutRegion (pointsFilter (world_of earlyToggle)) /\
  passes (withoutRegion (pointsFilter (world_of earlyToggle)))
    {["year" := VStr "2021"]} = true /\
  passes (pointsFilter (handleMapClick 0 (world_of earlyToggle)))
    {["year" := VStr "2021"]} = false.
Proof.
  split_and!;
    lazymatch goal with
    | |- reachable _ => apply reachable_world_of; vm_compute; eauto
    | |- _ = _ => vm_compute; reflexivity
    | |- _ <> _ => vm_compute; discriminate
    end.
Qed.

(** C4, as the code has it.  A click that hits no region and no point clears
    the active region and the region statistics, leaves the years, statuses,
    types and the view as they are, and sets the filter compiled from those
    selections without a region.  That filter is the one that was in place
    with only its region conjunct removed whenever the filter in place had
    been compiled from the current selections: so it is in every state
    reached after [load] ran with nothing selected, and in every state
    reached after a callback that calls [applyFilter] ran with the point
    layer present. *)
Theorem empty_click_clears_region_only w w' :
  reachable w -> exec (MapClick 0) w = Some w' ->
  selection (hooks w') = selection (hooks w) /\
  view (hooks w') = view (hooks w) /\
  activeState (hooks w') = None /\ stateData (hooks w') = None /\
  pointsFilter w' = compileSelection (selection (hooks w)) None /\
  pointsFilter w' =
    withoutRegion (compileSelection (selection (hooks w)) (activeState (hooks w))) /\
  issued w' = issued w ++ [CsetFilter "project-points" (pointsFilter w')] /\
  (synced w -> pointsFilter w' = withoutRegion (pointsFilter w)) /\
  (forall w0 w1 es,
      reachable w0 -> selection (hooks w0) = ([], [], []) ->
      exec Load w0 = Some w1 -> run es w1 = Some w ->
      pointsFilter w' = withoutRegion (pointsFilter w)) /\
  (forall e w0 w1 es,
      filterEvent e = true -> hasPoints w0 = true ->
      exec e w0 = Some w1 -> run es w1 = Some w ->
      pointsFilter w' = withoutRegion (pointsFilter w)).
Proof.
  intros Hreach Hex.
  destruct (empty_click_effect w w' Hreach Hex) as (H1 & H2 & H3 & H4 & H5 & H6 & H7 & H8).
  assert (Hsync : synced w -> pointsFilter w' = withoutRegion (pointsFilter w)).
  { intros [r Hr]. by apply (H7 r). }
  split_and!; try done.
  - intros w0 w1 es Hr0 Hsel HL Hrun. apply Hsync.
    destruct (load_starts_unfiltered w0 w1 Hr0 HL) as (Hf & Hh & Hpts).
    apply (synced_run es w1 w); [done| |done].
    exists None. by rewrite Hf, Hh, Hsel.
  - intros e w0 w1 es Hf Hpts He Hrun. apply Hsync.
    apply (synced_run es w1 w); [by eapply exec_hasPoints| |done].
    exists (activeState (hooks w1)). by eapply filterEvent_syncs.
Qed.

Lemma empty_click_clears_region_only_witness :
  let w := world_of filteredLagos in
  let w' := world_of (filteredLagos ++ [MapClick 0]) in
  selection (hooks w') = selection (hooks w) /\
  view (hooks w') = view (hooks w) /\
  activeState (hooks w') = None /\ stateData (hooks w') = None /\
  pointsFilter w' = compileSelection (selection (hooks w)) None /\
  pointsFilter w' =
    withoutRegion (compileSelection (selection (hooks w)) (activeState (hooks w))) /\
  issued w' = issued w ++ [CsetFilter "project-points" (pointsFilter w')] /\
  (synced w -> pointsFilter w' = withoutRegion (pointsFilter w)) /\
  (forall w0 w1 es,
      reachable w0 -> selection (hooks w0) = ([], [], []) ->
      exec Load w0 = Some w1 -> run es w1 = Some w ->
      pointsFilter w' = withoutRegion (pointsFilter w)) /\
  (forall e w0 w1 es,
      filterEvent e = true -> hasPoints w0 = true ->
      exec e w0 = Some w1 -> run es w1 = Some w ->
      pointsFilter w' = withoutRegion (pointsFilter w)).
Proof.
  apply (empty_click_clears_region_only (world_of filteredLagos)
           (world_of (filteredLagos ++ [MapClick 0]))).
  - apply reachable_world_of. vm_compute. eauto.
  - vm_compute. reflexivity.
Defined.

(** In the scenario of the design document the filter in place was compiled
    from the selections, and the click removes its region conjunct. *)
Example empty_click_in_scenario :
  synced (world_of filteredLagos) /\
  pointsFilter (world_of (filteredLagos ++ [MapClick 0])) =
    withoutRegion (pointsFilter (world_of filteredLagos)).
Proof.
  split; [exists (Some "LAGOS")|]; vm_compute; reflexivity.
Qed.

End EmptyClick.
